(** * Xcode project synchronisation scripts: a shallow embedding

    The scripts under [scripts/] read and edit the text of
    [documentAI.xcodeproj/project.pbxproj].  Python text is modelled as a
    list of characters, the file system as a finite map from paths to file
    contents, and every script as a function on an explicit world: the
    files, the source tree, the random source and the list of writes made
    so far.  Calls of [print] change neither the files nor the control flow
    and are left out. *)

From Stdlib Require Import Ascii String ZArith NArith List Lia Bool.
From stdpp Require Import base option list gmap strings.

Open Scope list_scope.

(** ** Python [str] *)

Abbreviation str := (list ascii).

(** A literal of the source. *)
Definition lit (s : string) : str := list_ascii_of_string s.

Definition TAB : ascii := ascii_of_nat 9.
Definition NL : ascii := ascii_of_nat 10.
Definition DQUOTE : ascii := ascii_of_nat 34.

Module Py.

(** [s.startswith(p)] *)
Fixpoint startswith (p s : str) : bool :=
  match p, s with
  | [], _ => true
  | _ :: _, [] => false
  | a :: p', b :: s' => if Ascii.eqb a b then startswith p' s' else false
  end.

(** [s.endswith(p)] *)
Definition endswith (p s : str) : bool := startswith (rev p) (rev s).

(** Offset of the first occurrence of [sub] in [s]. *)
Fixpoint index_of (sub s : str) : option nat :=
  if startswith sub s then Some 0
  else match s with
       | [] => None
       | _ :: s' => S <$> index_of sub s'
       end.

(** Offset of the last occurrence of [sub] in [s]. *)
Fixpoint rindex_of (sub s : str) : option nat :=
  match s with
  | [] => if startswith sub [] then Some 0 else None
  | _ :: s' =>
      match rindex_of sub s' with
      | Some i => Some (S i)
      | None => if startswith sub s then Some 0 else None
      end
  end.

(** A slice bound as Python normalises it: a negative bound counts from the
    end, and the result is clamped to [0, len]. *)
Definition bound (i : Z) (len : nat) : nat :=
  let n := Z.of_nat len in
  Z.to_nat (if (i <? 0)%Z then Z.max 0 (i + n) else Z.min i n).

(** [s[:i]] and [s[i:]] *)
Definition upto (s : str) (i : Z) : str := take (bound i (length s)) s.
Definition from (s : str) (i : Z) : str := drop (bound i (length s)) s.

(** [s.find(sub, start)]: the lowest index at or after [start] where [sub]
    occurs, [-1] when there is none. *)
Definition find (s sub : str) (start : Z) : Z :=
  let n := Z.of_nat (length s) in
  let st := if (start <? 0)%Z then Z.max 0 (start + n) else start in
  if (n <? st)%Z then (-1)%Z
  else match index_of sub (drop (Z.to_nat st) s) with
       | Some i => (st + Z.of_nat i)%Z
       | None => (-1)%Z
       end.

(** [s.rfind(sub)] *)
Definition rfind (s sub : str) : Z :=
  match rindex_of sub s with
  | Some i => Z.of_nat i
  | None => (-1)%Z
  end.

(** [sub in s] *)
Definition contains (sub s : str) : bool :=
  match index_of sub s with Some _ => true | None => false end.

(** [s.replace(old, new)] for a non-empty [old]: occurrences are taken from
    the left and do not overlap.  [skip] counts the characters of a match
    still to be passed over. *)
Fixpoint replace_from (old new s : str) (skip : nat) : str :=
  match s with
  | [] => []
  | c :: s' =>
      match skip with
      | S k => replace_from old new s' k
      | O =>
          if startswith old s
          then new ++ replace_from old new s' (length old - 1)
          else c :: replace_from old new s' 0
      end
  end.

Definition replace (s old new : str) : str :=
  match old with
  | [] => s   (* not used by the scripts *)
  | _ :: _ => replace_from old new s 0
  end.

(** [s.split(sep)] for a non-empty [sep]. *)
Fixpoint split_from (sep s : str) (skip : nat) (cur : str) : list str :=
  match s with
  | [] => [cur]
  | c :: s' =>
      match skip with
      | S k => split_from sep s' k cur
      | O =>
          if startswith sep s
          then cur :: split_from sep s' (length sep - 1) []
          else split_from sep s' 0 (cur ++ [c])
      end
  end.

Definition split (s sep : str) : list str := split_from sep s 0 [].

(** [s.strip(chars)] for a one-character [chars]. *)
Fixpoint lstrip (c : ascii) (s : str) : str :=
  match s with
  | a :: s' => if Ascii.eqb a c then lstrip c s' else s
  | [] => []
  end.

Definition strip (c : ascii) (s : str) : str := rev (lstrip c (rev (lstrip c s))).

(** [s.upper()] on ASCII text. *)
Definition upper_char (c : ascii) : ascii :=
  let n := nat_of_ascii c in
  if (97 <=? n)%nat && (n <=? 122)%nat then ascii_of_nat (n - 32) else c.

Definition upper (s : str) : str := map upper_char s.

(** [''.join(parts)] *)
Definition join (parts : list str) : str := concat parts.

(** [os.path.basename(p)] on POSIX: the text after the last slash. *)
Definition basename (p : str) : str := from p (rfind p (lit "/") + 1).

(** [os.path.dirname(p)] is computed by one script and never used. *)

End Py.

(** ** [uuid.uuid4().hex] *)

Module Uuid.

Definition hex_digit (d : N) : ascii :=
  nth (N.to_nat d) (lit "0123456789abcdef") "0"%char.

(** [w] hexadecimal digits of [n], most significant first. *)
Fixpoint hex_fixed (w : nat) (n : N) : str :=
  match w with
  | O => []
  | S w' => hex_fixed w' (n / 16) ++ [hex_digit (n mod 16)]
  end.

(** [uuid4()] takes 16 random bytes and forces the variant and version
    bits; [r] is the integer value of the random bytes. *)
Definition uuid4 (r : N) : N :=
  let i := (r mod 2 ^ 128)%N in
  let i := N.lor (N.ldiff i (N.shiftl 0xc000 48)) (N.shiftl 0x8000 48) in
  N.lor (N.ldiff i (N.shiftl 0xf000 64)) (N.shiftl 4 76).

(** [u.hex]: 32 lower-case hexadecimal digits. *)
Definition hex (u : N) : str := hex_fixed 32 u.

(** [uuid.uuid4().hex[:24].upper()] *)
Definition token (r : N) : str := Py.upper (Py.upto (hex (uuid4 r)) 24).

End Uuid.

(** ** The world the scripts run in *)

(** Every modification of the file system is also recorded, in order. *)
Inductive effect :=
  | Wrote (path : string) (content : str).

#[local] Set Warnings "-register-all".

(** A directory as [os.walk] sees it: the names of its plain files and its
    sub-directories, in listing order. *)
Inductive dir :=
  | Dir (files : list str) (subdirs : list (str * dir)).

Record world := World {
  fs : gmap string str;        (* path -> content of the files that exist *)
  dirs : gset string;          (* the directories that exist *)
  tree : dir;                  (* the source directory [documentAI] *)
  writes : list effect;        (* what has been written so far *)
  entropy : nat -> N;          (* the random source: its k-th draw *)
  drawn : nat                  (* number of draws made *)
}.

Inductive outcome (A : Type) :=
  | Returned (a : A)
  | Raised                     (* an exception nobody caught *)
  | Exited (code : Z).         (* sys.exit(code) *)
Arguments Returned {A} a.
Arguments Raised {A}.
Arguments Exited {A} code.

Definition prog (A : Type) : Type := world -> outcome A * world.

#[global] Instance prog_ret : MRet prog := fun A a w => (Returned a, w).

#[global] Instance prog_bind : MBind prog := fun A B k c w =>
  match c w with
  | (Returned a, w') => k a w'
  | (Raised, w') => (Raised, w')
  | (Exited n, w') => (Exited n, w')
  end.

Definition raise {A} : prog A := fun w => (Raised, w).
Definition sys_exit {A} (code : Z) : prog A := fun w => (Exited code, w).

(** [try: c except Exception: h].  [sys.exit] raises [SystemExit], which
    [except Exception] does not catch. *)
Definition try_except {A} (c : prog A) (h : prog A) : prog A :=
  fun w =>
    match c w with
    | (Raised, w') => h w'
    | r => r
    end.

(** [os.path.exists(p)] *)
Definition path_exists (p : string) : prog bool :=
  fun w => (Returned (bool_decide (is_Some (fs w !! p)) || bool_decide (p ∈ dirs w)), w).

(** [open(p, 'r').read()] *)
Definition read_file (p : string) : prog str :=
  fun w =>
    match fs w !! p with
    | Some c => (Returned c, w)
    | None => (Raised, w)
    end.

(** [open(p, 'w').write(c)].  Every script writes next to a file it has just
    read, so the directory exists and the write goes through. *)
Definition write_file (p : string) (c : str) : prog unit :=
  fun w =>
    (Returned tt,
     {| fs := <[p := c]> (fs w); dirs := dirs w; tree := tree w;
        writes := writes w ++ [Wrote p c];
        entropy := entropy w; drawn := drawn w |}).

(** [shutil.copy2(src, dst)] *)
Definition copy2 (src dst : string) : prog unit :=
  c ← read_file src; write_file dst c.

(** One call of [uuid.uuid4().hex[:24].upper()]. *)
Definition fresh_token : prog str :=
  fun w =>
    (Returned (Uuid.token (entropy w (drawn w))),
     {| fs := fs w; dirs := dirs w; tree := tree w; writes := writes w;
        entropy := entropy w; drawn := S (drawn w) |}).

(** The file system obtained by replaying a list of effects. *)
Definition apply_effect (m : gmap string str) (e : effect) : gmap string str :=
  match e with Wrote p c => <[p := c]> m end.

Definition replay (m : gmap string str) (es : list effect) : gmap string str :=
  foldl apply_effect m es.

(** ** [add_files_to_xcode.py]: the direct text-splice inserter *)

Module AddFiles.

(** The value stored in [file_refs] for one file. *)
Record file_info := FileInfo {
  ref_uuid : str;
  build_uuid : str;
  name : str
}.

(** A Python [dict] keeps its keys in insertion order, and an assignment to
    a key that is present replaces the value where it stands. *)
Fixpoint dict_set {V} (k : str) (v : V) (d : list (str * V)) : list (str * V) :=
  match d with
  | [] => [(k, v)]
  | (k', v') :: d' =>
      if decide (k = k') then (k, v) :: d' else (k', v') :: dict_set k v d'
  end.

Fixpoint dict_get {V} (k : str) (d : list (str * V)) : option V :=
  match d with
  | [] => None
  | (k', v) :: d' => if decide (k = k') then Some v else dict_get k d'
  end.

(** Lines 20-29: two tokens are drawn for every element of [files_to_add]. *)
Fixpoint collect (files_to_add : list str) (file_refs : list (str * file_info))
  : prog (list (str * file_info)) :=
  match files_to_add with
  | [] => mret file_refs
  | file_path :: rest =>
      let file_name := Py.basename file_path in
      file_ref_uuid ← fresh_token;
      build_file_uuid ← fresh_token;
      collect rest
        (dict_set file_path
           {| ref_uuid := file_ref_uuid; build_uuid := build_file_uuid;
              name := file_name |} file_refs)
  end.

Definition BEGIN_BUILD : str := lit "/* Begin PBXBuildFile section */".
Definition END_BUILD : str := lit "/* End PBXBuildFile section */".
Definition BEGIN_REF : str := lit "/* Begin PBXFileReference section */".
Definition END_REF : str := lit "/* End PBXFileReference section */".
Definition BEGIN_SOURCES : str := lit "/* Begin PBXSourcesBuildPhase section */".
Definition END_SOURCES : str := lit "/* End PBXSourcesBuildPhase section */".
Definition FILES_OPEN : str := lit "files = (".
Definition FILES_CLOSE : str := lit ");".

(** The three f-strings of lines 42, 61 and 87, as functions of the values
    they interpolate. *)
Definition build_file_line (build_uuid name ref_uuid : str) : str :=
  [TAB; TAB] ++ build_uuid ++ lit " /* " ++ name
    ++ lit " in Sources */ = {isa = PBXBuildFile; fileRef = " ++ ref_uuid
    ++ lit " /* " ++ name ++ lit " */; };" ++ [NL].

Definition file_ref_line (ref_uuid name path : str) : str :=
  [TAB; TAB] ++ ref_uuid ++ lit " /* " ++ name
    ++ lit " */ = {isa = PBXFileReference; lastKnownFileType = sourcecode.swift; path = "
    ++ path ++ lit "; sourceTree = " ++ [DQUOTE] ++ lit "<group>" ++ [DQUOTE]
    ++ lit "; };" ++ [NL].

Definition source_line (build_uuid name : str) : str :=
  [TAB; TAB; TAB; TAB] ++ build_uuid ++ lit " /* " ++ name
    ++ lit " in Sources */," ++ [NL].

(** Line 42. *)
Definition build_file_entry (i : file_info) : str :=
  build_file_line (build_uuid i) (name i) (ref_uuid i).

(** Lines 60-61: [rel_path] is computed and not used; the line is built
    from [info['name']] alone. *)
Definition file_ref_entry (file_path : str) (i : file_info) : str :=
  let rel_path := Py.replace file_path (lit "documentAI/") [] in
  file_ref_line (ref_uuid i) (name i) (name i).

(** Line 87. *)
Definition source_entry (i : file_info) : str :=
  source_line (build_uuid i) (name i).

Definition build_file_entries (file_refs : list (str * file_info)) : list str :=
  map (fun kv => build_file_entry kv.2) file_refs.
Definition file_ref_entries (file_refs : list (str * file_info)) : list str :=
  map (fun kv => file_ref_entry kv.1 kv.2) file_refs.
Definition source_entries (file_refs : list (str * file_info)) : list str :=
  map (fun kv => source_entry kv.2) file_refs.

(** [content[:insert_pos] + ''.join(entries) + content[insert_pos:]] *)
Definition splice (content : str) (insert_pos : Z) (entries : list str) : str :=
  Py.upto content insert_pos ++ Py.join entries ++ Py.from content insert_pos.

(** Lines 31-47; [None] stands for the early [return False]. *)
Definition insert_build_files (content : str) (file_refs : list (str * file_info))
  : option str :=
  let build_file_section_start := Py.find content BEGIN_BUILD 0 in
  let build_file_section_end := Py.find content END_BUILD 0 in
  if (build_file_section_start =? -1)%Z || (build_file_section_end =? -1)%Z
  then None
  else Some (splice content build_file_section_end (build_file_entries file_refs)).

(** Lines 49-66. *)
Definition insert_file_refs (content : str) (file_refs : list (str * file_info))
  : option str :=
  let file_ref_section_start := Py.find content BEGIN_REF 0 in
  let file_ref_section_end := Py.find content END_REF 0 in
  if (file_ref_section_start =? -1)%Z || (file_ref_section_end =? -1)%Z
  then None
  else Some (splice content file_ref_section_end (file_ref_entries file_refs)).

(** Lines 68-92. *)
Definition insert_sources (content : str) (file_refs : list (str * file_info))
  : option str :=
  let sources_section_start := Py.find content BEGIN_SOURCES 0 in
  let sources_section_end := Py.find content END_SOURCES 0 in
  if (sources_section_start =? -1)%Z || (sources_section_end =? -1)%Z
  then None
  else
    let files_array_start := Py.find content FILES_OPEN sources_section_start in
    let files_array_end := Py.find content FILES_CLOSE files_array_start in
    if (files_array_start =? -1)%Z || (files_array_end =? -1)%Z
    then None
    else Some (splice content files_array_end (source_entries file_refs)).

(** Lines 31-92: the three insertions, each made in the text the previous
    one produced. *)
Definition insert_all (content : str) (file_refs : list (str * file_info))
  : option str :=
  content ← insert_build_files content file_refs;
  content ← insert_file_refs content file_refs;
  insert_sources content file_refs.

Definition add_files_to_pbxproj (pbxproj_path : string) (files_to_add : list str)
  : prog bool :=
  content ← read_file pbxproj_path;
  file_refs ← collect files_to_add [];
  match insert_all content file_refs with
  | None => mret false
  | Some content => write_file pbxproj_path content;; mret true
  end.

Definition pbxproj_path : string := "documentAI.xcodeproj/project.pbxproj".

Definition files_to_add : list str :=
  [ lit "documentAI/Extensions/PDFDocument+AcroForm.swift";
    lit "documentAI/Features/DocumentEditor/QuickLookPDFView.swift" ].

(** The script's entry point (lines 100-117). *)
Definition main : prog unit :=
  ok ← add_files_to_pbxproj pbxproj_path files_to_add;
  if ok : bool then mret tt else sys_exit 1.

End AddFiles.

(** ** [os.walk] as the two scanning scripts use it *)

Module Walk.

(** [not d.startswith('.') and d not in ['build', 'DerivedData']] *)
Definition kept (d : str) : bool :=
  negb (Py.startswith (lit ".") d)
  && negb (bool_decide (d ∈ [lit "build"; lit "DerivedData"])).

(** [os.path.join(root, name)] for a relative [name]. *)
Definition path_join (root name : str) : str := root ++ lit "/" ++ name.

(** The loop of [find_swift_files]: the directory itself first, then the
    sub-directories that were kept, in order.  The paths are the joins of
    [root] and the names; for the relative root of [auto_add_files.py],
    [os.path.relpath(_, '.')] returns such a path unchanged. *)
Fixpoint find_swift_files_in (root : str) (d : dir) : list str :=
  match d with
  | Dir files subdirs =>
      map (path_join root) (filter (fun file => Py.endswith (lit ".swift") file = true) files)
      ++ flat_map
           (fun e => if kept e.1 then find_swift_files_in (path_join root e.1) e.2 else [])
           subdirs
  end.

Definition find_swift_files (root : str) : prog (list str) :=
  fun w => (Returned (find_swift_files_in root (tree w)), w).

End Walk.

(** ** [auto_add_files.py]: the library-backed synchroniser *)

(** The third-party [pbxproj] package is not part of the repository; the
    script uses the five operations below. *)
Record pbx_object := PbxObject {
  obj_path : option str;       (* the attribute [path], when the object has one *)
  obj_name : option str        (* the attribute [name], when the object has one *)
}.

Class XcodeProject := {
  project : Type;
  (** [XcodeProject.load(path)] parses the text of the file; [None] when it raises. *)
  parse : str -> option project;
  (** [project.objects.get_objects_in_section('PBXFileReference')] *)
  file_references : project -> list pbx_object;
  (** [project.get_target_by_name(name)] is not [None] *)
  has_target : project -> str -> bool;
  (** [project.add_file(path, parent=project, target_name=...)]: the project
      afterwards, and whether the call raised. *)
  add_file : project -> str -> project * bool;
  (** [project.save()]: the text written to the project's path; [None] when
      it raises before writing. *)
  save_text : project -> option str
}.

Module AutoAdd.
Section WithLibrary.
Context `{XcodeProject}.

Definition load (project_path : string) : prog project :=
  content ← read_file project_path;
  match parse content with
  | Some p => mret p
  | None => raise
  end.

(** Lines 33-41. *)
Definition get_files_in_project (p : project) : gset str :=
  foldl
    (fun existing_files obj =>
       match obj_path obj with
       | Some (c :: path) => existing_files ∪ {[ c :: path ]}
       | _ => existing_files
       end)
    ∅ (file_references p).

(** Lines 62-73: an exception of [add_file] is caught and the loop goes on. *)
Definition add_each (p : project) (files_to_add : list str) : project :=
  foldl (fun p file_path => (add_file p file_path).1) p files_to_add.

(** Lines 43-82. *)
Definition add_files_to_project (project_path : string) (files_to_add : list str)
  : prog bool :=
  match files_to_add with
  | [] => mret true
  | _ :: _ =>
      try_except
        (p ← load project_path;
         if negb (has_target p (lit "documentAI")) then mret false
         else
           let p := add_each p files_to_add in
           match save_text p with
           | Some text => write_file project_path text;; mret true
           | None => raise
           end)
        (mret false)
  end.

Definition project_path : string := "documentAI.xcodeproj/project.pbxproj".
Definition backup_path : string := project_path +:+ ".backup".

(** Lines 113-119. *)
Definition untracked (all_swift_files : list str) (existing_files : gset str)
  : list str :=
  filter
    (fun swift_file =>
       let file_name := Py.basename swift_file in
       ((file_name ∉ existing_files) ∧ (swift_file ∉ existing_files)))
    all_swift_files.

(** Lines 84-134. *)
Definition main : prog unit :=
  present ← path_exists project_path;
  if negb present then sys_exit 1
  else
    backed_up ← path_exists backup_path;
    (if negb backed_up then copy2 project_path backup_path else mret tt);;
    all_swift_files ← Walk.find_swift_files (lit "documentAI");
    existing_files ←
      try_except (p ← load project_path; mret (get_files_in_project p))
                 (sys_exit 1);
    let files_to_add := untracked all_swift_files existing_files in
    match files_to_add with
    | [] => mret tt
    | _ :: _ =>
        ok ← add_files_to_project project_path files_to_add;
        if ok : bool then mret tt else sys_exit 1
    end.

End WithLibrary.
End AutoAdd.

(** ** [update_xcode_project.py]: the report-only scanner *)

Module Update.

(** The body of the loop of lines 33-39 for one line of the file. *)
Definition scan_line (referenced_files : gset str) (line : str) : gset str :=
  if Py.contains (lit ".swift") line && Py.contains (lit "path =") line
  then
    match Py.split line (lit "path = ") with
    | _ :: part1 :: _ =>
        let filename := Py.strip DQUOTE (hd [] (Py.split part1 (lit ";"))) in
        referenced_files ∪ {[ filename ]}
    | _ => referenced_files
    end
  else referenced_files.

(** Lines 25-43: a file that cannot be read gives the empty set. *)
Definition get_project_files_from_pbxproj (pbxproj_path : string) : prog (gset str) :=
  try_except
    (content ← read_file pbxproj_path;
     mret (foldl scan_line ∅ (Py.split content [NL])))
    (mret ∅).

(** Lines 67-72. *)
Definition new_files (swift_files : list str) (referenced : gset str) : list str :=
  filter (fun file_path => Py.basename file_path ∉ referenced) swift_files.

(** Lines 45-93; [project_root] is the parent of the directory that holds
    the script.  The value returned is the list the report prints. *)
Definition main (project_root : string) : prog (list str) :=
  let documentai_dir := project_root +:+ "/documentAI" in
  let xcodeproj := project_root +:+ "/documentAI.xcodeproj" in
  let pbxproj := xcodeproj +:+ "/project.pbxproj" in
  present ← path_exists xcodeproj;
  if negb present then sys_exit 1
  else
    swift_files ← Walk.find_swift_files (lit documentai_dir);
    referenced ← get_project_files_from_pbxproj pbxproj;
    mret (new_files swift_files referenced).

End Update.

(** ** [fix_xcode_references.py]: the path rewriter *)

Module Fix.

Definition FILE_MAPPINGS : list (str * str) :=
  [ (lit "DocumentAIApp.swift", lit "App/DocumentAIApp.swift");
    (lit "HomeView.swift", lit "Features/Home/HomeView.swift");
    (lit "HomeViewModel.swift", lit "Features/Home/HomeViewModel.swift");
    (lit "FillDocumentView.swift", lit "Features/DocumentEditor/FillDocumentView.swift");
    (lit "FillDocumentViewModel.swift", lit "Features/DocumentEditor/FillDocumentViewModel.swift");
    (lit "DocumentViewModel.swift", lit "Features/DocumentEditor/DocumentViewModel.swift");
    (lit "SplitScreenEditorView.swift", lit "Features/DocumentEditor/SplitScreenEditorView.swift");
    (lit "Models.swift", lit "Core/Models/Models.swift");
    (lit "APIService.swift", lit "Core/Services/APIService.swift");
    (lit "LocalFormStorageService.swift", lit "Core/Services/LocalFormStorageService.swift");
    (lit "LocalStorageService.swift", lit "Core/Services/LocalStorageService.swift");
    (lit "DocumentPickerService.swift", lit "Core/Services/DocumentPickerService.swift");
    (lit "ImagePickerService.swift", lit "Core/Services/ImagePickerService.swift");
    (lit "PDFKitRepresentedView.swift", lit "UI/Components/PDFKitRepresentedView.swift");
    (lit "AnimatedGradientBackground.swift", lit "UI/Components/AnimatedGradientBackground.swift");
    (lit "Theme.swift", lit "UI/Theme/Theme.swift") ].

(** [f'path = "{p}";'] *)
Definition path_field (p : str) : str :=
  lit "path = " ++ [DQUOTE] ++ p ++ [DQUOTE] ++ lit ";".

(** Lines 47-55 for one mapping: the state is [(content, changes_made)]. *)
Definition rewrite_one (st : str * nat) (m : str * str) : str * nat :=
  let '(content, changes_made) := st in
  let pattern := path_field m.1 in
  let replacement := path_field m.2 in
  if Py.contains pattern content
  then (Py.replace content pattern replacement, S changes_made)
  else (content, changes_made).

Definition rewrite_all (mappings : list (str * str)) (content : str) : str * nat :=
  foldl rewrite_one (content, 0) mappings.

(** Lines 30-74. *)
Definition fix_pbxproj (project_root : string) : prog unit :=
  let pbxproj_path := project_root +:+ "/documentAI.xcodeproj/project.pbxproj" in
  present ← path_exists pbxproj_path;
  if negb present then sys_exit 1
  else
    content ← read_file pbxproj_path;
    let original_content := content in
    let '(content, changes_made) := rewrite_all FILE_MAPPINGS content in
    if (changes_made =? 0)%nat then mret tt
    else
      let backup_path := project_root +:+ "/documentAI.xcodeproj/project.pbxproj.backup" in
      write_file backup_path original_content;;
      write_file pbxproj_path content.

End Fix.

(** ** [reorganize_xcode_project.py]: the line rewriter *)

Module Reorganize.

(** [c.isspace()] for a character below 256. *)
Definition is_space (c : ascii) : bool :=
  let n := nat_of_ascii c in
  ((9 <=? n) && (n <=? 13)) || ((28 <=? n) && (n <=? 32)) || (n =? 133) || (n =? 160).

(** [s.lstrip()] *)
Fixpoint lstrip (s : str) : str :=
  match s with
  | c :: s' => if is_space c then lstrip s' else s
  | [] => []
  end.

(** [f.readlines()]: the lines with their line feed; a last line without
    one is kept as it is.  [cur] is the line being read.  (The content of a
    file is the text as Python's text layer hands it over, in which every
    line ends with a line feed.) *)
Fixpoint readlines_from (s : str) (cur : str) : list str :=
  match s with
  | [] => match cur with [] => [] | _ :: _ => [cur] end
  | c :: s' =>
      if Ascii.eqb c NL then (cur ++ [c]) :: readlines_from s' []
      else readlines_from s' (cur ++ [c])
  end.

Definition readlines (s : str) : list str := readlines_from s [].

(** One item of [updates]: the key [id /* name */] and the whole file
    reference that replaces the line. *)
Definition update (id name path : string) : str * str :=
  (lit id ++ lit " /* " ++ lit name ++ lit " */",
   lit id ++ lit " /* " ++ lit name
     ++ lit " */ = {isa = PBXFileReference; lastKnownFileType = sourcecode.swift; path = "
     ++ lit path ++ lit "; sourceTree = " ++ [DQUOTE] ++ lit "<group>" ++ [DQUOTE]
     ++ lit "; };").

(** Lines 30-47. *)
Definition updates : list (str * str) :=
  [ update "B1000001" "DocumentAIApp.swift" "App/DocumentAIApp.swift";
    update "B1000002" "HomeView.swift" "Features/Home/HomeView.swift";
    update "B1000004" "HomeViewModel.swift" "Features/Home/HomeViewModel.swift";
    update "B1000003" "FillDocumentView.swift" "Features/DocumentEditor/FillDocumentView.swift";
    update "B1000005" "FillDocumentViewModel.swift"
           "Features/DocumentEditor/FillDocumentViewModel.swift";
    update "FC03BDB52EDFE96500CA1203" "DocumentViewModel.swift"
           "Features/DocumentEditor/DocumentViewModel.swift";
    update "FC03BDB82EDFE96500CA1203" "SplitScreenEditorView.swift"
           "Features/DocumentEditor/SplitScreenEditorView.swift";
    update "B1000011" "Models.swift" "Core/Models/Models.swift";
    update "B1000008" "APIService.swift" "Core/Services/APIService.swift";
    update "FC03BDB62EDFE96500CA1203" "LocalFormStorageService.swift"
           "Core/Services/LocalFormStorageService.swift";
    update "B1000009" "LocalStorageService.swift" "Core/Services/LocalStorageService.swift";
    update "B1000006" "DocumentPickerService.swift" "Core/Services/DocumentPickerService.swift";
    update "B1000007" "ImagePickerService.swift" "Core/Services/ImagePickerService.swift";
    update "FC03BDB72EDFE96500CA1203" "PDFKitRepresentedView.swift"
           "UI/Components/PDFKitRepresentedView.swift";
    update "B1000010" "AnimatedGradientBackground.swift"
           "UI/Components/AnimatedGradientBackground.swift";
    update "B1000012" "Theme.swift" "UI/Theme/Theme.swift" ].

(** Lines 54-62, the inner loop for one line: the first key found in a line
    that also mentions [PBXFileReference] replaces the whole line; [None]
    when the loop ends with [updated] still false. *)
Fixpoint rewrite_line (updates : list (str * str)) (line : str) : option str :=
  match updates with
  | [] => None
  | (key, replacement) :: rest =>
      if Py.contains key line && Py.contains (lit "PBXFileReference") line
      then
        let indent := length line - length (lstrip line) in
        Some (repeat " "%char indent ++ replacement ++ [NL])
      else rewrite_line rest line
  end.

(** Lines 52-65 for one line. *)
Definition new_line (line : str) : str :=
  match rewrite_line updates line with
  | Some l => l
  | None => line
  end.

(** Lines 10-72. *)
Definition reorganize_pbxproj (project_root : string) : prog unit :=
  let pbxproj_path := project_root +:+ "/documentAI.xcodeproj/project.pbxproj" in
  present ← path_exists pbxproj_path;
  if negb present then sys_exit 1
  else
    content ← read_file pbxproj_path;
    let lines := readlines content in
    let backup_path := project_root +:+ "/documentAI.xcodeproj/project.pbxproj.backup" in
    write_file backup_path (concat lines);;
    let new_lines := map new_line lines in
    write_file pbxproj_path (concat new_lines).

End Reorganize.

(** A small manifest with the three sections in Xcode's order. *)
Definition sample_manifest : str :=
  lit "// !$*UTF8*$!" ++ [NL]
  ++ lit "/* Begin PBXBuildFile section */" ++ [NL]
  ++ lit "/* End PBXBuildFile section */" ++ [NL]
  ++ lit "/* Begin PBXFileReference section */" ++ [NL]
  ++ lit "/* End PBXFileReference section */" ++ [NL]
  ++ lit "/* Begin PBXSourcesBuildPhase section */" ++ [NL]
  ++ [TAB; TAB; TAB] ++ lit "files = (" ++ [NL]
  ++ [TAB; TAB; TAB] ++ lit ");" ++ [NL]
  ++ lit "/* End PBXSourcesBuildPhase section */" ++ [NL].

Definition sample_world (m : gmap string str) (rnd : nat -> N) : world :=
  {| fs := m; dirs := ∅; tree := Dir [] []; writes := [];
     entropy := rnd; drawn := 0 |}.

(** * Vocabulary of the statements *)

Import AddFiles.

Arguments Uuid.token : simpl never.
Arguments Py.basename : simpl never.

(** [m] occurs in [s] at offset [i]. *)
Definition occ (m s : str) (i : nat) : Prop := take (length m) (drop i s) = m.

(** Every inserted line starts with a tab and ends with a line feed. *)
Definition framed (e : str) : Prop := exists body, e = TAB :: body ++ [NL].

Definition SLASH : ascii := "/"%char.
Definition noslash (s : str) : Prop := Forall (fun c => c <> SLASH) s.

(** The pieces of a text between its slashes. *)
Fixpoint segs (s : str) : list str :=
  match s with
  | [] => [[]]
  | c :: s' =>
      if Ascii.eqb c SLASH then [] :: segs s'
      else match segs s' with
           | h :: t => (c :: h) :: t
           | [] => [[c]]
           end
  end.

(** The comment [/* w */] and the text between its two slashes. *)
Definition inner (w : str) : str := lit "* " ++ w ++ lit " *".
Definition comment (w : str) : str := SLASH :: inner w ++ [SLASH].

(** The four base names whose comment is a marker that a later step of the
    inserter searches for. *)
Definition reserved : list str :=
  [ lit "Begin PBXFileReference section"; lit "End PBXFileReference section";
    lit "Begin PBXSourcesBuildPhase section"; lit "End PBXSourcesBuildPhase section" ].

Definition HEX_UPPER : str := lit "0123456789ABCDEF".
Definition HEX_LOWER : str := lit "0123456789abcdef".

(** The world after [n] more draws from the random source. *)
Definition advance (w : world) (n : nat) : world :=
  {| fs := fs w; dirs := dirs w; tree := tree w; writes := writes w;
     entropy := entropy w; drawn := drawn w + n |}.

(** The world after one more write. *)
Definition written (w : world) (p : string) (c : str) : world :=
  {| fs := <[p := c]> (fs w); dirs := dirs w; tree := tree w;
     writes := writes w ++ [Wrote p c];
     entropy := entropy w; drawn := drawn w |}.

(** The dictionary [collect] builds, as a function of the random source
    [rnd] and of the number [k] of draws already made. *)
Fixpoint collected (rnd : nat -> N) (k : nat) (files_to_add : list str)
    (file_refs : list (str * file_info)) : list (str * file_info) :=
  match files_to_add with
  | [] => file_refs
  | file_path :: rest =>
      collected rnd (S (S k)) rest
        (dict_set file_path
           {| ref_uuid := Uuid.token (rnd k); build_uuid := Uuid.token (rnd (S k));
              name := Py.basename file_path |} file_refs)
  end.

(** The identifiers a dictionary of file infos holds. *)
Definition allocated (file_refs : list (str * file_info)) : list str :=
  flat_map (fun kv => [ref_uuid kv.2; build_uuid kv.2]) file_refs.

(** The tokens of the draws [k], ..., [k + n - 1] of the random source
    [rnd]. *)
Definition tokens_drawn (rnd : nat -> N) (k n : nat) : list str :=
  map (fun j => Uuid.token (rnd j)) (seq k n).

(** [blk] stands in [s'] right before the occurrence of [marker] that starts
    at offset [pos] of [s], and nothing else differs. *)
Definition inserted_before (marker blk : str) (pos : nat) (s s' : str) : Prop :=
  exists a b, s = a ++ marker ++ b /\ length a = pos /\ s' = a ++ blk ++ marker ++ b.

(** A random source whose draws differ in the 96 bits a token keeps. *)
Definition counting_source (k : nat) : N := (N.of_nat k * 2 ^ 32)%N.

(** A random source that repeats itself. *)
Definition stuck_source (k : nat) : N := 0%N.

Definition sample_files : gmap string str := {[ pbxproj_path := sample_manifest ]}.

(** What one successful run of the inserter does to the manifest [content]:
    three insertions, each made in the text the previous one produced, each
    right before the first occurrence of the marker it looks for. *)
Definition spliced (content : str) (frs : list (str * file_info)) (out : str) : Prop :=
  exists c1 c2 e1 e2 p q r,
    Py.index_of END_BUILD content = Some e1
    /\ inserted_before END_BUILD (concat (build_file_entries frs)) e1 content c1
    /\ Py.index_of END_REF c1 = Some e2
    /\ inserted_before END_REF (concat (file_ref_entries frs)) e2 c1 c2
    /\ Py.index_of BEGIN_SOURCES c2 = Some p
    /\ Py.index_of FILES_OPEN (drop p c2) = Some q
    /\ Py.index_of FILES_CLOSE (drop (p + q) c2) = Some r
    /\ inserted_before FILES_CLOSE (concat (source_entries frs)) (p + q + r) c2 out.

(** A manifest with the three sections one after the other, as Xcode writes
    them; the fields are the stretches of text around the markers. *)
Record layout := Layout {
  preamble : str;         (* up to the PBXBuildFile section *)
  build_files : str;      (* the entries of the PBXBuildFile section *)
  gap1 : str;             (* between the first two sections *)
  references : str;       (* the entries of the PBXFileReference section *)
  gap2 : str;             (* between the last two sections *)
  phase_head : str;       (* the build phase down to its files array *)
  members : str;          (* the members of the files array *)
  phase_tail : str;       (* the rest of the build phase *)
  epilogue : str          (* after the PBXSourcesBuildPhase section *)
}.

(** The text of the manifest with [bf], [fr] and [sm] standing at the end
    of the two sections and of the files array. *)
Definition render (L : layout) (bf fr sm : str) : str :=
  preamble L ++ BEGIN_BUILD ++ build_files L ++ bf ++ END_BUILD
    ++ gap1 L ++ BEGIN_REF ++ references L ++ fr ++ END_REF
    ++ gap2 L ++ BEGIN_SOURCES ++ phase_head L ++ FILES_OPEN ++ members L ++ sm
    ++ FILES_CLOSE ++ phase_tail L ++ END_SOURCES ++ epilogue L.

Definition manifest (L : layout) : str := render L [] [] [].

(** The end markers and the start of the build phase first occur where the
    layout puts them, and so do the delimiters of the files array within
    the build phase. *)
Definition well_formed (L : layout) : Prop :=
  Py.index_of END_BUILD (manifest L)
    = Some (length (preamble L ++ BEGIN_BUILD ++ build_files L))
  /\ Py.index_of END_REF (manifest L)
    = Some (length (preamble L ++ BEGIN_BUILD ++ build_files L ++ END_BUILD
                      ++ gap1 L ++ BEGIN_REF ++ references L))
  /\ Py.index_of BEGIN_SOURCES (manifest L)
    = Some (length (preamble L ++ BEGIN_BUILD ++ build_files L ++ END_BUILD
                      ++ gap1 L ++ BEGIN_REF ++ references L ++ END_REF ++ gap2 L))
  /\ Py.index_of FILES_OPEN
       (BEGIN_SOURCES ++ phase_head L ++ FILES_OPEN ++ members L
          ++ FILES_CLOSE ++ phase_tail L ++ END_SOURCES ++ epilogue L)
    = Some (length (BEGIN_SOURCES ++ phase_head L))
  /\ Py.index_of FILES_CLOSE
       (FILES_OPEN ++ members L ++ FILES_CLOSE ++ phase_tail L ++ END_SOURCES ++ epilogue L)
    = Some (length (FILES_OPEN ++ members L)).

(** The infos of a dictionary hold slash-free identifiers and names, and no
    name is one of the reserved ones. *)
Definition plain (frs : list (str * file_info)) : Prop :=
  Forall (fun kv => noslash (ref_uuid kv.2) /\ noslash (build_uuid kv.2)
                    /\ noslash (name kv.2) /\ name kv.2 ∉ reserved) frs.

(** The layout of [sample_manifest]. *)
Definition sample_layout : layout :=
  {| preamble := lit "// !$*UTF8*$!" ++ [NL];
     build_files := [NL];
     gap1 := [NL];
     references := [NL];
     gap2 := [NL];
     phase_head := [NL; TAB; TAB; TAB];
     members := [NL; TAB; TAB; TAB];
     phase_tail := [NL];
     epilogue := [NL] |}.

(** The six markers whose presence the inserter checks. *)
Definition MARKERS : list str :=
  [BEGIN_BUILD; END_BUILD; BEGIN_REF; END_REF; BEGIN_SOURCES; END_SOURCES].

(** [sample_manifest] with the two markers of the PBXBuildFile section in
    the wrong order: no end marker follows the begin marker. *)
Definition swapped_manifest : str :=
  lit "// !$*UTF8*$!" ++ [NL]
  ++ lit "/* End PBXBuildFile section */" ++ [NL]
  ++ lit "/* Begin PBXBuildFile section */" ++ [NL]
  ++ lit "/* Begin PBXFileReference section */" ++ [NL]
  ++ lit "/* End PBXFileReference section */" ++ [NL]
  ++ lit "/* Begin PBXSourcesBuildPhase section */" ++ [NL]
  ++ [TAB; TAB; TAB] ++ lit "files = (" ++ [NL]
  ++ [TAB; TAB; TAB] ++ lit ");" ++ [NL]
  ++ lit "/* End PBXSourcesBuildPhase section */" ++ [NL].

(** A stand-in for the library, with the simplest project format there is:
    one path per line, every line a file reference. *)
Definition line_library : XcodeProject :=
  {| project := list pbx_object;
     parse := fun content =>
       Some (map (fun l => {| obj_path := Some l; obj_name := None |})
                 (Py.split content [NL]));
     file_references := fun p => p;
     has_target := fun _ _ => true;
     add_file := fun p file_path =>
       (p ++ [{| obj_path := Some file_path;
                 obj_name := Some (Py.basename file_path) |}], false);
     save_text := fun p =>
       Some (concat (map (fun o => default [] (obj_path o) ++ [NL]) p)) |}.

(** A project with one file reference that lies outside its group: Xcode
    then records a display name next to the path. *)
Definition shared_reference : list pbx_object :=
  [ {| obj_path := Some (lit "../Shared/HomeView.swift");
       obj_name := Some (lit "HomeView.swift") |} ].

(** A world in which the project file of [line_library] lists one file and
    the source directory holds that file and a second one. *)
Definition two_files_tree : dir :=
  Dir [lit "A.swift"] [(lit "Sub", Dir [lit "B.swift"; lit "notes.txt"] [])].

Definition auto_world (content : str) (t : dir) : world :=
  {| fs := {[ AutoAdd.project_path := content ]}; dirs := ∅; tree := t;
     writes := []; entropy := fun _ => 0%N; drawn := 0 |}.

(** A manifest with one quoted path that [FILE_MAPPINGS] names. *)
Definition themed_manifest : str :=
  lit "B1000012 /* Theme.swift */ = {isa = PBXFileReference; "
  ++ Fix.path_field (lit "Theme.swift") ++ lit " };".

Definition rooted_world (root : string) (content : str) : world :=
  {| fs := {[ root +:+ "/documentAI.xcodeproj/project.pbxproj" := content ]};
     dirs := ∅; tree := Dir [] []; writes := [];
     entropy := fun _ => 0%N; drawn := 0 |}.

(** The text [reorganize_pbxproj] writes for the text it read. *)
Definition reorganized (content : str) : str :=
  concat (map Reorganize.new_line (Reorganize.readlines content)).

(** A list of lines as [readlines] returns them: every line ends with its
    only line feed, except that the last one may have none (and is then not
    empty). *)
Inductive lined : list str -> Prop :=
  | lined_nil : lined []
  | lined_last l : l <> [] -> NL ∉ l -> lined [l]
  | lined_cons body ls : NL ∉ body -> lined ls -> lined ((body ++ [NL]) :: ls).

(** The replacement [rewrite_line] would pick for a line whose text, after
    the indentation, is [r]. *)
Fixpoint pick (updates : list (str * str)) (r : str) : option str :=
  match updates with
  | [] => None
  | (key, replacement) :: rest =>
      if Py.contains key r && Py.contains (lit "PBXFileReference") r
      then Some replacement
      else pick rest r
  end.

(** A text that may be searched for in an indented line: it is not empty,
    does not start with a space and holds no line feed. *)
Definition searchable (k : str) : Prop :=
  (exists c k', k = c :: k' /\ c <> " "%char) /\ NL ∉ k.

(** The two paths of the scripts that take the project root as argument. *)
Definition manifest_path (project_root : string) : string :=
  project_root +:+ "/documentAI.xcodeproj/project.pbxproj".

Definition manifest_backup_path (project_root : string) : string :=
  project_root +:+ "/documentAI.xcodeproj/project.pbxproj.backup".

(** The leading white space of a line. *)
Fixpoint leading_space (s : str) : str :=
  match s with
  | c :: s' => if Reorganize.is_space c then c :: leading_space s' else []
  | [] => []
  end.

(** A file reference of the target as Xcode writes it, indented with tabs. *)
Definition theme_line : str :=
  [TAB; TAB] ++ lit "B1000012 /* Theme.swift */ = {isa = PBXFileReference; path = Theme.swift; };"
  ++ [NL].

(** The distinct elements of a list, each where it first occurs. *)
Definition first_occurrences (l : list str) : list str := rev (remove_dups (rev l)).

(** The two delimiters of the files array the inserter searches for. *)
Definition ARRAY_DELIMITERS : list str := [FILES_OPEN; FILES_CLOSE].

(** No parenthesis in the base name of a path. *)
Definition unparenthesised (p : str) : Prop :=
  ("("%char ∉ Py.basename p) /\ (")"%char ∉ Py.basename p).

(** [sample_manifest] without the files array of its build phase. *)
Definition arrayless_manifest : str :=
  lit "// !$*UTF8*$!" ++ [NL]
  ++ lit "/* Begin PBXBuildFile section */" ++ [NL]
  ++ lit "/* End PBXBuildFile section */" ++ [NL]
  ++ lit "/* Begin PBXFileReference section */" ++ [NL]
  ++ lit "/* End PBXFileReference section */" ++ [NL]
  ++ lit "/* Begin PBXSourcesBuildPhase section */" ++ [NL]
  ++ lit "/* End PBXSourcesBuildPhase section */" ++ [NL].

(** The file [name] stands in the directory reached from [d] through the
    sub-directories [through], outermost first. *)
Inductive located : dir -> list str -> str -> Prop :=
  | located_here files subdirs name :
      name ∈ files -> located (Dir files subdirs) [] name
  | located_below files subdirs sub d through name :
      (sub, d) ∈ subdirs -> located d through name ->
      located (Dir files subdirs) (sub :: through) name.

(** [os.path.join(root, part1, part2, ...)] *)
Definition joined (root : str) (parts : list str) : str :=
  foldl Walk.path_join root parts.

(** A stand-in for the library that, like the real one, refuses a text
    that does not start with the header of a project file. *)
Definition headed_library : XcodeProject :=
  {| project := list pbx_object;
     parse := fun content =>
       if Py.startswith (lit "// !$*UTF8*$!") content
       then Some (map (fun l => {| obj_path := Some l; obj_name := None |})
                      (tail (Py.split content [NL])))
       else None;
     file_references := fun p => p;
     has_target := fun _ _ => true;
     add_file := fun p file_path =>
       (p ++ [{| obj_path := Some file_path;
                 obj_name := Some (Py.basename file_path) |}], false);
     save_text := fun p =>
       Some (lit "// !$*UTF8*$!" ++ [NL]
             ++ concat (map (fun o => default [] (obj_path o) ++ [NL]) p)) |}.

(** A world with the project directory and no project file in it. *)
Definition hollow_world (root : string) (t : dir) : world :=
  {| fs := ∅; dirs := {[ root +:+ "/documentAI.xcodeproj" ]}; tree := t;
     writes := []; entropy := fun _ => 0%N; drawn := 0 |}.

(** The field name the scanner splits a line at. *)
Definition PATH_FIELD : str := lit "path = ".

(** A file reference with a quoted path, as Xcode writes it for a name
    with a character outside its bare-word alphabet. *)
Definition quoted_line : str :=
  [TAB; TAB] ++ lit "B1 /* A+B.swift */ = {isa = PBXFileReference; path = "
  ++ [DQUOTE] ++ lit "A+B.swift" ++ [DQUOTE] ++ lit "; sourceTree = x; };".

(** A base name that Xcode writes as a bare word: no space, semicolon,
    quote or line feed. *)
Definition bare (n : str) : Prop :=
  (" "%char ∉ n) /\ (";"%char ∉ n) /\ (DQUOTE ∉ n) /\ (NL ∉ n).

(** The fixed text of an inserted file reference between the second
    occurrence of the name and the path field, and after the path. *)
Definition REF_HEAD : str :=
  lit " */ = {isa = PBXFileReference; lastKnownFileType = sourcecode.swift; ".

Definition REF_TAIL : str :=
  lit " sourceTree = " ++ [DQUOTE] ++ lit "<group>" ++ [DQUOTE] ++ lit "; };".

(** What makes an item of the table a file reference the scanner can read:
    the path field is the first place where [path = ] occurs, and the path
    is a bare word with a directory in front of the file name. *)
Definition readable_update (id name path : string) : Prop :=
  Py.index_of PATH_FIELD (Reorganize.update id name path).2
    = Some (length (lit id ++ lit " /* " ++ lit name ++ REF_HEAD))
  /\ (";"%char ∉ lit path)
  /\ Py.contains PATH_FIELD (lit path) = false
  /\ Py.contains (lit ".swift") (Reorganize.update id name path).2 = true
  /\ (DQUOTE ∉ lit path)
  /\ SLASH ∈ lit path.

(** [sep.join(pieces)] *)
Fixpoint join_with (sep : str) (pieces : list str) : str :=
  match pieces with
  | [] => []
  | p :: ps =>
      match ps with
      | [] => p
      | _ :: _ => p ++ sep ++ join_with sep ps
      end
  end.

(** The text [p] holds no occurrence of [old], and none begins in it when
    [old] follows. *)
Definition clear_of (old p : str) : Prop :=
  Py.index_of old (p ++ old) = Some (length p).

(** A manifest in which two records have the same quoted path. *)
Definition twice_themed_manifest : str :=
  lit "B1000012 /* Theme.swift */ = {isa = PBXFileReference; "
  ++ Fix.path_field (lit "Theme.swift") ++ lit " };" ++ [NL]
  ++ lit "B1000099 /* Theme.swift */ = {isa = PBXFileReference; "
  ++ Fix.path_field (lit "Theme.swift") ++ lit " };" ++ [NL].

(** * Properties *)

(** ** The text primitives on concrete inputs *)

Example find_ex1 : Py.find (lit "abcabc") (lit "bc") 0 = 1%Z.
Proof. reflexivity. Qed.
Example find_ex2 : Py.find (lit "abcabc") (lit "bc") 2 = 4%Z.
Proof. reflexivity. Qed.
Example find_ex3 : Py.find (lit "abcabc") (lit "x") 0 = (-1)%Z.
Proof. reflexivity. Qed.
Example find_ex4 : Py.find (lit "abcabc") (lit "c") (-1) = 5%Z.
Proof. reflexivity. Qed.
Example basename_ex : Py.basename (lit "documentAI/Extensions/A.swift") = lit "A.swift".
Proof. reflexivity. Qed.
Example basename_ex2 : Py.basename (lit "A.swift") = lit "A.swift".
Proof. reflexivity. Qed.
Example replace_ex : Py.replace (lit "aaa.b.aa") (lit "aa") (lit "X") = lit "Xa.b.X".
Proof. reflexivity. Qed.
Example split_ex : Py.split (lit "a;b;;c") (lit ";") = [lit "a"; lit "b"; lit ""; lit "c"].
Proof. reflexivity. Qed.
Example strip_ex : Py.strip DQUOTE (DQUOTE :: lit "ab" ++ [DQUOTE]) = lit "ab".
Proof. reflexivity. Qed.
Example upper_ex : Py.upper (lit "0a9f-z") = lit "0A9F-Z".
Proof. reflexivity. Qed.
Example token_ex :
  Uuid.token 0 = lit "000000000000400080000000".
Proof. reflexivity. Qed.
Example token_ex2 :
  Uuid.token (2 ^ 128 - 1) = lit "FFFFFFFFFFFF4FFFBFFFFFFF".
Proof. vm_compute. reflexivity. Qed.

(** Two draws that differ only in the 32 bits a token leaves out give the
    same token. *)
Example truncation_hides_low_bits : Uuid.token 1 = Uuid.token 2.
Proof. vm_compute. reflexivity. Qed.

(** The scan skips hidden and build directories, keeps hidden files, and
    lists a directory before its sub-directories. *)
Example walk_ex :
  Walk.find_swift_files_in (lit "documentAI")
    (Dir [lit "App.swift"; lit "README.md"; lit ".Draft.swift"]
         [ (lit ".git", Dir [lit "Hook.swift"] []);
           (lit "build", Dir [lit "Gen.swift"] []);
           (lit "Core", Dir [lit "Models.swift"] [(lit "DerivedData", Dir [lit "X.swift"] [])]) ])
  = [ lit "documentAI/App.swift"; lit "documentAI/.Draft.swift";
      lit "documentAI/Core/Models.swift" ].
Proof. vm_compute. reflexivity. Qed.

(** The report-only scanner reads quoted and unquoted path values alike. *)
Example scan_line_ex :
    (foldl Update.scan_line ∅
       (Py.split
          (lit "path = " ++ [DQUOTE] ++ lit "A.swift" ++ [DQUOTE] ++ lit "; };" ++ [NL]
             ++ lit "isa = PBXGroup; path = Core;" ++ [NL]
             ++ lit "name = B.swift; path = Sub/B.swift; sourceTree = x;")
          [NL]))
  = {[ lit "A.swift"; lit "Sub/B.swift" ]}.
Proof. apply (bool_decide_unpack _). vm_compute. reflexivity. Qed.

(** ** Occurrences of one text in another *)

Lemma eqb_ascii_true a b : Ascii.eqb a b = true <-> a = b.
Proof. apply Ascii.eqb_eq. Qed.

Lemma startswith_take p s : Py.startswith p s = true <-> take (length p) s = p.
Proof.
  revert s. induction p as [|a p IH]; intros s; simpl.
  - split; [intros _; by rewrite take_0 | done].
  - destruct s as [|b s]; simpl; [split; discriminate|].
    destruct (Ascii.eqb a b) eqn:E.
    + apply Ascii.eqb_eq in E. subst b. rewrite IH. split; [congruence|].
      by intros [= Ht].
    + apply Ascii.eqb_neq in E. split; [discriminate|]. intros [= ? ?]. congruence.
Qed.

Lemma startswith_occ m s i : Py.startswith m (drop i s) = true <-> occ m s i.
Proof. apply startswith_take. Qed.

Lemma occ_0 m s : occ m s 0 <-> Py.startswith m s = true.
Proof. unfold occ. rewrite drop_0. symmetry. apply startswith_take. Qed.

Lemma occ_S m c s i : occ m (c :: s) (S i) <-> occ m s i.
Proof. reflexivity. Qed.

Lemma occ_app m a b : occ m (a ++ m ++ b) (length a).
Proof. unfold occ. rewrite drop_app_length. by rewrite take_app_length. Qed.

Lemma occ_split m s i : occ m s i -> i <= length s -> s = take i s ++ m ++ drop (i + length m) s.
Proof.
  unfold occ. intros Hm Hi.
  rewrite <- (take_drop i s) at 1. f_equal.
  rewrite <- (take_drop (length m) (drop i s)) at 1. rewrite Hm. f_equal.
  rewrite drop_drop. done.
Qed.

Lemma occ_bound m s i : occ m s i -> m <> [] -> i + length m <= length s.
Proof.
  unfold occ. intros Hm Hne.
  assert (length (take (length m) (drop i s)) = length m) as Hl by (by rewrite Hm).
  rewrite length_take, length_drop in Hl.
  assert (0 < length m) by (destruct m; [done | simpl; lia]). lia.
Qed.

Lemma occ_lookup m s i :
  occ m s i <-> (forall k, k < length m -> s !! (i + k) = m !! k).
Proof.
  unfold occ. split.
  - intros Hm k Hk. rewrite <- Hm at 1. rewrite lookup_take_lt by done.
    by rewrite lookup_drop.
  - intros Hl. apply list_eq. intros k.
    destruct (decide (k < length m)) as [Hk|Hk].
    + rewrite lookup_take_lt by done. rewrite lookup_drop. by apply Hl.
    + rewrite lookup_take_ge by lia. symmetry. apply lookup_ge_None. lia.
Qed.

Lemma index_of_Some m s i :
  Py.index_of m s = Some i -> occ m s i /\ forall j, j < i -> ~ occ m s j.
Proof.
  revert i. induction s as [|c s IH]; intros i; simpl.
  - destruct (Py.startswith m []) eqn:E; [|discriminate].
    intros [= <-]. split; [by apply occ_0|]. lia.
  - destruct (Py.startswith m (c :: s)) eqn:E.
    + intros [= <-]. split; [by apply occ_0|]. lia.
    + destruct (Py.index_of m s) as [i'|] eqn:E'; [|discriminate].
      simpl. intros [= <-]. destruct (IH i' eq_refl) as [H1 H2].
      split; [done|]. intros [|j] Hj.
      * rewrite occ_0. congruence.
      * rewrite occ_S. apply H2. lia.
Qed.

Lemma index_of_None m s : Py.index_of m s = None -> forall j, ~ occ m s j.
Proof.
  induction s as [|c s IH]; simpl.
  - destruct (Py.startswith m []) eqn:E; [discriminate|]. intros _ j.
    unfold occ. rewrite drop_nil, <- startswith_take. congruence.
  - destruct (Py.startswith m (c :: s)) eqn:E; [discriminate|].
    destruct (Py.index_of m s) eqn:E'; [discriminate|]. intros _ [|j].
    + rewrite occ_0. congruence.
    + rewrite occ_S. by apply IH.
Qed.

Lemma index_of_first m s i :
  occ m s i -> i <= length s -> (forall j, j < i -> ~ occ m s j) -> Py.index_of m s = Some i.
Proof.
  intros Ho Hi Hmin. destruct (Py.index_of m s) as [j|] eqn:E.
  - apply index_of_Some in E as [H1 H2]. f_equal.
    destruct (Nat.lt_trichotomy i j) as [?|[?|?]]; [|done|].
    + by destruct (H2 i).
    + by destruct (Hmin j).
  - by destruct (index_of_None _ _ E i).
Qed.

Lemma index_of_le m s i : Py.index_of m s = Some i -> i <= length s.
Proof.
  revert i. induction s as [|c s IH]; intros i; simpl.
  - destruct (Py.startswith m []); [|discriminate]. intros [= <-]. done.
  - destruct (Py.startswith m (c :: s)); [intros [= <-]; lia|].
    destruct (Py.index_of m s) as [i'|]; [|discriminate]. simpl. intros [= <-].
    specialize (IH i' eq_refl). lia.
Qed.

Lemma index_of_is_Some m s i : occ m s i -> i <= length s -> is_Some (Py.index_of m s).
Proof.
  intros Ho Hi. destruct (Py.index_of m s) eqn:E; [done|].
  by destruct (index_of_None _ _ E i).
Qed.

Lemma occ_app_l m x y i : i + length m <= length x -> occ m (x ++ y) i <-> occ m x i.
Proof.
  intros Hi. rewrite !occ_lookup. split; intros Hl k Hk.
  - rewrite <- Hl by done. rewrite lookup_app_l by lia. done.
  - rewrite lookup_app_l by lia. by apply Hl.
Qed.

Lemma occ_app_r m x y i : length x <= i -> occ m (x ++ y) i <-> occ m y (i - length x).
Proof.
  intros Hi. rewrite !occ_lookup. split; intros Hl k Hk.
  - rewrite <- Hl by done. rewrite lookup_app_r by lia. f_equal. lia.
  - rewrite lookup_app_r by lia. rewrite <- Hl by done. f_equal. lia.
Qed.

(** An occurrence that covers position [p] of the text holds the character found there. *)
Lemma occ_covers m s i p c :
  occ m s i -> i <= p < i + length m -> s !! p = Some c -> c ∈ m.
Proof.
  rewrite occ_lookup. intros Hl Hp Hc.
  apply list_elem_of_lookup. exists (p - i).
  rewrite <- Hl by lia. rewrite <- Hc. f_equal. lia.
Qed.

Lemma framed_length e : framed e -> 2 <= length e.
Proof. intros [body ->]. simpl. rewrite length_app. simpl. lia. Qed.

Lemma framed_first e : framed e -> e !! 0 = Some TAB.
Proof. by intros [body ->]. Qed.

Lemma framed_last e : framed e -> e !! (length e - 1) = Some NL.
Proof.
  intros [body ->]. simpl. rewrite length_app. simpl.
  replace (length body + 1 - 0) with (S (length body)) by lia. simpl.
  rewrite lookup_app_r by lia. by replace (length body - length body) with 0 by lia.
Qed.

Lemma concat_framed_first e es : framed e -> (concat (e :: es)) !! 0 = Some TAB.
Proof. by intros [body ->]. Qed.

Lemma concat_framed_last es :
  Forall framed es -> es <> [] -> (concat es) !! (length (concat es) - 1) = Some NL.
Proof.
  induction 1 as [|e es He Hes IH]; [done|]. intros _. simpl.
  pose proof (framed_length _ He).
  destruct es as [|e' es'].
  - simpl. rewrite app_nil_r. by apply framed_last.
  - assert (2 <= length (concat (e' :: es'))).
    { simpl. rewrite length_app. inversion Hes as [|? ? He' Hes']; subst.
      pose proof (framed_length _ He'). lia. }
    rewrite length_app, lookup_app_r by lia.
    rewrite <- IH by done. f_equal. lia.
Qed.

Lemma occ_concat_framed m es k :
  m <> [] -> NL ∉ m -> Forall framed es -> occ m (concat es) k ->
  exists e k', e ∈ es /\ occ m e k'.
Proof.
  intros Hne Hnl Hes. revert k. induction Hes as [|e es He Hes IH]; intros k Ho.
  - apply occ_bound in Ho; [|done]. simpl in Ho.
    destruct m; [done|]. simpl in Ho. lia.
  - simpl in Ho.
    destruct (decide (k + length m <= length e)) as [Hin|Hout].
    + exists e, k. split; [left|]. by apply (occ_app_l m e (concat es)).
    + destruct (decide (length e <= k)) as [Hr|Hl].
      * apply (proj1 (occ_app_r m e _ k Hr)) in Ho. destruct (IH _ Ho) as (e' & k' & ? & ?).
        exists e', k'. split; [by right|done].
      * exfalso. apply Hnl.
        apply (occ_covers m (e ++ concat es) k (length e - 1)); [done|lia|].
        pose proof (framed_length _ He).
        rewrite lookup_app_l by lia. by apply framed_last.
Qed.

Lemma occ_splice_inv m a es b i :
  m <> [] -> TAB ∉ m -> NL ∉ m -> Forall framed es -> es <> [] ->
  occ m (a ++ concat es ++ b) i ->
  (i + length m <= length a /\ occ m (a ++ b) i)
  \/ (exists e k, e ∈ es /\ occ m e k)
  \/ (length a + length (concat es) <= i /\ occ m (a ++ b) (i - length (concat es))).
Proof.
  intros Hne Htab Hnl Hes Hnn Ho.
  assert (2 <= length (concat es)) as Hlen.
  { destruct Hes as [|e es He Hes]; [done|]. simpl. rewrite length_app.
    pose proof (framed_length _ He). lia. }
  destruct (decide (i + length m <= length a)) as [Hin|Hout].
  { left. split; [done|]. apply occ_app_l; [done|].
    by apply (proj1 (occ_app_l m a _ i Hin)) in Ho. }
  destruct (decide (length a <= i)) as [Hr|Hl]; last first.
  { exfalso. apply Htab.
    apply (occ_covers m _ i (length a) TAB Ho); [lia|].
    rewrite lookup_app_r by lia. replace (length a - length a) with 0 by lia.
    rewrite lookup_app_l by lia.
    destruct Hes as [|e es He Hes]; [done|]. by apply concat_framed_first. }
  apply (proj1 (occ_app_r m a _ i Hr)) in Ho.
  destruct (decide (i - length a + length m <= length (concat es))) as [Hin2|Hout2].
  { right; left. apply (proj1 (occ_app_l m _ b _ Hin2)) in Ho.
    by apply (occ_concat_framed m es (i - length a)). }
  destruct (decide (length (concat es) <= i - length a)) as [Hr2|Hl2]; last first.
  { exfalso. apply Hnl.
    apply (occ_covers m _ _ (length (concat es) - 1) NL Ho); [lia|].
    rewrite lookup_app_l by lia. by apply concat_framed_last. }
  right; right. split; [lia|].
  apply (proj1 (occ_app_r m _ b _ Hr2)) in Ho.
  apply occ_app_r; [lia|].
  replace (i - length (concat es) - length a) with (i - length a - length (concat es)) by lia.
  done.
Qed.

Lemma occ_shift m a blk b j :
  length a <= j -> occ m (a ++ b) j -> occ m (a ++ blk ++ b) (j + length blk).
Proof.
  intros Hj Ho. apply (proj1 (occ_app_r m a b j Hj)) in Ho.
  apply occ_app_r; [lia|]. apply occ_app_r; [lia|].
  by replace (j + length blk - length a - length blk) with (j - length a) by lia.
Qed.

Lemma index_of_splice_after m a es b j :
  m <> [] -> TAB ∉ m -> NL ∉ m -> Forall framed es ->
  (forall e k, e ∈ es -> ~ occ m e k) ->
  Py.index_of m (a ++ b) = Some j -> length a <= j ->
  Py.index_of m (a ++ concat es ++ b) = Some (j + length (concat es)).
Proof.
  intros Hne Htab Hnl Hes Hfree Hj Haj.
  destruct (decide (es = [])) as [->|Hnn].
  { simpl. by rewrite Nat.add_0_r. }
  pose proof (index_of_le _ _ _ Hj) as Hle.
  assert (0 < length m) by (destruct m; [done | simpl; lia]).
  apply index_of_Some in Hj as [Ho Hmin].
  apply index_of_first.
  - by apply occ_shift.
  - rewrite !length_app in *. lia.
  - intros i Hi Hoi.
    apply occ_splice_inv in Hoi as [[? Hoi]|[(e & k & He & Hoi)|[? Hoi]]]; try done.
    + apply (Hmin i); [lia|done].
    + by apply (Hfree e k).
    + apply (Hmin (i - length (concat es))); [lia|done].
Qed.

Lemma index_of_splice_none m a es b :
  m <> [] -> TAB ∉ m -> NL ∉ m -> Forall framed es ->
  (forall e k, e ∈ es -> ~ occ m e k) ->
  Py.index_of m (a ++ b) = None ->
  Py.index_of m (a ++ concat es ++ b) = None.
Proof.
  intros Hne Htab Hnl Hes Hfree Hnone.
  destruct (decide (es = [])) as [->|Hnn]; [done|].
  destruct (Py.index_of m (a ++ concat es ++ b)) as [i|] eqn:E; [|done].
  exfalso. apply index_of_Some in E as [Hoi _].
  pose proof (index_of_None _ _ Hnone) as Hno.
  apply occ_splice_inv in Hoi as [[? Hoi]|[(e & k & He & Hoi)|[? Hoi]]]; try done.
  - by apply (Hno i).
  - by apply (Hfree e k).
  - by apply (Hno (i - length (concat es))).
Qed.

Lemma segs_noslash a : noslash a -> segs a = [a].
Proof.
  induction 1 as [|c a Hc Ha IH]; [done|]. simpl.
  apply Ascii.eqb_neq in Hc. by rewrite Hc, IH.
Qed.

Lemma segs_app_slash a b : noslash a -> segs (a ++ SLASH :: b) = a :: segs b.
Proof.
  induction 1 as [|c a Hc Ha IH]; [done|]. simpl.
  apply Ascii.eqb_neq in Hc. by rewrite Hc, IH.
Qed.

Lemma tail_segs_cons c s x : x ∈ tail (segs s) -> x ∈ tail (segs (c :: s)).
Proof.
  simpl. destruct (Ascii.eqb c SLASH); simpl.
  - destruct (segs s); simpl; [done|]. by right.
  - by destruct (segs s).
Qed.

Lemma between_slashes x mi y :
  noslash mi -> mi ∈ tail (segs (x ++ SLASH :: mi ++ SLASH :: y)).
Proof.
  intros Hmi. induction x as [|c x IH].
  - simpl. rewrite segs_app_slash by done. by left.
  - by apply tail_segs_cons.
Qed.

Lemma occ_between mi s i :
  noslash mi -> occ (SLASH :: mi ++ [SLASH]) s i -> mi ∈ tail (segs s).
Proof.
  intros Hmi Ho.
  pose proof (occ_bound _ _ _ Ho ltac:(done)) as Hb.
  apply occ_split in Ho; [|lia]. rewrite Ho. simpl.
  rewrite <- app_assoc. simpl. by apply between_slashes.
Qed.

Lemma reserved_noslash w : w ∈ reserved -> noslash (inner w).
Proof.
  intros Hw. unfold reserved in Hw. unfold noslash.
  repeat (apply elem_of_cons in Hw as [->|Hw]; [by repeat constructor|]).
  by apply elem_of_nil in Hw.
Qed.

Lemma noslash_app a b : noslash a -> noslash b -> noslash (a ++ b).
Proof. apply Forall_app_2. Qed.

Lemma noslash_lit_ok (s : str) : forallb (fun c => negb (Ascii.eqb c SLASH)) s = true -> noslash s.
Proof.
  intros Hs. apply Forall_forall. intros c Hc.
  rewrite forallb_forall in Hs. apply list_elem_of_In in Hc.
  specialize (Hs c Hc). apply negb_true_iff in Hs. by apply Ascii.eqb_neq.
Qed.

Ltac noslash := repeat first [ assumption | apply noslash_app | (apply noslash_lit_ok; reflexivity) ].

Lemma inner_inj a b : inner a = inner b -> a = b.
Proof.
  unfold inner. intros Heq. simpl in Heq. injection Heq as Heq.
  by apply app_inv_tail in Heq.
Qed.

Lemma rev_eq_inv (a b : str) : rev a = rev b -> a = b.
Proof. intros Heq. by rewrite <- (rev_involutive a), Heq, rev_involutive. Qed.

Lemma build_file_entry_segs i :
  noslash (build_uuid i) -> noslash (ref_uuid i) -> noslash (name i) ->
  segs (build_file_entry i) =
    [ [TAB; TAB] ++ build_uuid i ++ lit " ";
      inner (name i ++ lit " in Sources");
      lit " = {isa = PBXBuildFile; fileRef = " ++ ref_uuid i ++ lit " ";
      inner (name i);
      lit "; };" ++ [NL] ].
Proof.
  intros Hb Hr Hn.
  assert (build_file_entry i =
    ([TAB; TAB] ++ build_uuid i ++ lit " ") ++ SLASH ::
    (inner (name i ++ lit " in Sources")) ++ SLASH ::
    (lit " = {isa = PBXBuildFile; fileRef = " ++ ref_uuid i ++ lit " ") ++ SLASH ::
    (inner (name i)) ++ SLASH :: (lit "; };" ++ [NL])) as ->.
  { unfold build_file_entry, inner. simpl. rewrite <- !app_assoc. simpl. reflexivity. }
  rewrite !segs_app_slash, segs_noslash; [done|unfold inner; noslash..].
Qed.

Lemma file_ref_entry_segs p i :
  noslash (ref_uuid i) -> noslash (name i) ->
  segs (file_ref_entry p i) =
    [ [TAB; TAB] ++ ref_uuid i ++ lit " ";
      inner (name i);
      lit " = {isa = PBXFileReference; lastKnownFileType = sourcecode.swift; path = "
        ++ name i ++ lit "; sourceTree = " ++ [DQUOTE] ++ lit "<group>" ++ [DQUOTE]
        ++ lit "; };" ++ [NL] ].
Proof.
  intros Hr Hn.
  assert (file_ref_entry p i =
    ([TAB; TAB] ++ ref_uuid i ++ lit " ") ++ SLASH ::
    (inner (name i)) ++ SLASH ::
    (lit " = {isa = PBXFileReference; lastKnownFileType = sourcecode.swift; path = "
        ++ name i ++ lit "; sourceTree = " ++ [DQUOTE] ++ lit "<group>" ++ [DQUOTE]
        ++ lit "; };" ++ [NL])) as ->.
  { unfold file_ref_entry, inner. simpl. rewrite <- !app_assoc. simpl. reflexivity. }
  rewrite !segs_app_slash, segs_noslash; [done|unfold inner; noslash..].
Qed.

Lemma inner_in_sources n w : w ∈ reserved -> inner (n ++ lit " in Sources") <> inner w.
Proof.
  intros Hw Heq. apply inner_inj in Heq. apply (f_equal (@rev ascii)) in Heq.
  rewrite rev_app_distr in Heq. unfold reserved in Hw.
  repeat (apply elem_of_cons in Hw as [->|Hw]; [by simpl in Heq|]).
  by apply elem_of_nil in Hw.
Qed.

Lemma build_file_entry_free i w k :
  noslash (build_uuid i) -> noslash (ref_uuid i) -> noslash (name i) ->
  w ∈ reserved -> name i ∉ reserved -> ~ occ (comment w) (build_file_entry i) k.
Proof.
  intros Hb Hr Hn Hw Hplain Ho.
  apply occ_between in Ho; [|by apply reserved_noslash].
  rewrite build_file_entry_segs in Ho by done. simpl in Ho.
  apply elem_of_cons in Ho as [Ho|Ho]; [by apply (inner_in_sources (name i) w)|].
  apply elem_of_cons in Ho as [Ho|Ho]; [done|].
  apply elem_of_cons in Ho as [Ho|Ho].
  { apply inner_inj in Ho. by subst. }
  apply elem_of_cons in Ho as [Ho|Ho]; [done|].
  by apply elem_of_nil in Ho.
Qed.

Lemma file_ref_entry_free p i w k :
  noslash (ref_uuid i) -> noslash (name i) ->
  w ∈ reserved -> name i ∉ reserved -> ~ occ (comment w) (file_ref_entry p i) k.
Proof.
  intros Hr Hn Hw Hplain Ho.
  apply occ_between in Ho; [|by apply reserved_noslash].
  rewrite file_ref_entry_segs in Ho by done. simpl in Ho.
  apply elem_of_cons in Ho as [Ho|Ho].
  { apply inner_inj in Ho. by subst. }
  apply elem_of_cons in Ho as [Ho|Ho]; [done|].
  by apply elem_of_nil in Ho.
Qed.

Lemma markers_are_comments :
  BEGIN_REF = comment (lit "Begin PBXFileReference section")
  /\ END_REF = comment (lit "End PBXFileReference section")
  /\ BEGIN_SOURCES = comment (lit "Begin PBXSourcesBuildPhase section")
  /\ END_SOURCES = comment (lit "End PBXSourcesBuildPhase section").
Proof. by repeat split. Qed.

Lemma startswith_slash s :
  Py.startswith (lit "/") s = match s with c :: _ => Ascii.eqb SLASH c | [] => false end.
Proof.
  destruct s as [|c s]; [done|]. change (lit "/") with [SLASH].
  cbn [Py.startswith]. by destruct (Ascii.eqb SLASH c).
Qed.

Lemma rindex_slash p :
  match Py.rindex_of (lit "/") p with
  | Some i => p !! i = Some SLASH /\ noslash (drop (S i) p)
  | None => noslash p
  end.
Proof.
  induction p as [|c p IH].
  - simpl. constructor.
  - cbn [Py.rindex_of]. destruct (Py.rindex_of (lit "/") p) as [i|].
    + done.
    + rewrite startswith_slash. destruct (Ascii.eqb SLASH c) eqn:E.
      * apply Ascii.eqb_eq in E. subst c. split; [done|exact IH].
      * apply Ascii.eqb_neq in E. constructor; [congruence|done].
Qed.

Lemma bound_nat i len : Py.bound (Z.of_nat i) len = i `min` len.
Proof.
  unfold Py.bound. destruct (Z.ltb_spec (Z.of_nat i) 0); lia.
Qed.

Lemma upto_nat s i : Py.upto s (Z.of_nat i) = take i s.
Proof.
  unfold Py.upto. rewrite bound_nat.
  destruct (decide (i <= length s)).
  - by rewrite Nat.min_l.
  - rewrite Nat.min_r by lia. rewrite !take_ge; [done|lia..].
Qed.

Lemma from_nat s i : Py.from s (Z.of_nat i) = drop i s.
Proof.
  unfold Py.from. rewrite bound_nat.
  destruct (decide (i <= length s)).
  - by rewrite Nat.min_l.
  - rewrite Nat.min_r by lia. rewrite !drop_ge; [done|lia..].
Qed.

Lemma basename_noslash p : noslash (Py.basename p).
Proof.
  unfold Py.basename, Py.rfind. pose proof (rindex_slash p) as H.
  destruct (Py.rindex_of (lit "/") p) as [i|].
  - replace (Z.of_nat i + 1)%Z with (Z.of_nat (S i)) by lia.
    rewrite from_nat. apply H.
  - change (-1 + 1)%Z with (Z.of_nat 0). by rewrite from_nat, drop_0.
Qed.

Lemma rindex_app d n :
  noslash n -> Py.rindex_of (lit "/") (d ++ SLASH :: n) = Some (length d).
Proof.
  intros Hn. induction d as [|c d IH].
  - cbn [app Py.rindex_of]. pose proof (rindex_slash n) as H.
    destruct (Py.rindex_of (lit "/") n) as [i|].
    + destruct H as [H _]. apply list_elem_of_lookup_2 in H.
      unfold noslash in Hn. rewrite Forall_forall in Hn. by destruct (Hn _ H).
    + rewrite startswith_slash. by rewrite (proj2 (Ascii.eqb_eq SLASH SLASH) eq_refl).
  - cbn [app Py.rindex_of]. by rewrite IH.
Qed.

(** The directory part of a path is dropped. *)
Lemma basename_join d n : noslash n -> Py.basename (d ++ lit "/" ++ n) = n.
Proof.
  intros Hn. unfold Py.basename, Py.rfind. change (lit "/" ++ n) with (SLASH :: n).
  rewrite rindex_app by done.
  replace (Z.of_nat (length d) + 1)%Z with (Z.of_nat (S (length d))) by lia.
  rewrite from_nat, drop_app_ge by lia.
  by replace (S (length d) - length d) with 1 by lia.
Qed.

Lemma hex_digit_lower d : (d < 16)%N -> Uuid.hex_digit d ∈ HEX_LOWER.
Proof.
  intros Hd. unfold Uuid.hex_digit. apply list_elem_of_In, nth_In.
  change (length HEX_LOWER) with 16. lia.
Qed.

Lemma hex_fixed_lower w n : Forall (fun c => c ∈ HEX_LOWER) (Uuid.hex_fixed w n).
Proof.
  revert n. induction w as [|w IH]; intros n; simpl; [constructor|].
  apply Forall_app_2; [apply IH|]. constructor; [|constructor].
  apply hex_digit_lower. by apply N.mod_lt.
Qed.

Lemma upper_hex c : c ∈ HEX_LOWER -> Py.upper_char c ∈ HEX_UPPER.
Proof.
  unfold HEX_LOWER, HEX_UPPER. intros Hc.
  repeat (apply elem_of_cons in Hc as [->|Hc];
          [vm_compute; repeat first [by left | right] |]).
  by apply elem_of_nil in Hc.
Qed.

Lemma token_hex r : Forall (fun c => c ∈ HEX_UPPER) (Uuid.token r).
Proof.
  unfold Uuid.token, Py.upper, Py.upto. apply Forall_map, Forall_take.
  eapply Forall_impl; [apply hex_fixed_lower|]. intros c. apply upper_hex.
Qed.

Lemma hex_noslash s : Forall (fun c => c ∈ HEX_UPPER) s -> noslash s.
Proof.
  intros Hs. eapply Forall_impl; [exact Hs|]. intros c Hc ->. unfold HEX_UPPER in Hc.
  repeat (apply elem_of_cons in Hc as [Hc|Hc]; [discriminate|]).
  by apply elem_of_nil in Hc.
Qed.

Lemma token_noslash r : noslash (Uuid.token r).
Proof. apply hex_noslash, token_hex. Qed.

(** ** The inserter's run, step by step *)

Lemma advance_advance w n m : advance (advance w n) m = advance w (n + m).
Proof. unfold advance. simpl. f_equal. lia. Qed.

Lemma advance_0 w : advance w 0 = w.
Proof. destruct w. unfold advance. simpl. f_equal. lia. Qed.

Lemma collect_collected files acc w :
  collect files acc w =
    (Returned (collected (entropy w) (drawn w) files acc), advance w (2 * length files)).
Proof.
  revert acc w. induction files as [|p files IH]; intros acc w.
  - simpl. by rewrite advance_0.
  - cbn [collect collected]. unfold mbind, prog_bind, fresh_token. cbn beta iota.
    rewrite IH. cbn [entropy drawn]. f_equal.
    unfold advance. cbn. f_equal. lia.
Qed.

Lemma find_0 s m :
  Py.find s m 0 = match Py.index_of m s with Some i => Z.of_nat i | None => (-1)%Z end.
Proof.
  unfold Py.find. change (0 <? 0)%Z with false. cbn beta iota.
  destruct (Z.ltb_spec (Z.of_nat (length s)) 0); [lia|].
  change (Z.to_nat 0) with 0. rewrite drop_0.
  by destruct (Py.index_of m s).
Qed.

Lemma find_nat s m p :
  p <= length s ->
  Py.find s m (Z.of_nat p) =
    match Py.index_of m (drop p s) with Some i => Z.of_nat (p + i) | None => (-1)%Z end.
Proof.
  intros Hp. unfold Py.find.
  destruct (Z.ltb_spec (Z.of_nat p) 0); [lia|].
  destruct (Z.ltb_spec (Z.of_nat (length s)) (Z.of_nat p)); [lia|].
  rewrite Nat2Z.id. destruct (Py.index_of m (drop p s)); [f_equal; lia|done].
Qed.

Lemma splice_nat content e entries :
  splice content (Z.of_nat e) entries = take e content ++ concat entries ++ drop e content.
Proof. unfold splice, Py.join. by rewrite upto_nat, from_nat. Qed.

Lemma neg1_of_nat i : (Z.of_nat i =? -1)%Z = false.
Proof. apply Z.eqb_neq. lia. Qed.

Lemma insert_build_files_eq content frs :
  insert_build_files content frs =
    match Py.index_of BEGIN_BUILD content, Py.index_of END_BUILD content with
    | Some _, Some e =>
        Some (take e content ++ concat (build_file_entries frs) ++ drop e content)
    | _, _ => None
    end.
Proof.
  unfold insert_build_files. rewrite !find_0.
  destruct (Py.index_of BEGIN_BUILD content) as [b|]; [|done].
  destruct (Py.index_of END_BUILD content) as [e|].
  - by rewrite !neg1_of_nat, splice_nat.
  - by rewrite neg1_of_nat.
Qed.

Lemma insert_file_refs_eq content frs :
  insert_file_refs content frs =
    match Py.index_of BEGIN_REF content, Py.index_of END_REF content with
    | Some _, Some e =>
        Some (take e content ++ concat (file_ref_entries frs) ++ drop e content)
    | _, _ => None
    end.
Proof.
  unfold insert_file_refs. rewrite !find_0.
  destruct (Py.index_of BEGIN_REF content) as [b|]; [|done].
  destruct (Py.index_of END_REF content) as [e|].
  - by rewrite !neg1_of_nat, splice_nat.
  - by rewrite neg1_of_nat.
Qed.

Lemma insert_sources_eq content frs :
  insert_sources content frs =
    match Py.index_of BEGIN_SOURCES content, Py.index_of END_SOURCES content with
    | Some p, Some _ =>
        match Py.index_of FILES_OPEN (drop p content) with
        | Some q =>
            match Py.index_of FILES_CLOSE (drop (p + q) content) with
            | Some r =>
                Some (take (p + q + r) content ++ concat (source_entries frs)
                        ++ drop (p + q + r) content)
            | None => None
            end
        | None => None
        end
    | _, _ => None
    end.
Proof.
  unfold insert_sources. rewrite !find_0.
  destruct (Py.index_of BEGIN_SOURCES content) as [p|] eqn:Ep; [|done].
  destruct (Py.index_of END_SOURCES content) as [e|]; [|by rewrite neg1_of_nat].
  rewrite !neg1_of_nat. cbn [orb].
  pose proof (index_of_le _ _ _ Ep) as Hp.
  rewrite find_nat by done.
  destruct (Py.index_of FILES_OPEN (drop p content)) as [q|] eqn:Eq; [|done].
  pose proof (index_of_le _ _ _ Eq) as Hq. rewrite length_drop in Hq.
  rewrite neg1_of_nat. cbn [orb].
  rewrite find_nat by lia.
  destruct (Py.index_of FILES_CLOSE (drop (p + q) content)) as [r|] eqn:Er; [|done].
  by rewrite neg1_of_nat, splice_nat.
Qed.

Lemma add_files_run path files w :
  add_files_to_pbxproj path files w =
    match fs w !! path with
    | None => (Raised, w)
    | Some content =>
        let w1 := advance w (2 * length files) in
        match insert_all content (collected (entropy w) (drawn w) files []) with
        | None => (Returned false, w1)
        | Some out => (Returned true, written w1 path out)
        end
    end.
Proof.
  unfold add_files_to_pbxproj, mbind, prog_bind, read_file.
  destruct (fs w !! path) as [content|]; [|done].
  rewrite collect_collected. cbn zeta.
  by destruct (insert_all _ _).
Qed.

(** ** The dictionary of file infos *)

Lemma elem_of_dict_set {V} (k : str) (v : V) d x :
  x ∈ dict_set k v d -> x = (k, v) \/ x ∈ d.
Proof.
  induction d as [|[k' v'] d IH]; simpl.
  - intros Hx. left. by apply list_elem_of_singleton in Hx.
  - destruct (decide (k = k')) as [->|Hne]; intros Hx.
    + apply elem_of_cons in Hx as [->|Hx]; [by left|]. right. by right.
    + apply elem_of_cons in Hx as [->|Hx]; [right; by left|].
      destruct (IH Hx) as [->|?]; [by left|]. right. by right.
Qed.

Lemma dict_set_Forall {V} (P : str * V -> Prop) k v d :
  P (k, v) -> Forall P d -> Forall P (dict_set k v d).
Proof.
  intros Hk Hd. apply Forall_forall. intros x Hx.
  apply elem_of_dict_set in Hx as [->|Hx]; [done|].
  rewrite Forall_forall in Hd. by apply Hd.
Qed.

Lemma dict_get_set {V} (k : str) (v : V) d : dict_get k (dict_set k v d) = Some v.
Proof.
  induction d as [|[k' v'] d IH]; simpl.
  - by rewrite decide_True.
  - destruct (decide (k = k')) as [->|Hne]; simpl.
    + by rewrite decide_True.
    + by rewrite decide_False.
Qed.

Lemma dict_get_set_ne {V} (k k' : str) (v : V) d :
  k' <> k -> dict_get k' (dict_set k v d) = dict_get k' d.
Proof.
  intros Hne. induction d as [|[k'' v''] d IH]; simpl.
  - by rewrite decide_False.
  - destruct (decide (k = k'')) as [->|Hne']; simpl.
    + by rewrite !decide_False.
    + destruct (decide (k' = k'')); [done|]. apply IH.
Qed.

Lemma dict_get_elem {V} (k : str) (v : V) d : dict_get k d = Some v -> (k, v) ∈ d.
Proof.
  induction d as [|[k' v'] d IH]; simpl; [done|].
  destruct (decide (k = k')) as [->|Hne].
  - intros [= ->]. by left.
  - intros Hd. right. by apply IH.
Qed.

Lemma dict_set_fresh {V} (k : str) (v : V) d : k ∉ d.*1 -> dict_set k v d = d ++ [(k, v)].
Proof.
  induction d as [|[k' v'] d IH]; simpl; [done|]. intros Hk.
  apply not_elem_of_cons in Hk as [Hne Hk].
  rewrite decide_False by done. by rewrite IH.
Qed.

Lemma collected_Forall (P : str * file_info -> Prop) rnd k files acc :
  Forall P acc ->
  (forall p j, p ∈ files ->
     P (p, {| ref_uuid := Uuid.token (rnd j); build_uuid := Uuid.token (rnd (S j));
              name := Py.basename p |})) ->
  Forall P (collected rnd k files acc).
Proof.
  revert k acc. induction files as [|p files IH]; intros k acc Hacc Hnew; [done|].
  simpl. apply IH.
  - apply dict_set_Forall; [|done]. apply Hnew. by left.
  - intros p' j Hp'. apply Hnew. by right.
Qed.

Lemma collected_get_keeps rnd k files acc p :
  is_Some (dict_get p acc) -> is_Some (dict_get p (collected rnd k files acc)).
Proof.
  revert k acc. induction files as [|p' files IH]; intros k acc Hp; [done|].
  simpl. apply IH. destruct (decide (p = p')) as [->|Hne].
  - by rewrite dict_get_set.
  - by rewrite dict_get_set_ne.
Qed.

Lemma collected_get rnd k files acc p :
  p ∈ files -> is_Some (dict_get p (collected rnd k files acc)).
Proof.
  revert k acc. induction files as [|p' files IH]; intros k acc Hp.
  - by apply elem_of_nil in Hp.
  - simpl. apply elem_of_cons in Hp as [->|Hp]; [|by apply IH].
    apply collected_get_keeps. by rewrite dict_get_set.
Qed.

Lemma tokens_drawn_S rnd k n :
  tokens_drawn rnd k (S (S n)) =
    Uuid.token (rnd k) :: Uuid.token (rnd (S k)) :: tokens_drawn rnd (S (S k)) n.
Proof. reflexivity. Qed.

Lemma allocated_app d1 d2 : allocated (d1 ++ d2) = allocated d1 ++ allocated d2.
Proof. unfold allocated. by rewrite flat_map_app. Qed.

Lemma allocated_dict_set k v d t :
  t ∈ allocated (dict_set k v d) -> t ∈ [ref_uuid v; build_uuid v] \/ t ∈ allocated d.
Proof.
  unfold allocated. rewrite !list_elem_of_In, !in_flat_map.
  intros (x & Hx & Ht). apply list_elem_of_In, elem_of_dict_set in Hx as [->|Hx].
  - by left.
  - right. exists x. by rewrite <- list_elem_of_In.
Qed.

Lemma NoDup_allocated_dict_set k v d :
  NoDup (allocated d) -> ref_uuid v <> build_uuid v ->
  ref_uuid v ∉ allocated d -> build_uuid v ∉ allocated d ->
  NoDup (allocated (dict_set k v d)).
Proof.
  intros Hd Hne Hr Hb. induction d as [|[k' v'] d IH].
  - simpl. apply NoDup_cons. split; [by rewrite list_elem_of_singleton|].
    apply NoDup_singleton.
  - simpl. change (allocated ((k', v') :: d)) with ([ref_uuid v'; build_uuid v'] ++ allocated d) in *.
    apply NoDup_app in Hd as (H1 & H2 & H3).
    apply not_elem_of_app in Hr as [Hr1 Hr2]. apply not_elem_of_app in Hb as [Hb1 Hb2].
    destruct (decide (k = k')) as [->|Hk].
    + change (allocated ((k', v) :: d)) with ([ref_uuid v; build_uuid v] ++ allocated d).
      apply NoDup_app. split_and!; [| |done].
      2:{ intros x Hx. apply elem_of_cons in Hx as [->|Hx]; [done|].
          by apply list_elem_of_singleton in Hx as ->. }
      apply NoDup_cons. split; [by rewrite list_elem_of_singleton|apply NoDup_singleton].
    + change (allocated ((k', v') :: dict_set k v d))
        with ([ref_uuid v'; build_uuid v'] ++ allocated (dict_set k v d)).
      apply NoDup_app. split_and!; [done| |by apply IH].
      intros x Hx Hx'. apply allocated_dict_set in Hx' as [Hx'|Hx']; [|by apply (H2 x)].
      apply elem_of_cons in Hx' as [->|Hx'].
      { apply Hr1. done. }
      apply list_elem_of_singleton in Hx' as ->. by apply Hb1.
Qed.

Lemma collected_allocated_sub rnd k files acc t :
  t ∈ allocated (collected rnd k files acc) ->
  t ∈ allocated acc \/ t ∈ tokens_drawn rnd k (2 * length files).
Proof.
  revert k acc. induction files as [|p files IH]; intros k acc Ht; [by left|].
  simpl in Ht. apply IH in Ht.
  replace (2 * length (p :: files)) with (S (S (2 * length files))) by (simpl; lia).
  rewrite tokens_drawn_S. destruct Ht as [Ht|Ht].
  - apply allocated_dict_set in Ht as [Ht|Ht]; [|by left]. right.
    cbn [ref_uuid build_uuid] in Ht.
    apply elem_of_cons in Ht as [->|Ht]; [by left|].
    apply list_elem_of_singleton in Ht as ->. right. by left.
  - right. by do 2 right.
Qed.

Lemma collected_NoDup rnd k files acc :
  NoDup (allocated acc ++ tokens_drawn rnd k (2 * length files)) ->
  NoDup (allocated (collected rnd k files acc)).
Proof.
  revert k acc. induction files as [|p files IH]; intros k acc Hnd.
  - simpl in *. by rewrite app_nil_r in Hnd.
  - replace (2 * length (p :: files)) with (S (S (2 * length files))) in Hnd by (simpl; lia).
    rewrite tokens_drawn_S in Hnd.
    apply NoDup_app in Hnd as (H1 & H2 & H3).
    apply NoDup_cons in H3 as [H4 H3]. apply NoDup_cons in H3 as [H5 H3].
    simpl. apply IH. apply NoDup_app. split_and!; [|  |done].
    + apply NoDup_allocated_dict_set; cbn [ref_uuid build_uuid]; [done| |..].
      * intros Heq. apply H4. rewrite Heq. by left.
      * intros Hin. apply (H2 _ Hin). by left.
      * intros Hin. apply (H2 _ Hin). right. by left.
    + intros x Hx Hx'. apply allocated_dict_set in Hx as [Hx|Hx].
      * cbn [ref_uuid build_uuid] in Hx.
        apply elem_of_cons in Hx as [->|Hx]; [apply H4; by right|].
        apply list_elem_of_singleton in Hx as ->. done.
      * apply (H2 _ Hx). by do 2 right.
Qed.

Lemma collected_fresh rnd k files acc :
  NoDup files -> (forall p, p ∈ files -> p ∉ acc.*1) ->
  allocated (collected rnd k files acc) = allocated acc ++ tokens_drawn rnd k (2 * length files).
Proof.
  revert k acc. induction files as [|p files IH]; intros k acc Hnd Hfresh.
  - simpl. by rewrite app_nil_r.
  - apply NoDup_cons in Hnd as [Hp Hnd]. simpl collected.
    rewrite dict_set_fresh by (apply Hfresh; by left).
    rewrite IH; [|done|].
    + rewrite allocated_app.
      replace (2 * length (p :: files)) with (S (S (2 * length files))) by (simpl; lia).
      rewrite tokens_drawn_S. by rewrite <- app_assoc.
    + intros p' Hp'. rewrite fmap_app. apply not_elem_of_app. split.
      * apply Hfresh. by right.
      * simpl. rewrite list_elem_of_singleton. by intros ->.
Qed.

(** ** Identifier allocation *)

Lemma collect_returns files w :
  collect files [] w =
    (Returned (collected (entropy w) (drawn w) files []), advance w (2 * length files)).
Proof. apply collect_collected. Qed.

(** C1, as the code has it: the identifiers of a run are the tokens the
    random source yields, taken as they come; they are pairwise distinct and
    absent from the manifest whenever the tokens drawn are, and no token is
    ever compared with the manifest or with an earlier one. *)
Theorem identifiers_are_the_tokens_drawn (files : list str) (w : world) (content : str) :
  NoDup (tokens_drawn (entropy w) (drawn w) (2 * length files)) ->
  Forall (fun t => Py.contains t content = false)
         (tokens_drawn (entropy w) (drawn w) (2 * length files)) ->
  exists frs w',
    collect files [] w = (Returned frs, w')
    /\ NoDup (allocated frs)
    /\ Forall (fun t => Py.contains t content = false) (allocated frs)
    /\ (forall t, t ∈ allocated frs ->
          t ∈ tokens_drawn (entropy w) (drawn w) (2 * length files))
    /\ (NoDup files ->
          allocated frs = tokens_drawn (entropy w) (drawn w) (2 * length files)).
Proof.
  intros Hnd Hfresh. eexists _, _. split; [apply collect_returns|].
  assert (forall t, t ∈ allocated (collected (entropy w) (drawn w) files []) ->
            t ∈ tokens_drawn (entropy w) (drawn w) (2 * length files)) as Hsub.
  { intros t Ht. apply collected_allocated_sub in Ht as [Ht|Ht]; [|done].
    by apply elem_of_nil in Ht. }
  split_and!.
  - by apply collected_NoDup.
  - apply Forall_forall. intros t Ht. rewrite Forall_forall in Hfresh.
    by apply Hfresh, Hsub.
  - done.
  - intros Hfiles. rewrite collected_fresh; [done|done|].
    intros p _. apply not_elem_of_nil.
Qed.

Lemma identifiers_are_the_tokens_drawn_witness :
  exists frs w',
    collect files_to_add [] (sample_world sample_files counting_source) = (Returned frs, w')
    /\ NoDup (allocated frs)
    /\ Forall (fun t => Py.contains t sample_manifest = false) (allocated frs)
    /\ (forall t, t ∈ allocated frs -> t ∈ tokens_drawn counting_source 0 4)
    /\ (NoDup files_to_add -> allocated frs = tokens_drawn counting_source 0 4).
Proof.
  apply (identifiers_are_the_tokens_drawn files_to_add
           (sample_world sample_files counting_source) sample_manifest).
  - apply (bool_decide_unpack _). vm_compute. reflexivity.
  - repeat constructor.
Defined.

(** C1 as stated fails: when the random source yields the same value
    twice, the file reference and the build file of one file get the same
    identifier. *)
Lemma allocation_can_collide :
  exists frs w',
    collect files_to_add [] (sample_world sample_files stuck_source) = (Returned frs, w')
    /\ ~ NoDup (allocated frs).
Proof.
  eexists _, _. split; [apply collect_returns|].
  intros Hnd. vm_compute in Hnd.
  apply NoDup_cons in Hnd as [Hnd _]. apply Hnd. by left.
Qed.

(** ** What the inserted file reference records *)

Lemma collected_names rnd k files acc :
  Forall (fun kv => name kv.2 = Py.basename kv.1) acc ->
  Forall (fun kv => name kv.2 = Py.basename kv.1) (collected rnd k files acc).
Proof. intros Hacc. by apply collected_Forall. Qed.

Example file_reference_of_a_nested_file :
  file_ref_entries
    (collected counting_source 0 [lit "documentAI/Extensions/PDFDocument+AcroForm.swift"] [])
  = [ file_ref_line (lit "000000000000400080000000")
        (lit "PDFDocument+AcroForm.swift") (lit "PDFDocument+AcroForm.swift") ].
Proof. vm_compute. reflexivity. Qed.

(** ** Where the entries go *)

Lemma inserted_before_intro m blk s e :
  Py.index_of m s = Some e ->
  inserted_before m blk e s (take e s ++ blk ++ drop e s).
Proof.
  intros He. pose proof (index_of_le _ _ _ He) as Hle.
  apply index_of_Some in He as [Ho _].
  exists (take e s), (drop (e + length m) s). split_and!.
  - by apply occ_split.
  - rewrite length_take. lia.
  - do 2 f_equal. rewrite (occ_split m s e) at 1 by done.
    rewrite drop_app_length'; [done|]. rewrite length_take. lia.
Qed.

Lemma insert_all_spliced content frs out :
  insert_all content frs = Some out -> spliced content frs out.
Proof.
  unfold insert_all. intros H.
  apply bind_Some in H as (c1 & H1 & H).
  apply bind_Some in H as (c2 & H2 & H3).
  rewrite insert_build_files_eq in H1. rewrite insert_file_refs_eq in H2.
  rewrite insert_sources_eq in H3.
  destruct (Py.index_of BEGIN_BUILD content); [|done].
  destruct (Py.index_of END_BUILD content) as [e1|] eqn:E1; [|done].
  destruct (Py.index_of BEGIN_REF c1); [|done].
  destruct (Py.index_of END_REF c1) as [e2|] eqn:E2; [|done].
  destruct (Py.index_of BEGIN_SOURCES c2) as [p|] eqn:Ep; [|done].
  destruct (Py.index_of END_SOURCES c2); [|done].
  destruct (Py.index_of FILES_OPEN (drop p c2)) as [q|] eqn:Eq; [|done].
  destruct (Py.index_of FILES_CLOSE (drop (p + q) c2)) as [r|] eqn:Er; [|done].
  injection H1 as <-. injection H2 as <-. injection H3 as <-.
  eexists _, _, e1, e2, p, q, r. split_and!; try done.
  - by apply inserted_before_intro.
  - by apply inserted_before_intro.
  - pose proof (index_of_le _ _ _ Ep) as Hp.
    pose proof (index_of_le _ _ _ Eq) as Hq. rewrite length_drop in Hq.
    pose proof (index_of_le _ _ _ Er) as Hr. rewrite length_drop in Hr.
    apply index_of_Some in Er as [Ho _]. unfold occ in Ho. rewrite drop_drop in Ho.
    set (c2 := take e2 _ ++ _ ++ drop e2 _) in *.
    exists (take (p + q + r) c2), (drop (p + q + r + length FILES_CLOSE) c2). split_and!.
    + apply occ_split; [exact Ho|lia].
    + rewrite length_take. lia.
    + do 2 f_equal. rewrite (occ_split FILES_CLOSE c2 (p + q + r)) at 1; [|exact Ho|lia].
      rewrite drop_app_length'; [done|]. rewrite length_take. lia.
Qed.

(** C8: a run that succeeds writes the manifest it read with the three
    blocks of new lines spliced in, each right before the marker of its
    section (the closing [);] of the files array for the membership lines),
    and changes nothing else: the rest of the text and every other file
    stay as they were. *)
Theorem entries_are_spliced_before_the_markers
    (path : string) (files : list str) (w w' : world) :
  add_files_to_pbxproj path files w = (Returned true, w') ->
  exists content frs out,
    fs w !! path = Some content
    /\ (collect files [] w).1 = Returned frs
    /\ spliced content frs out
    /\ length out = length content + length (concat (build_file_entries frs))
         + length (concat (file_ref_entries frs)) + length (concat (source_entries frs))
    /\ fs w' = <[path := out]> (fs w)
    /\ writes w' = writes w ++ [Wrote path out].
Proof.
  rewrite add_files_run. destruct (fs w !! path) as [content|] eqn:Ec; [|done].
  cbn zeta. destruct (insert_all content _) as [out|] eqn:Eo; [|done].
  intros [= <-]. eexists content, _, out. split_and!; try done.
  - by rewrite collect_returns.
  - by apply insert_all_spliced.
  - apply insert_all_spliced in Eo as (c1 & c2 & e1 & e2 & p & q & r & _ & H1 & _ & H2 & _ & _ & _ & H3).
    destruct H1 as (a1 & b1 & -> & _ & ->). destruct H2 as (a2 & b2 & E2 & _ & ->).
    destruct H3 as (a3 & b3 & E3 & _ & ->).
    apply (f_equal length) in E2, E3. rewrite !length_app in *. lia.
Qed.

Lemma entries_are_spliced_before_the_markers_witness :
  exists content frs out,
    fs (sample_world sample_files counting_source) !! pbxproj_path = Some content
    /\ (collect files_to_add [] (sample_world sample_files counting_source)).1 = Returned frs
    /\ spliced content frs out
    /\ length out = length content + length (concat (build_file_entries frs))
         + length (concat (file_ref_entries frs)) + length (concat (source_entries frs))
    /\ fs (add_files_to_pbxproj pbxproj_path files_to_add
             (sample_world sample_files counting_source)).2
       = <[pbxproj_path := out]> (fs (sample_world sample_files counting_source))
    /\ writes (add_files_to_pbxproj pbxproj_path files_to_add
                 (sample_world sample_files counting_source)).2
       = writes (sample_world sample_files counting_source) ++ [Wrote pbxproj_path out].
Proof.
  apply (entries_are_spliced_before_the_markers pbxproj_path files_to_add
           (sample_world sample_files counting_source)).
  vm_compute. reflexivity.
Defined.

(** ** The inserted lines and the markers *)

Lemma build_file_entry_framed i : framed (build_file_entry i).
Proof.
  exists ([TAB] ++ build_uuid i ++ lit " /* " ++ name i
    ++ lit " in Sources */ = {isa = PBXBuildFile; fileRef = " ++ ref_uuid i
    ++ lit " /* " ++ name i ++ lit " */; };").
  unfold build_file_entry, build_file_line.
  rewrite <- !app_assoc. reflexivity.
Qed.

Lemma file_ref_entry_framed p i : framed (file_ref_entry p i).
Proof.
  exists ([TAB] ++ ref_uuid i ++ lit " /* " ++ name i
    ++ lit " */ = {isa = PBXFileReference; lastKnownFileType = sourcecode.swift; path = "
    ++ name i ++ lit "; sourceTree = " ++ [DQUOTE] ++ lit "<group>" ++ [DQUOTE]
    ++ lit "; };").
  unfold file_ref_entry, file_ref_line.
  rewrite <- !app_assoc. reflexivity.
Qed.

Lemma build_file_entries_framed frs : Forall framed (build_file_entries frs).
Proof. apply Forall_map, Forall_true. intros kv. apply build_file_entry_framed. Qed.

Lemma file_ref_entries_framed frs : Forall framed (file_ref_entries frs).
Proof. apply Forall_map, Forall_true. intros kv. apply file_ref_entry_framed. Qed.

Lemma build_file_entries_free frs w e k :
  plain frs -> w ∈ reserved -> e ∈ build_file_entries frs -> ~ occ (comment w) e k.
Proof.
  intros Hp Hw He. apply list_elem_of_fmap in He as ([p i] & -> & Hkv).
  unfold plain in Hp. rewrite Forall_forall in Hp.
  destruct (Hp _ Hkv) as (? & ? & ? & ?). by apply build_file_entry_free.
Qed.

Lemma file_ref_entries_free frs w e k :
  plain frs -> w ∈ reserved -> e ∈ file_ref_entries frs -> ~ occ (comment w) e k.
Proof.
  intros Hp Hw He. apply list_elem_of_fmap in He as ([p i] & -> & Hkv).
  unfold plain in Hp. rewrite Forall_forall in Hp.
  destruct (Hp _ Hkv) as (? & ? & ? & ?). by apply file_ref_entry_free.
Qed.

Lemma comment_shape w :
  w ∈ reserved -> comment w <> [] /\ (TAB ∉ comment w) /\ (NL ∉ comment w).
Proof.
  intros Hw. unfold reserved in Hw.
  repeat (apply elem_of_cons in Hw as [->|Hw];
          [split_and!; [done|apply (bool_decide_unpack _); reflexivity..]|]).
  by apply elem_of_nil in Hw.
Qed.

Lemma reserved_after_build_files frs w a b j :
  plain frs -> w ∈ reserved ->
  Py.index_of (comment w) (a ++ b) = Some j -> length a <= j ->
  Py.index_of (comment w) (a ++ concat (build_file_entries frs) ++ b)
    = Some (j + length (concat (build_file_entries frs))).
Proof.
  intros Hp Hw Hj Ha. destruct (comment_shape w Hw) as (? & ? & ?).
  apply index_of_splice_after; try done.
  - apply build_file_entries_framed.
  - intros e k. by apply build_file_entries_free.
Qed.

Lemma reserved_after_file_refs frs w a b j :
  plain frs -> w ∈ reserved ->
  Py.index_of (comment w) (a ++ b) = Some j -> length a <= j ->
  Py.index_of (comment w) (a ++ concat (file_ref_entries frs) ++ b)
    = Some (j + length (concat (file_ref_entries frs))).
Proof.
  intros Hp Hw Hj Ha. destruct (comment_shape w Hw) as (? & ? & ?).
  apply index_of_splice_after; try done.
  - apply file_ref_entries_framed.
  - intros e k. by apply file_ref_entries_free.
Qed.

Lemma reserved_none_build_files frs w a b :
  plain frs -> w ∈ reserved ->
  Py.index_of (comment w) (a ++ b) = None ->
  Py.index_of (comment w) (a ++ concat (build_file_entries frs) ++ b) = None.
Proof.
  intros Hp Hw Hj. destruct (comment_shape w Hw) as (? & ? & ?).
  apply index_of_splice_none; try done.
  - apply build_file_entries_framed.
  - intros e k. by apply build_file_entries_free.
Qed.

Lemma reserved_none_file_refs frs w a b :
  plain frs -> w ∈ reserved ->
  Py.index_of (comment w) (a ++ b) = None ->
  Py.index_of (comment w) (a ++ concat (file_ref_entries frs) ++ b) = None.
Proof.
  intros Hp Hw Hj. destruct (comment_shape w Hw) as (? & ? & ?).
  apply index_of_splice_none; try done.
  - apply file_ref_entries_framed.
  - intros e k. by apply file_ref_entries_free.
Qed.

Lemma collected_plain rnd k files :
  Forall (fun p => Py.basename p ∉ reserved) files ->
  plain (collected rnd k files []).
Proof.
  intros Hf. apply collected_Forall; [constructor|].
  intros p j Hp. cbn [snd ref_uuid build_uuid name]. split_and!.
  - apply token_noslash.
  - apply token_noslash.
  - apply basename_noslash.
  - rewrite Forall_forall in Hf. by apply Hf.
Qed.

Lemma occurs_is_Some m a b : is_Some (Py.index_of m (a ++ m ++ b)).
Proof.
  apply (index_of_is_Some m _ (length a)); [apply occ_app|].
  rewrite length_app. lia.
Qed.

Lemma take_drop_app_length {A} (a b : list A) :
  take (length a) (a ++ b) = a /\ drop (length a) (a ++ b) = b.
Proof. split; [by rewrite take_app_length|by rewrite drop_app_length]. Qed.

(** ** A manifest laid out as Xcode writes it *)

Lemma splice_at {A} (a b blk : list A) n :
  n = length a -> take n (a ++ b) ++ blk ++ drop n (a ++ b) = a ++ blk ++ b.
Proof. intros ->. by rewrite take_app_length, drop_app_length. Qed.

Lemma drop_at {A} (a b : list A) n : n = length a -> drop n (a ++ b) = b.
Proof. intros ->. by rewrite drop_app_length. Qed.

Ltac reassoc := unfold manifest, render; rewrite <- ?app_assoc; reflexivity.

Lemma reserved_members :
  lit "Begin PBXFileReference section" ∈ reserved
  /\ lit "End PBXFileReference section" ∈ reserved
  /\ lit "Begin PBXSourcesBuildPhase section" ∈ reserved
  /\ lit "End PBXSourcesBuildPhase section" ∈ reserved.
Proof. unfold reserved. split_and!; repeat first [by left | right]. Qed.

Lemma end_ref_after_build_files frs a b j :
  plain frs -> Py.index_of END_REF (a ++ b) = Some j -> length a <= j ->
  Py.index_of END_REF (a ++ concat (build_file_entries frs) ++ b)
    = Some (j + length (concat (build_file_entries frs))).
Proof.
  intros Hp. apply (reserved_after_build_files frs (lit "End PBXFileReference section"));
    [done|apply reserved_members].
Qed.

Lemma begin_sources_after_build_files frs a b j :
  plain frs -> Py.index_of BEGIN_SOURCES (a ++ b) = Some j -> length a <= j ->
  Py.index_of BEGIN_SOURCES (a ++ concat (build_file_entries frs) ++ b)
    = Some (j + length (concat (build_file_entries frs))).
Proof.
  intros Hp. apply (reserved_after_build_files frs (lit "Begin PBXSourcesBuildPhase section"));
    [done|apply reserved_members].
Qed.

Lemma begin_sources_after_file_refs frs a b j :
  plain frs -> Py.index_of BEGIN_SOURCES (a ++ b) = Some j -> length a <= j ->
  Py.index_of BEGIN_SOURCES (a ++ concat (file_ref_entries frs) ++ b)
    = Some (j + length (concat (file_ref_entries frs))).
Proof.
  intros Hp. apply (reserved_after_file_refs frs (lit "Begin PBXSourcesBuildPhase section"));
    [done|apply reserved_members].
Qed.

Section Layout.
Variable L : layout.
Variable frs : list (str * file_info).
Hypothesis Hwf : well_formed L.
Hypothesis Hplain : plain frs.

Let BF := concat (build_file_entries frs).
Let FR := concat (file_ref_entries frs).
Let SM := concat (source_entries frs).

(** The text before the insertion point of each block, in the manifest as
    it is read. *)
Let A1 := preamble L ++ BEGIN_BUILD ++ build_files L.
Let X1 := END_BUILD ++ gap1 L ++ BEGIN_REF ++ references L ++ END_REF
    ++ gap2 L ++ BEGIN_SOURCES ++ phase_head L ++ FILES_OPEN ++ members L
    ++ FILES_CLOSE ++ phase_tail L ++ END_SOURCES ++ epilogue L.
Let M2 := END_BUILD ++ gap1 L ++ BEGIN_REF ++ references L.
Let X2 := END_REF ++ gap2 L ++ BEGIN_SOURCES ++ phase_head L ++ FILES_OPEN ++ members L
    ++ FILES_CLOSE ++ phase_tail L ++ END_SOURCES ++ epilogue L.
Let M3 := END_REF ++ gap2 L.
Let X3 := BEGIN_SOURCES ++ phase_head L ++ FILES_OPEN ++ members L
    ++ FILES_CLOSE ++ phase_tail L ++ END_SOURCES ++ epilogue L.

Lemma layout_build_files : insert_build_files (manifest L) frs = Some (render L BF [] []).
Proof.
  destruct Hwf as (H1 & _).
  rewrite insert_build_files_eq, H1.
  destruct (occurs_is_Some BEGIN_BUILD (preamble L)
              (build_files L ++ X1)) as [b Hb].
  replace (manifest L) with (preamble L ++ BEGIN_BUILD ++ build_files L ++ X1) by reassoc.
  rewrite Hb. f_equal.
  replace (preamble L ++ BEGIN_BUILD ++ build_files L ++ X1) with (A1 ++ X1)
    by (unfold A1; rewrite <- ?app_assoc; reflexivity).
  rewrite splice_at by reflexivity. unfold A1, X1. reassoc.
Qed.

Lemma layout_end_ref :
  Py.index_of END_REF (render L BF [] []) = Some (length (A1 ++ BF ++ M2)).
Proof.
  destruct Hwf as (_ & H2 & _).
  replace (render L BF [] []) with (A1 ++ concat (build_file_entries frs) ++ X1)
    by (unfold A1, X1, BF; reassoc).
  rewrite (end_ref_after_build_files frs A1 X1 (length (A1 ++ M2))); try done.
  - f_equal. unfold BF. rewrite !length_app. lia.
  - replace (A1 ++ X1) with (manifest L) by (unfold A1, X1; reassoc).
    rewrite H2. do 2 f_equal. unfold A1, M2. rewrite <- ?app_assoc. reflexivity.
  - rewrite length_app. lia.
Qed.

Lemma layout_file_refs : insert_file_refs (render L BF [] []) frs = Some (render L BF FR []).
Proof.
  rewrite insert_file_refs_eq, layout_end_ref.
  destruct (occurs_is_Some BEGIN_REF (A1 ++ BF ++ END_BUILD ++ gap1 L)
              (references L ++ X2)) as [b Hb].
  replace (render L BF [] []) with
    ((A1 ++ BF ++ END_BUILD ++ gap1 L) ++ BEGIN_REF ++ references L ++ X2)
    by (unfold A1, X2; reassoc).
  rewrite Hb. f_equal.
  replace ((A1 ++ BF ++ END_BUILD ++ gap1 L) ++ BEGIN_REF ++ references L ++ X2)
    with ((A1 ++ BF ++ M2) ++ X2) by (unfold A1, M2, X2; rewrite <- ?app_assoc; reflexivity).
  rewrite splice_at by reflexivity. unfold A1, M2, X2, FR. reassoc.
Qed.

Lemma layout_begin_sources :
  Py.index_of BEGIN_SOURCES (render L BF FR []) = Some (length (A1 ++ BF ++ M2 ++ FR ++ M3)).
Proof.
  destruct Hwf as (_ & _ & H3 & _).
  replace (render L BF FR []) with ((A1 ++ BF ++ M2) ++ concat (file_ref_entries frs) ++ X2)
    by (unfold A1, M2, X2, BF, FR; reassoc).
  rewrite (begin_sources_after_file_refs frs (A1 ++ BF ++ M2) X2
             (length (A1 ++ M2 ++ M3) + length BF)); try done.
  - f_equal. unfold FR. rewrite !length_app. lia.
  - replace ((A1 ++ BF ++ M2) ++ X2) with (A1 ++ concat (build_file_entries frs) ++ X1)
      by (unfold A1, M2, X1, X2, BF; rewrite <- ?app_assoc; reflexivity).
    apply begin_sources_after_build_files; try done.
    + replace (A1 ++ X1) with (manifest L) by (unfold A1, X1; reassoc).
      rewrite H3. do 2 f_equal. unfold A1, M2, M3. rewrite <- ?app_assoc. reflexivity.
    + rewrite !length_app. lia.
  - rewrite !length_app. lia.
Qed.

Lemma layout_sources : insert_sources (render L BF FR []) frs = Some (render L BF FR SM).
Proof.
  destruct Hwf as (_ & _ & _ & H4 & H5).
  rewrite insert_sources_eq, layout_begin_sources.
  set (A3 := A1 ++ BF ++ M2 ++ FR ++ M3).
  destruct (occurs_is_Some END_SOURCES
              (A3 ++ BEGIN_SOURCES ++ phase_head L ++ FILES_OPEN ++ members L
                 ++ FILES_CLOSE ++ phase_tail L) (epilogue L)) as [b Hb].
  assert (render L BF FR [] = A3 ++ X3) as Hc
    by (unfold A3, A1, M2, M3, X3; reassoc).
  replace (Py.index_of END_SOURCES (render L BF FR [])) with (Some b).
  2:{ rewrite <- Hb. f_equal. rewrite Hc. unfold X3. rewrite <- ?app_assoc. reflexivity. }
  rewrite Hc at 1. rewrite drop_app_length. fold X3 in H4. rewrite H4.
  set (q := length (BEGIN_SOURCES ++ phase_head L)).
  assert (A3 ++ X3 = (A3 ++ BEGIN_SOURCES ++ phase_head L)
            ++ FILES_OPEN ++ members L ++ FILES_CLOSE ++ phase_tail L
            ++ END_SOURCES ++ epilogue L) as Hc2
    by (unfold X3; rewrite <- ?app_assoc; reflexivity).
  rewrite Hc at 1. rewrite Hc2 at 1.
  rewrite (drop_at (A3 ++ BEGIN_SOURCES ++ phase_head L))
    by (unfold q; rewrite !length_app; lia).
  rewrite H5. f_equal. rewrite Hc.
  replace (A3 ++ X3) with
    ((A3 ++ BEGIN_SOURCES ++ phase_head L ++ FILES_OPEN ++ members L)
       ++ FILES_CLOSE ++ phase_tail L ++ END_SOURCES ++ epilogue L)
    by (unfold X3; rewrite <- ?app_assoc; reflexivity).
  rewrite splice_at by (unfold q; rewrite !length_app; lia).
  unfold A3, A1, M2, M3, SM. reassoc.
Qed.

Lemma layout_insert_all : insert_all (manifest L) frs = Some (render L BF FR SM).
Proof.
  unfold insert_all. rewrite layout_build_files. cbn [mbind option_bind].
  rewrite layout_file_refs. cbn [mbind option_bind]. apply layout_sources.
Qed.

End Layout.

(** ** Every added file in all three sections *)

Lemma collected_entries rnd k files p :
  p ∈ files ->
  exists ref build,
    build_file_line build (Py.basename p) ref ∈ build_file_entries (collected rnd k files [])
    /\ file_ref_line ref (Py.basename p) (Py.basename p)
         ∈ file_ref_entries (collected rnd k files [])
    /\ source_line build (Py.basename p) ∈ source_entries (collected rnd k files []).
Proof.
  intros Hp. destruct (collected_get rnd k files [] p Hp) as [i Hi].
  apply dict_get_elem in Hi.
  pose proof (collected_names rnd k files [] ltac:(constructor)) as Hn.
  rewrite Forall_forall in Hn. specialize (Hn _ Hi). cbn [fst snd] in Hn.
  exists (ref_uuid i), (build_uuid i). rewrite <- Hn. split_and!.
  - apply list_elem_of_fmap. by exists (p, i).
  - apply list_elem_of_fmap. by exists (p, i).
  - apply list_elem_of_fmap. by exists (p, i).
Qed.

(** ** Missing and misplaced markers *)

Lemma contains_false m s : Py.contains m s = false <-> Py.index_of m s = None.
Proof. unfold Py.contains. by destruct (Py.index_of m s). Qed.

Lemma begin_ref_none_build_files frs a b :
  plain frs -> Py.index_of BEGIN_REF (a ++ b) = None ->
  Py.index_of BEGIN_REF (a ++ concat (build_file_entries frs) ++ b) = None.
Proof.
  intros Hp. apply (reserved_none_build_files frs (lit "Begin PBXFileReference section"));
    [done|apply reserved_members].
Qed.

Lemma end_ref_none_build_files frs a b :
  plain frs -> Py.index_of END_REF (a ++ b) = None ->
  Py.index_of END_REF (a ++ concat (build_file_entries frs) ++ b) = None.
Proof.
  intros Hp. apply (reserved_none_build_files frs (lit "End PBXFileReference section"));
    [done|apply reserved_members].
Qed.

Lemma begin_sources_none frs a b a' b' :
  plain frs -> Py.index_of BEGIN_SOURCES (a ++ b) = None ->
  a ++ concat (build_file_entries frs) ++ b = a' ++ b' ->
  Py.index_of BEGIN_SOURCES (a' ++ concat (file_ref_entries frs) ++ b') = None.
Proof.
  intros Hp Hn Heq.
  apply (reserved_none_file_refs frs (lit "Begin PBXSourcesBuildPhase section"));
    [done|apply reserved_members|]. rewrite <- Heq.
  apply (reserved_none_build_files frs (lit "Begin PBXSourcesBuildPhase section"));
    [done|apply reserved_members|done].
Qed.

Lemma end_sources_none frs a b a' b' :
  plain frs -> Py.index_of END_SOURCES (a ++ b) = None ->
  a ++ concat (build_file_entries frs) ++ b = a' ++ b' ->
  Py.index_of END_SOURCES (a' ++ concat (file_ref_entries frs) ++ b') = None.
Proof.
  intros Hp Hn Heq.
  apply (reserved_none_file_refs frs (lit "End PBXSourcesBuildPhase section"));
    [done|apply reserved_members|]. rewrite <- Heq.
  apply (reserved_none_build_files frs (lit "End PBXSourcesBuildPhase section"));
    [done|apply reserved_members|done].
Qed.

Lemma insert_all_missing content frs m :
  plain frs -> m ∈ MARKERS -> Py.index_of m content = None ->
  insert_all content frs = None.
Proof.
  intros Hp Hm Hn. unfold insert_all.
  destruct (insert_build_files content frs) as [c1|] eqn:E1; [|done].
  cbn [mbind option_bind].
  rewrite insert_build_files_eq in E1.
  destruct (Py.index_of BEGIN_BUILD content) as [b1|] eqn:Eb1; [|done].
  destruct (Py.index_of END_BUILD content) as [e1|] eqn:Ee1; [|done].
  injection E1 as <-.
  destruct (insert_file_refs _ frs) as [c2|] eqn:E2; [|done].
  cbn [mbind option_bind].
  rewrite insert_file_refs_eq in E2.
  destruct (Py.index_of BEGIN_REF _) as [b2|] eqn:Eb2; [|done].
  destruct (Py.index_of END_REF _) as [e2|] eqn:Ee2; [|done].
  injection E2 as <-.
  rewrite insert_sources_eq.
  set (c1 := take e1 content ++ concat (build_file_entries frs) ++ drop e1 content) in *.
  assert (Py.index_of m (take e1 content ++ drop e1 content) = None) as Hn'
    by (by rewrite take_drop).
  assert (take e1 content ++ concat (build_file_entries frs) ++ drop e1 content
          = take e2 c1 ++ drop e2 c1) as Heq by (by rewrite take_drop).
  unfold MARKERS in Hm.
  apply elem_of_cons in Hm as [->|Hm]; [congruence|].
  apply elem_of_cons in Hm as [->|Hm]; [congruence|].
  apply elem_of_cons in Hm as [->|Hm].
  { apply (begin_ref_none_build_files frs) in Hn'; [|done]. fold c1 in Hn'. congruence. }
  apply elem_of_cons in Hm as [->|Hm].
  { apply (end_ref_none_build_files frs) in Hn'; [|done]. fold c1 in Hn'. congruence. }
  apply elem_of_cons in Hm as [->|Hm].
  { by rewrite (begin_sources_none frs _ _ _ _ Hp Hn' Heq). }
  apply elem_of_cons in Hm as [->|Hm].
  { rewrite (end_sources_none frs _ _ _ _ Hp Hn' Heq).
    by destruct (Py.index_of BEGIN_SOURCES _). }
  by apply elem_of_nil in Hm.
Qed.

(** C5, as the code has it: when one of the six section markers occurs
    nowhere in the manifest, the inserter returns [False] before it opens
    the file for writing, so the manifest keeps its bytes and nothing is
    written.  (The relative order of a begin marker and its end marker is
    not looked at.) *)
Theorem a_missing_marker_stops_the_run
    (path : string) (files : list str) (w : world) (content m : str) :
  fs w !! path = Some content ->
  m ∈ MARKERS ->
  Py.contains m content = false ->
  Forall (fun p => Py.basename p ∉ reserved) files ->
  exists w',
    add_files_to_pbxproj path files w = (Returned false, w')
    /\ fs w' = fs w
    /\ writes w' = writes w.
Proof.
  intros Hfs Hm Hc Hfiles. apply contains_false in Hc.
  eexists. rewrite add_files_run, Hfs. cbn zeta.
  rewrite (insert_all_missing content _ m); [done|by apply collected_plain|done..].
Qed.

Lemma a_missing_marker_stops_the_run_witness :
  exists w',
    add_files_to_pbxproj pbxproj_path files_to_add
      (sample_world {[ pbxproj_path := lit "// !$*UTF8*$!" ]} counting_source)
      = (Returned false, w')
    /\ fs w' = fs (sample_world {[ pbxproj_path := lit "// !$*UTF8*$!" ]} counting_source)
    /\ writes w' = writes (sample_world {[ pbxproj_path := lit "// !$*UTF8*$!" ]} counting_source).
Proof.
  apply (a_missing_marker_stops_the_run pbxproj_path files_to_add _
           (lit "// !$*UTF8*$!") BEGIN_REF).
  - reflexivity.
  - unfold MARKERS. right. right. left.
  - reflexivity.
  - repeat constructor; apply (bool_decide_unpack _); vm_compute; reflexivity.
Defined.

(** C5 as stated fails: in [swapped_manifest] the begin marker of the
    PBXBuildFile section has no end marker after it, and yet the run
    succeeds and rewrites the manifest. *)
Lemma a_misplaced_end_marker_is_accepted :
  exists b w' out,
    Py.index_of BEGIN_BUILD swapped_manifest = Some b
    /\ Py.index_of END_BUILD (drop b swapped_manifest) = None
    /\ add_files_to_pbxproj pbxproj_path files_to_add
         (sample_world {[ pbxproj_path := swapped_manifest ]} counting_source)
       = (Returned true, w')
    /\ fs w' !! pbxproj_path = Some out
    /\ out <> swapped_manifest.
Proof.
  eexists _, _, _. split_and!.
  - vm_compute. reflexivity.
  - vm_compute. reflexivity.
  - vm_compute. reflexivity.
  - vm_compute. reflexivity.
  - intros Heq. apply (f_equal length) in Heq. vm_compute in Heq. discriminate.
Qed.

(** ** Which files count as tracked *)

Section Resolver.
Context `{XcodeProject}.

Lemma elem_of_scan_paths (objs : list pbx_object) (acc : gset str) (x : str) :
  x ∈ foldl
        (fun existing_files obj =>
           match obj_path obj with
           | Some (c :: path) => existing_files ∪ {[ c :: path ]}
           | _ => existing_files
           end) acc objs
  <-> x ∈ acc \/ (x <> [] /\ exists o, o ∈ objs /\ obj_path o = Some x).
Proof.
  revert acc. induction objs as [|o objs IH]; intros acc; cbn [foldl].
  - split; [by left|]. intros [?|(_ & o & Ho & _)]; [done|]. by apply elem_of_nil in Ho.
  - rewrite IH. split.
    + intros [Hx|(Hne & o' & Ho' & Hp)].
      * destruct (obj_path o) as [[|c path]|] eqn:E; [by left| |by left].
        apply elem_of_union in Hx as [Hx|Hx]; [by left|].
        apply elem_of_singleton in Hx as ->. right. split; [done|].
        exists o. split; [by left|done].
      * right. split; [done|]. exists o'. split; [by right|done].
    + intros [Hx|(Hne & o' & Ho' & Hp)].
      * left. destruct (obj_path o) as [[|c path]|]; [done| |done].
        apply elem_of_union. by left.
      * apply elem_of_cons in Ho' as [->|Ho'].
        -- left. rewrite Hp. destruct x as [|c path]; [done|].
           apply elem_of_union. right. by apply elem_of_singleton.
        -- right. split; [done|]. by exists o'.
Qed.

Lemma elem_of_get_files_in_project (p : project) (x : str) :
  x ∈ AutoAdd.get_files_in_project p
  <-> x <> [] /\ exists o, o ∈ file_references p /\ obj_path o = Some x.
Proof.
  unfold AutoAdd.get_files_in_project. rewrite elem_of_scan_paths.
  split; [|by right]. intros [Hx|?]; [|done]. by apply not_elem_of_empty in Hx.
Qed.

(** C6, as the code has it: the library-backed resolver takes a file for
    tracked exactly when its base name or its whole relative path is the
    non-empty [path] of some file reference (the display name of a
    reference is not looked at), and the report-only scanner exactly when
    its base name is one of the paths it has read; both keep the files in
    the order in which the scan found them. *)
Theorem tracked_by_path_only (p : project) (referenced : gset str)
    (all_files : list str) (f : str) :
  (f ∈ AutoAdd.untracked all_files (AutoAdd.get_files_in_project p)
   <-> f ∈ all_files
       /\ ~ exists o x, o ∈ file_references p /\ obj_path o = Some x /\ x <> []
                        /\ (x = Py.basename f \/ x = f))
  /\ (f ∈ Update.new_files all_files referenced
      <-> f ∈ all_files /\ Py.basename f ∉ referenced)
  /\ AutoAdd.untracked all_files (AutoAdd.get_files_in_project p) `sublist_of` all_files
  /\ Update.new_files all_files referenced `sublist_of` all_files.
Proof.
  split_and!.
  - unfold AutoAdd.untracked. rewrite list_elem_of_filter. cbn zeta.
    rewrite !elem_of_get_files_in_project. split.
    + intros [[Hb Hf] Hin]. split; [done|].
      intros (o & x & Ho & Hp & Hne & [->| ->]).
      * apply Hb. split; [done|]. by exists o.
      * apply Hf. split; [done|]. by exists o.
    + intros [Hin Hno]. split; [|done]. split.
      * intros (Hne & o & Ho & Hp). apply Hno. exists o, (Py.basename f). by eauto.
      * intros (Hne & o & Ho & Hp). apply Hno. exists o, f. by eauto.
  - unfold Update.new_files. rewrite list_elem_of_filter. tauto.
  - apply sublist_filter.
  - apply sublist_filter.
Qed.

End Resolver.

(** C6 as stated fails: a file whose base name is the display name of a
    file reference, but not its path, is taken for untracked. *)
Lemma display_name_is_not_consulted :
  (exists o, o ∈ @file_references line_library shared_reference
             /\ obj_name o = Some (Py.basename (lit "documentAI/HomeView.swift")))
  /\ @AutoAdd.untracked [lit "documentAI/HomeView.swift"]
       (@AutoAdd.get_files_in_project line_library shared_reference)
     = [lit "documentAI/HomeView.swift"].
Proof.
  split.
  - eexists. split; [left|]. reflexivity.
  - vm_compute. reflexivity.
Qed.

(** ** The backup of the library-backed synchroniser *)

Lemma paths_differ : AutoAdd.project_path <> AutoAdd.backup_path.
Proof. discriminate. Qed.

Ltac nothing := left; split; reflexivity.

(** One step of a script: unfold the monad and the file operations. *)
Ltac run :=
  cbv beta iota zeta delta
    [mbind prog_bind mret prog_ret sys_exit raise try_except read_file write_file
     path_exists copy2 Walk.find_swift_files AutoAdd.load AutoAdd.add_files_to_project
     fst snd negb];
  cbn [fs writes dirs tree entropy drawn].

Section Backup.
Context `{XcodeProject}.

(** What [main] has written when it stops: nothing, the backup, the
    manifest, or the backup and then the manifest. *)
Lemma main_writes (w : world) :
  AutoAdd.backup_path ∉ dirs w ->
  let w' := (AutoAdd.main w).2 in
  (fs w' = fs w /\ writes w' = writes w)
  \/ (exists c0, fs w !! AutoAdd.backup_path = None
        /\ fs w !! AutoAdd.project_path = Some c0
        /\ fs w' = <[AutoAdd.backup_path := c0]> (fs w)
        /\ writes w' = writes w ++ [Wrote AutoAdd.backup_path c0])
  \/ (exists b text, fs w !! AutoAdd.backup_path = Some b
        /\ fs w' = <[AutoAdd.project_path := text]> (fs w)
        /\ writes w' = writes w ++ [Wrote AutoAdd.project_path text])
  \/ (exists c0 text, fs w !! AutoAdd.backup_path = None
        /\ fs w !! AutoAdd.project_path = Some c0
        /\ fs w' = <[AutoAdd.project_path := text]> (<[AutoAdd.backup_path := c0]> (fs w))
        /\ writes w' = writes w
             ++ [Wrote AutoAdd.backup_path c0; Wrote AutoAdd.project_path text]).
Proof.
  intros Hdir. unfold AutoAdd.main. run.
  destruct (bool_decide (is_Some (fs w !! AutoAdd.project_path))
            || bool_decide (AutoAdd.project_path ∈ dirs w)) eqn:Ep; run; [|nothing].
  rewrite (bool_decide_eq_false_2 (AutoAdd.backup_path ∈ dirs w)) by done.
  rewrite orb_false_r.
  destruct (fs w !! AutoAdd.backup_path) as [b|] eqn:Eb.
  - (* the backup is there: nothing is copied *)
    rewrite bool_decide_eq_true_2 by done. run.
    destruct (fs w !! AutoAdd.project_path) as [c0|] eqn:Ec; run; [|nothing].
    destruct (parse c0) as [p|] eqn:Epar; run; [|nothing].
    destruct (AutoAdd.untracked _ _) as [|f files] eqn:Eu; run; [nothing|].
    rewrite Ec. run. rewrite Epar. run.
    destruct (has_target p (lit "documentAI")); run; [|nothing].
    destruct (save_text _) as [text|]; run; [|nothing].
    right; right; left. exists b, text. by split_and!.
  - (* no backup yet: the manifest is copied first *)
    rewrite bool_decide_eq_false_2 by (by intros [? ?]). run.
    destruct (fs w !! AutoAdd.project_path) as [c0|] eqn:Ec; run; [|nothing].
    rewrite lookup_insert_ne by (apply not_eq_sym, paths_differ). rewrite Ec. run.
    destruct (parse c0) as [p|] eqn:Epar; run.
    2:{ right; left. exists c0. by split_and!. }
    destruct (AutoAdd.untracked _ _) as [|f files] eqn:Eu; run.
    { right; left. exists c0. by split_and!. }
    rewrite lookup_insert_ne by (apply not_eq_sym, paths_differ). rewrite Ec. run.
    rewrite Epar. run.
    destruct (has_target p (lit "documentAI")); run.
    2:{ right; left. exists c0. by split_and!. }
    destruct (save_text _) as [text|]; run.
    2:{ right; left. exists c0. by split_and!. }
    right; right; right. exists c0, text. split_and!; try done.
    by rewrite <- app_assoc.
Qed.

End Backup.

Ltac clash :=
  try match goal with
      | H : AutoAdd.project_path = AutoAdd.backup_path |- _ => destruct (paths_differ H)
      | H : AutoAdd.backup_path = AutoAdd.project_path |- _ =>
          destruct (paths_differ (eq_sym H))
      end.

Section BackupPolicy.
Context `{XcodeProject}.

(** C2, as the code has it: the library-backed synchroniser copies the
    manifest to the backup path before anything else, and only when nothing
    is there yet; whenever it writes the manifest a backup file exists, and
    a backup that was there before the run is left as it was. *)
Theorem manifest_is_written_after_the_backup (w : world) :
  AutoAdd.backup_path ∉ dirs w ->
  exists new,
    writes (AutoAdd.main w).2 = writes w ++ new
    /\ fs (AutoAdd.main w).2 = replay (fs w) new
    /\ (forall pre text post,
          new = pre ++ Wrote AutoAdd.project_path text :: post ->
          is_Some (replay (fs w) pre !! AutoAdd.backup_path))
    /\ (forall b, fs w !! AutoAdd.backup_path = Some b ->
          fs (AutoAdd.main w).2 !! AutoAdd.backup_path = Some b
          /\ forall c, Wrote AutoAdd.backup_path c ∉ new)
    /\ (forall c, Wrote AutoAdd.backup_path c ∈ new ->
          fs w !! AutoAdd.backup_path = None
          /\ fs w !! AutoAdd.project_path = Some c).
Proof.
  intros Hdir.
  destruct (main_writes w Hdir)
    as [[Hf Hw]|[(c0 & Hb & Hc & Hf & Hw)|[(b & text & Hb & Hf & Hw)
                |(c0 & text & Hb & Hc & Hf & Hw)]]].
  - exists []. rewrite app_nil_r. split_and!; try done.
    + intros pre text post Heq. by destruct pre.
    + intros b Hb. rewrite Hf. split; [done|]. intros c Hin. by apply elem_of_nil in Hin.
    + intros c Hin. by apply elem_of_nil in Hin.
  - exists [Wrote AutoAdd.backup_path c0]. split_and!; try done.
    + intros pre text post Heq. destruct pre as [|e [|e' pre]]; cbn [app] in Heq; simplify_eq; clash.
    + intros b Hb'. congruence.
    + intros c Hin. apply list_elem_of_singleton in Hin. by simplify_eq; clash.
  - exists [Wrote AutoAdd.project_path text]. split_and!; try done.
    + intros pre text' post Heq. destruct pre as [|e [|e' pre]]; cbn [app] in Heq; simplify_eq; clash.
      unfold replay. cbn [foldl]. by rewrite Hb.
    + intros b' Hb'. rewrite Hf. rewrite lookup_insert_ne by apply paths_differ.
      split; [done|]. intros c Hin. apply list_elem_of_singleton in Hin.
      simplify_eq; clash.
    + intros c Hin. apply list_elem_of_singleton in Hin. simplify_eq; clash.
  - exists [Wrote AutoAdd.backup_path c0; Wrote AutoAdd.project_path text].
    split_and!; try done.
    + intros pre text' post Heq. destruct pre as [|e [|e' [|e'' pre]]]; cbn [app] in Heq; simplify_eq; clash.
      unfold replay. cbn [foldl apply_effect]. by rewrite lookup_insert_eq.
    + intros b Hb'. congruence.
    + intros c Hin. apply elem_of_cons in Hin as [Hin|Hin]; [by simplify_eq; clash|].
      apply list_elem_of_singleton in Hin. simplify_eq; clash.
Qed.

Lemma filter_none {A} (P : A -> Prop) `{forall x, Decision (P x)} (l : list A) :
  Forall (fun x => ~ P x) l -> filter P l = [].
Proof.
  induction 1 as [|x l Hx Hl IH]; [done|].
  by rewrite filter_cons_False.
Qed.

(** C4, as the code has it: when the base name or the relative path of
    every file the scan finds is already the path of a file reference, the
    library-backed synchroniser adds nothing and leaves the manifest as it
    is: it is not written at all. *)
Theorem nothing_to_add_changes_nothing (w : world) (content : str) (p : project) :
  fs w !! AutoAdd.project_path = Some content ->
  parse content = Some p ->
  Forall (fun f => Py.basename f ∈ AutoAdd.get_files_in_project p
                   \/ f ∈ AutoAdd.get_files_in_project p)
         (Walk.find_swift_files_in (lit "documentAI") (tree w)) ->
  exists w' new,
    AutoAdd.main w = (Returned tt, w')
    /\ fs w' !! AutoAdd.project_path = Some content
    /\ writes w' = writes w ++ new
    /\ (forall text, Wrote AutoAdd.project_path text ∉ new)
    /\ drawn w' = drawn w.
Proof.
  intros Hc Hpar Hall.
  assert (AutoAdd.untracked (Walk.find_swift_files_in (lit "documentAI") (tree w))
            (AutoAdd.get_files_in_project p) = []) as Hnone.
  { apply filter_none. eapply Forall_impl; [exact Hall|]. cbn beta zeta. tauto. }
  unfold AutoAdd.main. run. rewrite Hc.
  rewrite (bool_decide_eq_true_2 (is_Some (Some content))) by done. cbn [orb]. run.
  destruct (bool_decide (is_Some (fs w !! AutoAdd.backup_path))
            || bool_decide (AutoAdd.backup_path ∈ dirs w)) eqn:Eb; run.
  - do 4 (rewrite ?Hc, ?Hpar, ?Hnone; run).
    exists w, []. rewrite app_nil_r. split_and!; try done.
    intros text Hin. by apply elem_of_nil in Hin.
  - do 4 (rewrite ?lookup_insert_ne by (apply not_eq_sym, paths_differ);
          rewrite ?Hc, ?Hpar, ?Hnone; run).
    eexists _, [Wrote AutoAdd.backup_path content]. split_and!; try done.
    + cbn [fs]. by rewrite lookup_insert_ne by (apply not_eq_sym, paths_differ).
    + intros text Hin. apply list_elem_of_singleton in Hin. simplify_eq; clash.
Qed.

End BackupPolicy.

Lemma manifest_is_written_after_the_backup_witness :
  exists new,
    writes (@AutoAdd.main line_library (auto_world (lit "A.swift") two_files_tree)).2
      = writes (auto_world (lit "A.swift") two_files_tree) ++ new
    /\ fs (@AutoAdd.main line_library (auto_world (lit "A.swift") two_files_tree)).2
       = replay (fs (auto_world (lit "A.swift") two_files_tree)) new
    /\ (forall pre text post,
          new = pre ++ Wrote AutoAdd.project_path text :: post ->
          is_Some (replay (fs (auto_world (lit "A.swift") two_files_tree)) pre
                     !! AutoAdd.backup_path))
    /\ (forall b, fs (auto_world (lit "A.swift") two_files_tree) !! AutoAdd.backup_path = Some b ->
          fs (@AutoAdd.main line_library (auto_world (lit "A.swift") two_files_tree)).2
             !! AutoAdd.backup_path = Some b
          /\ forall c, Wrote AutoAdd.backup_path c ∉ new)
    /\ (forall c, Wrote AutoAdd.backup_path c ∈ new ->
          fs (auto_world (lit "A.swift") two_files_tree) !! AutoAdd.backup_path = None
          /\ fs (auto_world (lit "A.swift") two_files_tree) !! AutoAdd.project_path = Some c).
Proof.
  apply (@manifest_is_written_after_the_backup line_library
           (auto_world (lit "A.swift") two_files_tree)).
  apply not_elem_of_empty.
Defined.

Example the_synchroniser_backs_up_then_saves :
  writes (@AutoAdd.main line_library (auto_world (lit "A.swift") two_files_tree)).2
  = [ Wrote AutoAdd.backup_path (lit "A.swift");
      Wrote AutoAdd.project_path
        (lit "A.swift" ++ [NL] ++ lit "documentAI/Sub/B.swift" ++ [NL]) ].
Proof. vm_compute. reflexivity. Qed.

Lemma nothing_to_add_changes_nothing_witness :
  exists w' new,
    @AutoAdd.main line_library
      (auto_world (lit "A.swift" ++ [NL] ++ lit "documentAI/Sub/B.swift") two_files_tree)
      = (Returned tt, w')
    /\ fs w' !! AutoAdd.project_path
       = Some (lit "A.swift" ++ [NL] ++ lit "documentAI/Sub/B.swift")
    /\ writes w' = writes (auto_world (lit "A.swift" ++ [NL] ++ lit "documentAI/Sub/B.swift")
                             two_files_tree) ++ new
    /\ (forall text, Wrote AutoAdd.project_path text ∉ new)
    /\ drawn w' = drawn (auto_world (lit "A.swift" ++ [NL] ++ lit "documentAI/Sub/B.swift")
                           two_files_tree).
Proof.
  apply (@nothing_to_add_changes_nothing line_library
           (auto_world (lit "A.swift" ++ [NL] ++ lit "documentAI/Sub/B.swift") two_files_tree)
           (lit "A.swift" ++ [NL] ++ lit "documentAI/Sub/B.swift")
           [ {| obj_path := Some (lit "A.swift"); obj_name := None |};
             {| obj_path := Some (lit "documentAI/Sub/B.swift"); obj_name := None |} ]).
  - reflexivity.
  - reflexivity.
  - apply (bool_decide_unpack _). vm_compute. reflexivity.
Defined.

(** C2 as stated fails: the text-splice inserter overwrites the manifest
    and no backup exists, before the write or after it. *)
Lemma the_inserter_writes_without_a_backup :
  exists out w',
    AddFiles.main (sample_world sample_files counting_source) = (Returned tt, w')
    /\ writes w' = [Wrote AddFiles.pbxproj_path out]
    /\ out <> sample_manifest
    /\ fs (sample_world sample_files counting_source)
         !! (AddFiles.pbxproj_path +:+ ".backup") = None
    /\ fs w' !! (AddFiles.pbxproj_path +:+ ".backup") = None.
Proof.
  eexists _, _. split_and!.
  - vm_compute. reflexivity.
  - vm_compute. reflexivity.
  - intros Heq. apply (f_equal length) in Heq. vm_compute in Heq. discriminate.
  - vm_compute. reflexivity.
  - vm_compute. reflexivity.
Qed.

(** C4 as stated fails: the text-splice inserter has no resolver; run a
    second time with nothing changed in between, it draws four more tokens
    and inserts its two files again. *)
Lemma the_inserter_is_not_idempotent :
  exists w1 w2 out1 out2,
    AddFiles.main (sample_world sample_files counting_source) = (Returned tt, w1)
    /\ AddFiles.main w1 = (Returned tt, w2)
    /\ fs w1 !! AddFiles.pbxproj_path = Some out1
    /\ fs w2 !! AddFiles.pbxproj_path = Some out2
    /\ out2 <> out1
    /\ drawn w1 = 4 /\ drawn w2 = 8.
Proof.
  eexists _, _, _, _. split_and!.
  - vm_compute. reflexivity.
  - vm_compute. reflexivity.
  - vm_compute. reflexivity.
  - vm_compute. reflexivity.
  - intros Heq. apply (f_equal length) in Heq. vm_compute in Heq. discriminate.
  - reflexivity.
  - reflexivity.
Qed.

(** ** The report-only scanner *)

(** C10: whatever the project file and the file system hold, a run of the
    report-only scanner leaves the world as it found it: no file is
    written, so the bytes of the manifest are the same after the run. *)
Theorem the_scanner_changes_nothing (project_root : string) (w : world) :
  (Update.main project_root w).2 = w
  /\ fs (Update.main project_root w).2 = fs w
  /\ writes (Update.main project_root w).2 = writes w.
Proof.
  assert ((Update.main project_root w).2 = w) as Heq.
  { unfold Update.main, Update.get_project_files_from_pbxproj. run.
    destruct (bool_decide _ || bool_decide _); run; [|done].
    by destruct (fs w !! _). }
  by rewrite Heq.
Qed.

(** ** The path rewriter *)

Lemma replace_from_skip old new a s k :
  k = length a -> Py.replace_from old new (a ++ s) k = Py.replace_from old new s 0.
Proof. intros ->. induction a as [|c a IH]; [by destruct s|]. exact IH. Qed.

Lemma index_of_cons_None m c s :
  Py.index_of m (c :: s) = None -> Py.startswith m (c :: s) = false /\ Py.index_of m s = None.
Proof.
  cbn [Py.index_of]. destruct (Py.startswith m (c :: s)); [done|].
  by destruct (Py.index_of m s).
Qed.

Lemma replace_from_none old new s :
  Py.index_of old s = None -> Py.replace_from old new s 0 = s.
Proof.
  induction s as [|c s IH]; [done|]. intros Hn.
  apply index_of_cons_None in Hn as [Hs Hn].
  cbn [Py.replace_from]. rewrite Hs. f_equal. by apply IH.
Qed.

Lemma replace_from_first old new s i :
  old <> [] -> Py.index_of old s = Some i ->
  Py.replace_from old new s 0
    = take i s ++ new ++ Py.replace_from old new (drop (i + length old) s) 0.
Proof.
  intros Hne. revert i. induction s as [|c s IH]; intros i Hi.
  - apply index_of_Some in Hi as [Ho _]. apply occ_bound in Ho; [|done].
    destruct old; [done|]. cbn [length] in Ho. lia.
  - cbn [Py.index_of] in Hi. cbn [Py.replace_from].
    destruct (Py.startswith old (c :: s)) eqn:Es.
    + injection Hi as <-. cbn [take app]. f_equal.
      apply startswith_take in Es.
      assert (length old <= length (c :: s)) as Hl.
      { rewrite <- Es. rewrite length_take. lia. }
      destruct old as [|o old]; [done|]. cbn [length] in *.
      replace (S (length old) - 1) with (length old) by lia.
      cbn [Nat.add drop].
      rewrite <- (take_drop (length old) s) at 1.
      apply replace_from_skip. rewrite length_take. lia.
    + destruct (Py.index_of old s) as [i'|] eqn:Ei; [|done].
      injection Hi as <-. cbn [take app Nat.add drop]. f_equal. by apply IH.
Qed.

Lemma path_field_nonempty p : Fix.path_field p <> [].
Proof. done. Qed.

Lemma replace_path_field content old new :
  Py.replace content (Fix.path_field old) (Fix.path_field new)
  = Py.replace_from (Fix.path_field old) (Fix.path_field new) content 0.
Proof. reflexivity. Qed.

Lemma rewrite_all_nomatch mappings content n :
  Forall (fun m => Py.contains (Fix.path_field m.1) content = false) mappings ->
  foldl Fix.rewrite_one (content, n) mappings = (content, n).
Proof.
  induction 1 as [|m mappings Hm _ IH]; [done|].
  cbn [foldl]. unfold Fix.rewrite_one at 2. by rewrite Hm.
Qed.

(** C7 as stated fails: when no record has any of the old paths, the
    rewriter reports no error; it returns normally and leaves the world as
    it was. *)
Lemma an_unmatched_path_is_not_an_error :
  Forall (fun m => Py.contains (Fix.path_field m.1) sample_manifest = false)
         Fix.FILE_MAPPINGS
  /\ Fix.fix_pbxproj "." (rooted_world "." sample_manifest)
     = (Returned tt, rooted_world "." sample_manifest).
Proof.
  split.
  - repeat constructor.
  - vm_compute. reflexivity.
Qed.

(** Every occurrence is rewritten, not only the first. *)
Example both_occurrences_are_rewritten :
  Py.replace (Fix.path_field (lit "A") ++ lit " " ++ Fix.path_field (lit "A"))
             (Fix.path_field (lit "A")) (Fix.path_field (lit "B/A"))
  = Fix.path_field (lit "B/A") ++ lit " " ++ Fix.path_field (lit "B/A").
Proof. reflexivity. Qed.

Example readlines_ex :
  Reorganize.readlines (lit "a" ++ [NL; NL] ++ lit "bc")
  = [lit "a" ++ [NL]; [NL]; lit "bc"].
Proof. reflexivity. Qed.

Example updates_ex :
  Reorganize.updates !! 15
  = Some (lit "B1000012 /* Theme.swift */",
          lit "B1000012 /* Theme.swift */ = {isa = PBXFileReference; lastKnownFileType = sourcecode.swift; path = UI/Theme/Theme.swift; sourceTree = "
            ++ [DQUOTE] ++ lit "<group>" ++ [DQUOTE] ++ lit "; };").
Proof. reflexivity. Qed.

Example new_line_ex :
  Reorganize.new_line
    ([TAB; TAB] ++ lit "B1000012 /* Theme.swift */ = {isa = PBXFileReference; path = Theme.swift; };" ++ [NL])
  = lit "  B1000012 /* Theme.swift */ = {isa = PBXFileReference; lastKnownFileType = sourcecode.swift; path = UI/Theme/Theme.swift; sourceTree = "
      ++ [DQUOTE] ++ lit "<group>" ++ [DQUOTE] ++ lit "; };" ++ [NL].
Proof. vm_compute. reflexivity. Qed.

(** ** The line rewriter *)

Lemma readlines_from_concat s cur :
  concat (Reorganize.readlines_from s cur) = cur ++ s.
Proof.
  revert cur. induction s as [|c s IH]; intros cur; cbn [Reorganize.readlines_from].
  - destruct cur; [done|]. cbn [concat]. by rewrite app_nil_r.
  - destruct (Ascii.eqb c NL).
    + cbn [concat]. rewrite IH. by rewrite <- app_assoc.
    + rewrite IH. by rewrite <- app_assoc.
Qed.

Lemma readlines_concat s : concat (Reorganize.readlines s) = s.
Proof. apply readlines_from_concat. Qed.

Lemma readlines_from_body body rest cur :
  NL ∉ body ->
  Reorganize.readlines_from (body ++ rest) cur = Reorganize.readlines_from rest (cur ++ body).
Proof.
  revert cur. induction body as [|c body IH]; intros cur Hb.
  - by rewrite app_nil_r.
  - apply not_elem_of_cons in Hb as [Hc Hb]. cbn [app Reorganize.readlines_from].
    destruct (Ascii.eqb c NL) eqn:E; [apply Ascii.eqb_eq in E; congruence|].
    rewrite IH by done. by rewrite <- app_assoc.
Qed.

Lemma eqb_NL : Ascii.eqb NL NL = true.
Proof. reflexivity. Qed.

Lemma readlines_of_lined ls : lined ls -> Reorganize.readlines (concat ls) = ls.
Proof.
  unfold Reorganize.readlines. induction 1 as [|l Hne Hl|body ls Hb Hls IH].
  - done.
  - cbn [concat]. rewrite readlines_from_body by done. cbn [app Reorganize.readlines_from].
    by destruct l.
  - cbn [concat]. rewrite <- app_assoc. rewrite readlines_from_body by done.
    cbn [app Reorganize.readlines_from]. rewrite eqb_NL. by rewrite IH.
Qed.

Lemma readlines_from_lined s cur :
  NL ∉ cur -> lined (Reorganize.readlines_from s cur).
Proof.
  revert cur. induction s as [|c s IH]; intros cur Hcur; cbn [Reorganize.readlines_from].
  - destruct cur as [|a cur]; [constructor|]. by constructor.
  - destruct (Ascii.eqb c NL) eqn:E.
    + apply Ascii.eqb_eq in E. subst c. constructor; [done|]. apply IH, not_elem_of_nil.
    + apply Ascii.eqb_neq in E. apply IH. rewrite elem_of_app, list_elem_of_singleton.
      intros [?|?]; [done|congruence].
Qed.

Lemma readlines_lined s : lined (Reorganize.readlines s).
Proof. apply readlines_from_lined, not_elem_of_nil. Qed.

Lemma rewrite_line_shape ups line l' :
  Reorganize.rewrite_line ups line = Some l' ->
  exists k r, (k, r) ∈ ups
    /\ Py.contains k line = true
    /\ Py.contains (lit "PBXFileReference") line = true
    /\ l' = repeat " "%char (length line - length (Reorganize.lstrip line)) ++ r ++ [NL].
Proof.
  induction ups as [|[k r] ups IH]; [done|]. cbn [Reorganize.rewrite_line].
  destruct (Py.contains k line && Py.contains (lit "PBXFileReference") line) eqn:E.
  - intros [= <-]. apply andb_true_iff in E as [E1 E2]. exists k, r.
    split_and!; [by left|done..].
  - intros Hl. destruct (IH Hl) as (k' & r' & Hin & ?). exists k', r'. by split; [right|].
Qed.

Lemma rewrite_line_none ups line :
  Reorganize.rewrite_line ups line = None <->
  Py.contains (lit "PBXFileReference") line = false
  \/ Forall (fun kr => Py.contains kr.1 line = false) ups.
Proof.
  induction ups as [|[k r] ups IH]; cbn [Reorganize.rewrite_line].
  - split; [right; constructor|done].
  - destruct (Py.contains (lit "PBXFileReference") line) eqn:Ep.
    + rewrite andb_true_r. destruct (Py.contains k line) eqn:Ek.
      * split; [done|]. intros [?|Hall]; [done|]. inversion Hall; subst.
        cbn [fst] in *. congruence.
      * rewrite IH. split.
        -- intros [?|Hall]; [done|]. right. by constructor.
        -- intros [?|Hall]; [done|]. right. by inversion Hall.
    + rewrite andb_false_r. rewrite IH. split; by left.
Qed.

Lemma contains_true m s :
  Py.contains m s = true <-> exists i, occ m s i /\ i <= length s.
Proof.
  unfold Py.contains. split.
  - destruct (Py.index_of m s) as [i|] eqn:E; [|done]. intros _. exists i.
    split; [by apply index_of_Some in E as [? _]|by apply index_of_le in E].
  - intros (i & Ho & Hi). by destruct (index_of_is_Some m s i Ho Hi) as [j ->].
Qed.

Lemma contains_padded k n r :
  searchable k ->
  Py.contains k (repeat " "%char n ++ r ++ [NL]) = Py.contains k r.
Proof.
  intros [(c & k' & -> & Hc) Hnl].
  set (sp := repeat " "%char n).
  assert (length sp = n) as Hsp by apply repeat_length.
  apply eq_true_iff_eq. rewrite !contains_true. split.
  - intros (i & Ho & Hi).
    destruct (decide (i < n)) as [Hlt|Hge].
    { exfalso. apply Hc.
      pose proof (proj1 (occ_lookup _ _ _) Ho 0 ltac:(cbn; lia)) as H0.
      rewrite Nat.add_0_r, lookup_app_l in H0 by lia. cbn in H0.
      unfold sp in H0. apply list_elem_of_lookup_2 in H0.
      by apply list_elem_of_In, repeat_spec in H0. }
    apply (proj1 (occ_app_r _ sp _ i ltac:(lia))) in Ho. rewrite Hsp in Ho.
    destruct (decide (i - n + length (c :: k') <= length r)) as [Hin|Hout].
    + exists (i - n). split; [|cbn [length] in Hin; lia].
      by apply (occ_app_l _ r [NL]).
    + exfalso. apply Hnl.
      pose proof (occ_bound _ _ _ Ho ltac:(done)) as Hb.
      rewrite length_app in Hb. cbn [length] in Hb, Hout.
      apply (occ_covers _ _ _ (length r) NL Ho); [cbn [length]; lia|].
      rewrite lookup_app_r by lia. by rewrite Nat.sub_diag.
  - intros (j & Ho & Hj).
    pose proof (occ_bound _ _ _ Ho ltac:(done)) as Hb.
    exists (n + j). split; [|rewrite !length_app; lia].
    apply occ_app_r; [lia|]. rewrite Hsp.
    replace (n + j - n) with j by lia. by apply occ_app_l.
Qed.

Lemma lstrip_padded n c r :
  Reorganize.is_space c = false ->
  Reorganize.lstrip (repeat " "%char n ++ c :: r) = c :: r.
Proof.
  intros Hc. induction n as [|n IH]; cbn [repeat app Reorganize.lstrip].
  - by rewrite Hc.
  - exact IH.
Qed.

Lemma rewrite_line_padded ups n c r :
  Forall (fun kr => searchable kr.1) ups ->
  Reorganize.is_space c = false ->
  Reorganize.rewrite_line ups (repeat " "%char n ++ (c :: r) ++ [NL])
  = (fun rep => repeat " "%char n ++ rep ++ [NL]) <$> pick ups (c :: r).
Proof.
  intros Hups Hc. induction Hups as [|[k rep] ups Hk _ IH]; [done|].
  cbn [Reorganize.rewrite_line pick]. cbn [fst] in Hk.
  rewrite contains_padded by done.
  rewrite (contains_padded (lit "PBXFileReference")).
  2:{ split; [by eexists _, _|]. apply (bool_decide_unpack _). reflexivity. }
  destruct (Py.contains k (c :: r) && Py.contains (lit "PBXFileReference") (c :: r)); [|done].
  cbn [fmap option_fmap option_map]. do 2 f_equal.
  change ((c :: r) ++ [NL]) with (c :: (r ++ [NL])).
  rewrite lstrip_padded by done. rewrite length_app, repeat_length.
  f_equal. lia.
Qed.

Lemma updates_searchable : Forall (fun kr => searchable kr.1) Reorganize.updates.
Proof.
  unfold Reorganize.updates.
  repeat (apply Forall_cons; split;
          [split; [by eexists _, _|apply (bool_decide_unpack _); reflexivity]|]).
  constructor.
Qed.

(** In the table every replacement is again rewritten into itself: it
    starts with its own key, mentions [PBXFileReference], and holds none of
    the keys that come before its own. *)
Lemma updates_stable :
  Forall (fun kr => pick Reorganize.updates kr.2 = Some kr.2
                    /\ (NL ∉ kr.2)
                    /\ exists c r, kr.2 = c :: r /\ Reorganize.is_space c = false)
         Reorganize.updates.
Proof.
  unfold Reorganize.updates at 2.
  repeat (apply Forall_cons; split;
          [split_and!; [vm_compute; reflexivity
                       |apply (bool_decide_unpack _); vm_compute; reflexivity
                       |by eexists _, _]|]).
  constructor.
Qed.

Lemma new_line_fixed line l' :
  Reorganize.rewrite_line Reorganize.updates line = Some l' ->
  Reorganize.rewrite_line Reorganize.updates l' = Some l'.
Proof.
  intros Hl. apply rewrite_line_shape in Hl as (k & r & Hin & _ & _ & ->).
  pose proof updates_stable as Hst. rewrite Forall_forall in Hst.
  destruct (Hst _ Hin) as (Hp & _ & c & r' & Hr & Hc). cbn [snd] in *. subst r.
  rewrite rewrite_line_padded; [|apply updates_searchable|done].
  by rewrite Hp.
Qed.

Lemma new_line_idempotent line :
  Reorganize.new_line (Reorganize.new_line line) = Reorganize.new_line line.
Proof.
  unfold Reorganize.new_line at 2 3.
  destruct (Reorganize.rewrite_line Reorganize.updates line) as [l'|] eqn:E.
  - unfold Reorganize.new_line. by rewrite (new_line_fixed _ _ E).
  - unfold Reorganize.new_line. by rewrite E.
Qed.

Lemma new_line_lined ls : lined ls -> lined (map Reorganize.new_line ls).
Proof.
  assert (forall l l', Reorganize.rewrite_line Reorganize.updates l = Some l' ->
            exists body, (NL ∉ body) /\ l' = body ++ [NL]) as Hshape.
  { intros l l' Hl. apply rewrite_line_shape in Hl as (k & r & Hin & _ & _ & ->).
    pose proof updates_stable as Hst. rewrite Forall_forall in Hst.
    destruct (Hst _ Hin) as (_ & Hnl & _). cbn [snd] in Hnl.
    eexists (_ ++ r). split; [|by rewrite <- app_assoc].
    rewrite elem_of_app. intros [Hsp|?]; [|done].
    apply list_elem_of_In, repeat_spec in Hsp. discriminate Hsp. }
  induction 1 as [|l Hne Hl|body ls Hb Hls IH]; cbn [map].
  - constructor.
  - unfold Reorganize.new_line.
    destruct (Reorganize.rewrite_line Reorganize.updates l) as [l'|] eqn:E.
    + destruct (Hshape _ _ E) as (body & Hb & ->). constructor; [done|constructor].
    + by constructor.
  - unfold Reorganize.new_line at 1.
    destruct (Reorganize.rewrite_line Reorganize.updates (body ++ [NL])) as [l'|] eqn:E.
    + destruct (Hshape _ _ E) as (body' & Hb' & ->). by constructor.
    + by constructor.
Qed.

Lemma readlines_reorganized content :
  Reorganize.readlines (reorganized content)
  = map Reorganize.new_line (Reorganize.readlines content).
Proof. apply readlines_of_lined, new_line_lined, readlines_lined. Qed.

Lemma reorganized_idempotent content :
  reorganized (reorganized content) = reorganized content.
Proof.
  unfold reorganized at 1. rewrite readlines_reorganized.
  unfold reorganized. f_equal. rewrite <- list_fmap_compose.
  apply list_fmap_ext. intros _ l _. apply new_line_idempotent.
Qed.

(** ** The run of the line rewriter *)

Lemma append_inj_r (a b c : string) : a +:+ b = a +:+ c -> b = c.
Proof. induction a as [|x a IH]; cbn [String.append]; [done|]. intros [= ?]. by apply IH. Qed.

Lemma manifest_paths_differ root : manifest_path root <> manifest_backup_path root.
Proof. intros Heq. apply append_inj_r in Heq. discriminate Heq. Qed.

Lemma reorganize_run root w content :
  fs w !! manifest_path root = Some content ->
  Reorganize.reorganize_pbxproj root w
  = (Returned tt,
     written (written w (manifest_backup_path root) content)
             (manifest_path root) (reorganized content)).
Proof.
  intros Hc. unfold Reorganize.reorganize_pbxproj. run.
  fold (manifest_path root). fold (manifest_backup_path root). rewrite Hc.
  rewrite (bool_decide_eq_true_2 (is_Some (Some content))) by done. cbn [orb]. run.
  rewrite Hc. run. by rewrite readlines_concat.
Qed.

(** The line rewriter saves the text it read at the backup path, whatever
    stood there before, and then writes the rewritten text as the manifest;
    both writes are made even when no line changes. *)
Theorem the_line_rewriter_backs_up_then_rewrites
    (project_root : string) (w : world) (content : str) :
  fs w !! manifest_path project_root = Some content ->
  exists w',
    Reorganize.reorganize_pbxproj project_root w = (Returned tt, w')
    /\ writes w' = writes w ++ [Wrote (manifest_backup_path project_root) content;
                                Wrote (manifest_path project_root) (reorganized content)]
    /\ fs w' = <[manifest_path project_root := reorganized content]>
                 (<[manifest_backup_path project_root := content]> (fs w))
    /\ fs w' !! manifest_backup_path project_root = Some content
    /\ drawn w' = drawn w.
Proof.
  intros Hc. eexists. split; [by apply reorganize_run|].
  cbn [written writes fs drawn]. split_and!; try done.
  - by rewrite <- app_assoc.
  - rewrite lookup_insert_ne by apply manifest_paths_differ.
    by rewrite lookup_insert_eq.
Qed.

Lemma the_line_rewriter_backs_up_then_rewrites_witness :
  exists w',
    Reorganize.reorganize_pbxproj "." (rooted_world "." theme_line) = (Returned tt, w')
    /\ writes w' = writes (rooted_world "." theme_line)
         ++ [Wrote (manifest_backup_path ".") theme_line;
             Wrote (manifest_path ".") (reorganized theme_line)]
    /\ fs w' = <[manifest_path "." := reorganized theme_line]>
                 (<[manifest_backup_path "." := theme_line]> (fs (rooted_world "." theme_line)))
    /\ fs w' !! manifest_backup_path "." = Some theme_line
    /\ drawn w' = drawn (rooted_world "." theme_line).
Proof.
  apply (the_line_rewriter_backs_up_then_rewrites "." (rooted_world "." theme_line) theme_line).
  reflexivity.
Defined.

(** A second run of the line rewriter finds nothing left to rewrite: the
    manifest keeps the text the first run wrote.  The backup, however, is
    overwritten with that text, so the text the first run read is no longer
    on disk. *)
Theorem a_second_run_keeps_the_manifest_and_loses_the_backup
    (project_root : string) (w : world) (content : str) :
  fs w !! manifest_path project_root = Some content ->
  exists w1 w2,
    Reorganize.reorganize_pbxproj project_root w = (Returned tt, w1)
    /\ Reorganize.reorganize_pbxproj project_root w1 = (Returned tt, w2)
    /\ fs w1 !! manifest_path project_root = Some (reorganized content)
    /\ fs w1 !! manifest_backup_path project_root = Some content
    /\ fs w2 !! manifest_path project_root = Some (reorganized content)
    /\ fs w2 !! manifest_backup_path project_root = Some (reorganized content).
Proof.
  intros Hc. eexists _, _.
  split; [by apply reorganize_run|].
  assert (fs (written (written w (manifest_backup_path project_root) content)
                (manifest_path project_root) (reorganized content))
            !! manifest_path project_root = Some (reorganized content)) as H1.
  { cbn [written fs]. by rewrite lookup_insert_eq. }
  split; [by apply reorganize_run|].
  rewrite reorganized_idempotent. cbn [written fs].
  split_and!.
  - by rewrite lookup_insert_eq.
  - rewrite lookup_insert_ne by apply manifest_paths_differ. by rewrite lookup_insert_eq.
  - by rewrite lookup_insert_eq.
  - rewrite lookup_insert_ne by apply manifest_paths_differ. by rewrite lookup_insert_eq.
Qed.

Lemma a_second_run_keeps_the_manifest_and_loses_the_backup_witness :
  exists w1 w2,
    Reorganize.reorganize_pbxproj "." (rooted_world "." theme_line) = (Returned tt, w1)
    /\ Reorganize.reorganize_pbxproj "." w1 = (Returned tt, w2)
    /\ fs w1 !! manifest_path "." = Some (reorganized theme_line)
    /\ fs w1 !! manifest_backup_path "." = Some theme_line
    /\ fs w2 !! manifest_path "." = Some (reorganized theme_line)
    /\ fs w2 !! manifest_backup_path "." = Some (reorganized theme_line).
Proof.
  apply (a_second_run_keeps_the_manifest_and_loses_the_backup
           "." (rooted_world "." theme_line) theme_line).
  reflexivity.
Defined.

Example the_backup_of_a_second_run_differs :
  reorganized theme_line <> theme_line.
Proof. intros Heq. apply (f_equal (fun s => s !! 0)) in Heq. vm_compute in Heq. discriminate. Qed.

(** The line rewriter works line by line: the text it writes has as many
    lines as the text it read, each one the rewriting of the line that stood
    there; a line that does not mention [PBXFileReference], or holds none of
    the keys of the table, keeps its bytes; and when every line is such a
    line the text is written back as it was read. *)
Theorem lines_are_rewritten_in_place (content : str) :
  Reorganize.readlines (reorganized content)
    = map Reorganize.new_line (Reorganize.readlines content)
  /\ length (Reorganize.readlines (reorganized content))
     = length (Reorganize.readlines content)
  /\ (forall i line,
        Reorganize.readlines content !! i = Some line ->
        Py.contains (lit "PBXFileReference") line = false
        \/ Forall (fun kr => Py.contains kr.1 line = false) Reorganize.updates ->
        Reorganize.readlines (reorganized content) !! i = Some line)
  /\ (Forall (fun line =>
                Py.contains (lit "PBXFileReference") line = false
                \/ Forall (fun kr => Py.contains kr.1 line = false) Reorganize.updates)
             (Reorganize.readlines content) ->
      reorganized content = content).
Proof.
  assert (forall line,
            Py.contains (lit "PBXFileReference") line = false
            \/ Forall (fun kr => Py.contains kr.1 line = false) Reorganize.updates ->
            Reorganize.new_line line = line) as Hkeep.
  { intros line Hl. apply rewrite_line_none in Hl. unfold Reorganize.new_line. by rewrite Hl. }
  split_and!.
  - apply readlines_reorganized.
  - by rewrite readlines_reorganized, length_map.
  - intros i line Hi Hl. rewrite readlines_reorganized, list_lookup_fmap, Hi.
    cbn [fmap option_fmap option_map]. f_equal. by apply Hkeep.
  - intros Hall. unfold reorganized.
    rewrite <- (readlines_concat content) at 2. f_equal.
    rewrite <- (map_id (Reorganize.readlines content)) at 2.
    apply map_ext_Forall. eapply Forall_impl; [exact Hall|]. exact Hkeep.
Qed.

Lemma leading_space_lstrip s : s = leading_space s ++ Reorganize.lstrip s.
Proof.
  induction s as [|c s IH]; [done|]. cbn [leading_space Reorganize.lstrip].
  destruct (Reorganize.is_space c); [|done]. cbn [app]. by f_equal.
Qed.

Lemma leading_space_Forall s : Forall (fun c => Reorganize.is_space c = true) (leading_space s).
Proof.
  induction s as [|c s IH]; [constructor|]. cbn [leading_space].
  destruct (Reorganize.is_space c) eqn:E; by constructor.
Qed.

Lemma lstrip_head s c r : Reorganize.lstrip s = c :: r -> Reorganize.is_space c = false.
Proof.
  induction s as [|a s IH]; [done|]. cbn [Reorganize.lstrip].
  destruct (Reorganize.is_space a) eqn:E; [done|]. by intros [= <- <-].
Qed.

(** A rewritten line keeps the width of its indentation and nothing else:
    the leading white space of the line, tabs included, is replaced by as
    many spaces, and the rest of the line by the file reference of the
    table whose key the line holds, followed by a line feed. *)
Theorem a_rewritten_line_keeps_its_indentation_width (line l' : str) :
  Reorganize.rewrite_line Reorganize.updates line = Some l' ->
  exists k r,
    (k, r) ∈ Reorganize.updates
    /\ Py.contains k line = true
    /\ Py.contains (lit "PBXFileReference") line = true
    /\ line = leading_space line ++ Reorganize.lstrip line
    /\ l' = repeat " "%char (length (leading_space line)) ++ r ++ [NL]
    /\ leading_space l' = repeat " "%char (length (leading_space line))
    /\ Reorganize.lstrip l' = r ++ [NL].
Proof.
  intros Hl. apply rewrite_line_shape in Hl as (k & r & Hin & Hk & Hp & ->).
  exists k, r.
  pose proof updates_stable as Hst. rewrite Forall_forall in Hst.
  destruct (Hst _ Hin) as (_ & _ & c & r' & Hr & Hc). cbn [snd] in Hr. subst r.
  assert (length line - length (Reorganize.lstrip line) = length (leading_space line)) as ->.
  { rewrite (leading_space_lstrip line) at 1. rewrite length_app. lia. }
  assert (Reorganize.lstrip (repeat " "%char (length (leading_space line)) ++ (c :: r') ++ [NL])
          = (c :: r') ++ [NL]) as Hstrip.
  { change ((c :: r') ++ [NL]) with (c :: (r' ++ [NL])). by apply lstrip_padded. }
  split_and!; try done.
  - apply leading_space_lstrip.
  - pose proof (leading_space_lstrip
                  (repeat " "%char (length (leading_space line)) ++ (c :: r') ++ [NL])) as Heq.
    rewrite Hstrip in Heq. by apply app_inv_tail in Heq.
Qed.

Lemma a_rewritten_line_keeps_its_indentation_width_witness :
  exists k r,
    (k, r) ∈ Reorganize.updates
    /\ Py.contains k theme_line = true
    /\ Py.contains (lit "PBXFileReference") theme_line = true
    /\ theme_line = leading_space theme_line ++ Reorganize.lstrip theme_line
    /\ reorganized theme_line = repeat " "%char (length (leading_space theme_line)) ++ r ++ [NL]
    /\ leading_space (reorganized theme_line)
       = repeat " "%char (length (leading_space theme_line))
    /\ Reorganize.lstrip (reorganized theme_line) = r ++ [NL].
Proof.
  apply (a_rewritten_line_keeps_its_indentation_width theme_line (reorganized theme_line)).
  vm_compute. reflexivity.
Defined.

(** ** The format of an identifier *)

Lemma hex_fixed_length w n : length (Uuid.hex_fixed w n) = w.
Proof.
  revert n. induction w as [|w IH]; intros n; [done|].
  cbn [Uuid.hex_fixed]. rewrite length_app, IH. cbn [length]. lia.
Qed.

Lemma token_length r : length (Uuid.token r) = 24.
Proof.
  unfold Uuid.token, Py.upper, Uuid.hex. rewrite length_map.
  change 24%Z with (Z.of_nat 24). rewrite upto_nat, length_take, hex_fixed_length. done.
Qed.

(** The digit at offset [j] of [w] digits is the nibble of weight
    [16 ^ (w - 1 - j)]. *)
Lemma hex_fixed_lookup w n j :
  j < w ->
  Uuid.hex_fixed w n !! j
  = Some (Uuid.hex_digit ((n / 16 ^ N.of_nat (w - 1 - j)) mod 16)%N).
Proof.
  revert n j. induction w as [|w IH]; intros n j Hj; [lia|].
  cbn [Uuid.hex_fixed].
  destruct (decide (j = w)) as [->|Hne].
  - rewrite lookup_app_r by (rewrite hex_fixed_length; lia).
    rewrite hex_fixed_length. replace (w - w) with 0 by lia.
    replace (S w - 1 - w) with 0 by lia. cbn [lookup list_lookup N.of_nat].
    by rewrite N.pow_0_r, N.div_1_r.
  - rewrite lookup_app_l by (rewrite hex_fixed_length; lia).
    rewrite IH by lia. do 3 f_equal.
    replace (S w - 1 - j) with (S (w - 1 - j)) by lia.
    rewrite Nat2N.inj_succ, N.pow_succ_r', N.Div0.div_div. done.
Qed.

Lemma token_lookup r j :
  j < 24 ->
  Uuid.token r !! j
  = Some (Py.upper_char (Uuid.hex_digit ((Uuid.uuid4 r / 16 ^ N.of_nat (31 - j)) mod 16)%N)).
Proof.
  intros Hj. unfold Uuid.token, Py.upper, Uuid.hex.
  change 24%Z with (Z.of_nat 24). rewrite upto_nat.
  rewrite list_lookup_fmap, lookup_take_lt by done.
  rewrite hex_fixed_lookup by lia. cbn [fmap option_fmap option_map]. reflexivity.
Qed.

Lemma nibble_bit (u k j : N) :
  N.testbit ((u / 16 ^ k) mod 16) j = (j <? 4)%N && N.testbit u (4 * k + j).
Proof.
  change 16%N with (2 ^ 4)%N. rewrite <- N.pow_mul_r, <- N.shiftr_div_pow2.
  destruct (N.ltb_spec j 4) as [Hlt|Hge]; cbn [andb].
  - rewrite N.mod_pow2_bits_low by done. rewrite N.shiftr_spec by lia. f_equal. lia.
  - by rewrite N.mod_pow2_bits_high.
Qed.

Lemma uuid4_bit r n :
  N.testbit (Uuid.uuid4 r) n
  = (N.testbit (r mod 2 ^ 128) n
       && negb (N.testbit (N.shiftl 0xc000 48) n) || N.testbit (N.shiftl 0x8000 48) n)
      && negb (N.testbit (N.shiftl 0xf000 64) n)
    || N.testbit (N.shiftl 4 76) n.
Proof. unfold Uuid.uuid4. cbv zeta. by rewrite N.lor_spec, N.ldiff_spec, N.lor_spec, N.ldiff_spec. Qed.

(** The version nibble of a random UUID is 4. *)
Lemma uuid4_version r : ((Uuid.uuid4 r / 16 ^ 19) mod 16 = 4)%N.
Proof.
  apply N.bits_inj. intros j. rewrite nibble_bit.
  destruct (N.ltb_spec j 4) as [Hlt|Hge]; cbn [andb].
  - rewrite uuid4_bit.
    assert (j = 0 \/ j = 1 \/ j = 2 \/ j = 3)%N as [-> | [-> | [-> | ->]]] by lia;
      cbn [N.mul N.add Pos.mul Pos.add Pos.succ];
      rewrite ?andb_false_r; reflexivity.
  - symmetry. apply (N.bits_above_log2 4 j). change (N.log2 4) with 2%N. lia.
Qed.

(** The variant nibble of a random UUID is 8, 9, 10 or 11. *)
Lemma uuid4_variant r :
  exists v, (v < 4)%N /\ ((Uuid.uuid4 r / 16 ^ 15) mod 16 = 8 + v)%N.
Proof.
  set (x := ((Uuid.uuid4 r / 16 ^ 15) mod 16)%N).
  assert (N.testbit x 3 = true) as H3.
  { unfold x. rewrite nibble_bit, uuid4_bit. cbn [N.mul N.add Pos.mul Pos.add Pos.succ].
    change (N.testbit (N.shiftl 32768 48) 63) with true.
    change (N.testbit (N.shiftl 61440 64) 63) with false.
    by rewrite orb_true_r. }
  assert (N.testbit x 2 = false) as H2.
  { unfold x. rewrite nibble_bit, uuid4_bit. cbn [N.mul N.add Pos.mul Pos.add Pos.succ].
    change (N.testbit (N.shiftl 49152 48) 62) with true.
    change (N.testbit (N.shiftl 32768 48) 62) with false.
    change (N.testbit (N.shiftl 4 76) 62) with false.
    by rewrite andb_false_r. }
  assert (x < 16)%N as Hx by (apply N.mod_lt; done).
  exists (x - 8)%N.
  assert (Forall (fun n => N.testbit (N.of_nat n) 3 = true -> N.testbit (N.of_nat n) 2 = false ->
                           (N.of_nat n - 8 < 4 /\ N.of_nat n = 8 + (N.of_nat n - 8))%N)
                 (seq 0 16)) as Hall.
  { repeat (apply Forall_cons; split; [vm_compute; intros; try discriminate; split; reflexivity|]).
    constructor. }
  rewrite Forall_forall in Hall.
  specialize (Hall (N.to_nat x)). rewrite N2Nat.id in Hall.
  apply Hall; [|done..]. apply elem_of_seq. lia.
Qed.

(** An identifier is made of 24 upper-case hexadecimal digits; the one at
    offset 12 is always [4] and the one at offset 16 is one of [8], [9],
    [A] and [B], because the version and variant bits of a random UUID are
    fixed: at most 90 of the 96 bits of an identifier vary. *)
Theorem identifiers_are_24_hex_digits_with_fixed_version (r : N) :
  length (Uuid.token r) = 24
  /\ Forall (fun c => c ∈ HEX_UPPER) (Uuid.token r)
  /\ Uuid.token r !! 12 = Some "4"%char
  /\ exists c, Uuid.token r !! 16 = Some c /\ c ∈ lit "89AB".
Proof.
  split_and!.
  - apply token_length.
  - apply token_hex.
  - rewrite token_lookup by lia. change (N.of_nat (31 - 12)) with 19%N.
    by rewrite uuid4_version.
  - rewrite token_lookup by lia. change (N.of_nat (31 - 16)) with 15%N.
    destruct (uuid4_variant r) as (v & Hv & ->). eexists. split; [done|].
    assert (v = 0 \/ v = 1 \/ v = 2 \/ v = 3)%N as [-> | [-> | [-> | ->]]] by lia;
      apply (bool_decide_unpack _); vm_compute; reflexivity.
Qed.

(** ** The keys of the dictionary of file infos *)

Lemma dict_set_keys {V} (k : str) (v : V) d :
  (dict_set k v d).*1 = if decide (k ∈ d.*1) then d.*1 else d.*1 ++ [k].
Proof.
  induction d as [|[k' v'] d IH]; [done|]. cbn [dict_set fmap list_fmap fst].
  destruct (decide (k = k')) as [->|Hne].
  - rewrite decide_True by left. done.
  - cbn [fmap list_fmap fst]. rewrite IH.
    destruct (decide (k ∈ d.*1)) as [Hin|Hout].
    + rewrite decide_True by (by right). done.
    + rewrite decide_False; [done|]. rewrite elem_of_cons. tauto.
Qed.

Lemma remove_dups_snoc (l : list str) p :
  remove_dups (l ++ [p]) = filter (fun x => x <> p) (remove_dups l) ++ [p].
Proof.
  induction l as [|x l IH]; [done|]. cbn [app remove_dups].
  destruct (decide_rel elem_of x (l ++ [p])) as [Hin|Hout].
  - destruct (decide_rel elem_of x l) as [Hin'|Hout']; [done|].
    apply elem_of_app in Hin as [?|Hin]; [done|]. apply list_elem_of_singleton in Hin as ->.
    rewrite filter_cons_False by (intros Hne; by apply Hne). done.
  - apply not_elem_of_app in Hout as [Hout Hne]. rewrite list_elem_of_singleton in Hne.
    destruct (decide_rel elem_of x l) as [?|_]; [done|].
    rewrite filter_cons_True by done. cbn [app]. by f_equal.
Qed.

Lemma first_occurrences_cons p l :
  first_occurrences (p :: l) = p :: filter (fun x => x <> p) (first_occurrences l).
Proof.
  unfold first_occurrences. cbn [rev]. rewrite remove_dups_snoc, rev_app_distr.
  cbn [rev app]. f_equal. induction (remove_dups (rev l)) as [|x xs IH]; [done|].
  cbn [rev]. rewrite filter_app, <- IH.
  destruct (decide (x <> p)).
  - by rewrite !filter_cons_True by done.
  - rewrite !filter_cons_False by done. cbn [filter list_filter]. by rewrite app_nil_r.
Qed.

Lemma collected_keys rnd k files acc :
  (collected rnd k files acc).*1
  = acc.*1 ++ filter (fun x => x ∉ acc.*1) (first_occurrences files).
Proof.
  revert k acc. induction files as [|p files IH]; intros k acc.
  - cbn [collected]. unfold first_occurrences. cbn [rev remove_dups].
    by rewrite filter_nil, app_nil_r.
  - cbn [collected]. rewrite IH, dict_set_keys, first_occurrences_cons.
    destruct (decide (p ∈ acc.*1)) as [Hin|Hout].
    + rewrite filter_cons_False by (intros Hn; by apply Hn). f_equal.
      rewrite list_filter_filter. apply list_filter_iff. intros x. split; [|tauto].
      intros Hx. split; [done|]. by intros ->.
    + rewrite filter_cons_True by done. rewrite <- app_assoc. cbn [app]. do 2 f_equal.
      rewrite list_filter_filter. apply list_filter_iff. intros x.
      rewrite not_elem_of_app, list_elem_of_singleton. tauto.
Qed.

Lemma collected_get_later rnd k files acc p :
  p ∉ files -> dict_get p (collected rnd k files acc) = dict_get p acc.
Proof.
  revert k acc. induction files as [|p' files IH]; intros k acc Hp; [done|].
  apply not_elem_of_cons in Hp as [Hne Hp]. cbn [collected].
  rewrite IH by done. by apply dict_get_set_ne.
Qed.

Lemma collected_get_last rnd k pre p post acc :
  p ∉ post ->
  dict_get p (collected rnd k (pre ++ p :: post) acc)
  = Some {| ref_uuid := Uuid.token (rnd (k + 2 * length pre));
            build_uuid := Uuid.token (rnd (k + 2 * length pre + 1));
            name := Py.basename p |}.
Proof.
  intros Hp. revert k acc. induction pre as [|x pre IH]; intros k acc.
  - cbn [app collected]. rewrite collected_get_later by done. rewrite dict_get_set.
    cbn [length]. do 3 f_equal; f_equal; lia.
  - cbn [app collected]. rewrite IH. cbn [length]. do 3 f_equal; f_equal; lia.
Qed.

(** The dictionary of a run has one entry for each distinct path of the
    list, in the order in which the paths first occur, although two tokens
    are drawn for every element of the list: a path that is listed more
    than once keeps the tokens drawn at its last occurrence, and the tokens
    drawn for the earlier ones are dropped. *)
Theorem a_path_listed_twice_gets_one_entry (files : list str) (w : world) :
  exists frs w',
    collect files [] w = (Returned frs, w')
    /\ frs.*1 = first_occurrences files
    /\ NoDup frs.*1
    /\ drawn w' = drawn w + 2 * length files
    /\ (forall pre p post,
          files = pre ++ p :: post -> p ∉ post ->
          dict_get p frs
          = Some {| ref_uuid := Uuid.token (entropy w (drawn w + 2 * length pre));
                    build_uuid := Uuid.token (entropy w (drawn w + 2 * length pre + 1));
                    name := Py.basename p |}).
Proof.
  eexists _, _. split; [apply collect_returns|].
  assert ((collected (entropy w) (drawn w) files []).*1 = first_occurrences files) as Hk.
  { rewrite collected_keys. cbn [fmap list_fmap app].
    induction (first_occurrences files) as [|x xs IH]; [done|].
    rewrite filter_cons_True by apply not_elem_of_nil. by f_equal. }
  split_and!.
  - done.
  - rewrite Hk. unfold first_occurrences. rewrite <- Permutation_rev. apply NoDup_remove_dups.
  - done.
  - intros pre p post -> Hp. by apply collected_get_last.
Qed.

Example first_occurrences_ex :
  first_occurrences [lit "a"; lit "b"; lit "a"; lit "c"; lit "b"] = [lit "a"; lit "b"; lit "c"].
Proof. vm_compute. reflexivity. Qed.

(** ** An empty list, and a manifest without files array *)

Lemma insert_all_nil content out : insert_all content [] = Some out -> out = content.
Proof.
  unfold insert_all.
  rewrite insert_build_files_eq.
  destruct (Py.index_of BEGIN_BUILD content) as [b1|]; [|done].
  destruct (Py.index_of END_BUILD content) as [e1|]; [|done].
  cbn [mbind option_bind build_file_entries map concat app]. rewrite take_drop.
  rewrite insert_file_refs_eq.
  destruct (Py.index_of BEGIN_REF content) as [b2|]; [|done].
  destruct (Py.index_of END_REF content) as [e2|]; [|done].
  cbn [mbind option_bind file_ref_entries map concat app]. rewrite take_drop.
  rewrite insert_sources_eq.
  destruct (Py.index_of BEGIN_SOURCES content) as [p|]; [|done].
  destruct (Py.index_of END_SOURCES content) as [e3|]; [|done].
  destruct (Py.index_of FILES_OPEN _) as [q|]; [|done].
  destruct (Py.index_of FILES_CLOSE _) as [r|]; [|done].
  cbn [source_entries map concat app]. rewrite take_drop. by intros [= <-].
Qed.

(** With an empty list of files the inserter draws no token and adds no
    line; when the searches succeed it still opens the manifest for
    writing and writes back the very text it read. *)
Theorem an_empty_list_writes_the_manifest_back
    (path : string) (w : world) (content : str) :
  fs w !! path = Some content ->
  add_files_to_pbxproj path [] w = (Returned false, w)
  \/ add_files_to_pbxproj path [] w = (Returned true, written w path content).
Proof.
  intros Hc. rewrite add_files_run, Hc. cbn [length Nat.mul collected]. cbv zeta.
  rewrite advance_0.
  destruct (insert_all content []) as [out|] eqn:E; [|by left].
  right. by rewrite (insert_all_nil _ _ E).
Qed.

Lemma an_empty_list_writes_the_manifest_back_witness :
  add_files_to_pbxproj pbxproj_path [] (sample_world sample_files counting_source)
    = (Returned false, sample_world sample_files counting_source)
  \/ add_files_to_pbxproj pbxproj_path [] (sample_world sample_files counting_source)
    = (Returned true,
       written (sample_world sample_files counting_source) pbxproj_path sample_manifest).
Proof.
  apply (an_empty_list_writes_the_manifest_back pbxproj_path
           (sample_world sample_files counting_source) sample_manifest).
  reflexivity.
Defined.

Example an_empty_list_on_the_sample :
  add_files_to_pbxproj pbxproj_path [] (sample_world sample_files counting_source)
  = (Returned true,
     written (sample_world sample_files counting_source) pbxproj_path sample_manifest).
Proof. vm_compute. reflexivity. Qed.

Lemma occ_drop m s p i : occ m (drop p s) i <-> occ m s (p + i).
Proof. unfold occ. by rewrite drop_drop. Qed.

Lemma index_of_drop_None m s p :
  Py.index_of m s = None -> Py.index_of m (drop p s) = None.
Proof.
  intros Hn. destruct (Py.index_of m (drop p s)) as [i|] eqn:E; [|done].
  apply index_of_Some in E as [Ho _]. apply occ_drop in Ho.
  by destruct (index_of_None _ _ Hn (p + i)).
Qed.

Lemma index_of_splice_free m content e es :
  m <> [] -> TAB ∉ m -> NL ∉ m -> Forall framed es ->
  (forall x k, x ∈ es -> ~ occ m x k) ->
  Py.index_of m content = None ->
  Py.index_of m (take e content ++ concat es ++ drop e content) = None.
Proof.
  intros ? ? ? ? ? Hn. apply index_of_splice_none; try done. by rewrite take_drop.
Qed.

Lemma occ_elem m s i c : m <> [] -> occ m s i -> c ∈ m -> c ∈ s.
Proof.
  intros Hne Ho Hc. apply list_elem_of_lookup in Hc as [j Hj].
  pose proof (lookup_lt_Some _ _ _ Hj) as Hlt.
  rewrite occ_lookup in Ho. rewrite <- Ho in Hj by done.
  by apply list_elem_of_lookup_2 in Hj.
Qed.

Ltac fixed_char H :=
  lazymatch type of H with
  | ?c ∈ ?small =>
      lazymatch goal with
      | |- c ∈ ?big =>
          let F := fresh in
          assert (Forall (fun x => x ∈ big) small) as F
            by (apply (bool_decide_unpack _); vm_compute; reflexivity);
          rewrite Forall_forall in F; exact (F _ H)
      end
  end.

Lemma build_file_entry_chars c i :
  c ∈ build_file_entry i ->
  c ∈ build_uuid i \/ c ∈ ref_uuid i \/ c ∈ name i
  \/ c ∈ TAB :: NL :: lit " /* in Sources */ = {isa = PBXBuildFile; fileRef = ; };".
Proof.
  unfold build_file_entry, build_file_line. rewrite !elem_of_app.
  intros [H|[H|[H|[H|[H|[H|[H|[H|[H|H]]]]]]]]]; auto.
  all: do 3 right.
  all: fixed_char H.
Qed.

Lemma file_ref_entry_chars c p i :
  c ∈ file_ref_entry p i ->
  c ∈ ref_uuid i \/ c ∈ name i
  \/ c ∈ TAB :: NL :: DQUOTE
       :: lit " /* */ = {isa = PBXFileReference; lastKnownFileType = sourcecode.swift; path = ; sourceTree = <group>; };".
Proof.
  unfold file_ref_entry, file_ref_line. cbv zeta. rewrite !elem_of_app.
  intros [H|[H|[H|[H|[H|[H|[H|[H|[H|[H|[H|H]]]]]]]]]]]; auto.
  all: do 2 right; fixed_char H.
Qed.

Lemma token_paren r c : c ∈ lit "()" -> c ∉ Uuid.token r.
Proof.
  intros Hc Hin. pose proof (token_hex r) as Hh. rewrite Forall_forall in Hh.
  specialize (Hh _ Hin). clear Hin. revert c Hc Hh.
  apply (proj1 (Forall_forall (fun c => c ∉ HEX_UPPER) (lit "()"))).
  apply (bool_decide_unpack _). vm_compute. reflexivity.
Qed.

Lemma build_file_entries_unparenthesised rnd k files m x j :
  Forall unparenthesised files -> m ∈ ARRAY_DELIMITERS ->
  x ∈ build_file_entries (collected rnd k files []) -> ~ occ m x j.
Proof.
  intros Hf Hm Hx Ho.
  apply list_elem_of_fmap in Hx as ([p i] & -> & Hkv). cbn [snd] in Ho.
  assert (Forall (fun kv : str * file_info =>
                    forall c, c ∈ lit "()" ->
                      (c ∉ ref_uuid kv.2) /\ (c ∉ build_uuid kv.2) /\ (c ∉ name kv.2))
                 (collected rnd k files [])) as Hall.
  { apply collected_Forall; [constructor|]. intros p' j' Hp' c Hc.
    cbn [snd ref_uuid build_uuid name]. split_and!; [by apply token_paren..|].
    rewrite Forall_forall in Hf. destruct (Hf _ Hp') as [Ho' Hc'].
    apply elem_of_cons in Hc as [->|Hc]; [done|].
    by apply list_elem_of_singleton in Hc as ->. }
  rewrite Forall_forall in Hall. specialize (Hall _ Hkv). cbn [snd] in Hall.
  assert (exists c, c ∈ lit "()" /\ c ∈ m) as (c & Hc & Hcm).
  { unfold ARRAY_DELIMITERS in Hm.
    apply elem_of_cons in Hm as [->|Hm].
    - exists "("%char. split; apply (bool_decide_unpack _); vm_compute; reflexivity.
    - apply list_elem_of_singleton in Hm as ->.
      exists ")"%char. split; apply (bool_decide_unpack _); vm_compute; reflexivity. }
  assert (m <> []) as Hne by (intros ->; by apply elem_of_nil in Hcm).
  pose proof (occ_elem _ _ _ _ Hne Ho Hcm) as Hin.
  destruct (Hall c Hc) as (H1 & H2 & H3).
  apply build_file_entry_chars in Hin as [?|[?|[?|Hin]]]; try done.
  clear Hcm H1 H2 H3. revert c Hc Hin.
  apply (proj1 (Forall_forall
    (fun c => c ∉ TAB :: NL :: lit " /* in Sources */ = {isa = PBXBuildFile; fileRef = ; };")
    (lit "()"))).
  apply (bool_decide_unpack _). vm_compute. reflexivity.
Qed.

Lemma file_ref_entries_unparenthesised rnd k files m x j :
  Forall unparenthesised files -> m ∈ ARRAY_DELIMITERS ->
  x ∈ file_ref_entries (collected rnd k files []) -> ~ occ m x j.
Proof.
  intros Hf Hm Hx Ho.
  apply list_elem_of_fmap in Hx as ([p i] & -> & Hkv). cbn [fst snd] in Ho.
  assert (Forall (fun kv : str * file_info =>
                    forall c, c ∈ lit "()" ->
                      (c ∉ ref_uuid kv.2) /\ (c ∉ build_uuid kv.2) /\ (c ∉ name kv.2))
                 (collected rnd k files [])) as Hall.
  { apply collected_Forall; [constructor|]. intros p' j' Hp' c Hc.
    cbn [snd ref_uuid build_uuid name]. split_and!; [by apply token_paren..|].
    rewrite Forall_forall in Hf. destruct (Hf _ Hp') as [Ho' Hc'].
    apply elem_of_cons in Hc as [->|Hc]; [done|].
    by apply list_elem_of_singleton in Hc as ->. }
  rewrite Forall_forall in Hall. specialize (Hall _ Hkv). cbn [snd] in Hall.
  assert (exists c, c ∈ lit "()" /\ c ∈ m) as (c & Hc & Hcm).
  { unfold ARRAY_DELIMITERS in Hm.
    apply elem_of_cons in Hm as [->|Hm].
    - exists "("%char. split; apply (bool_decide_unpack _); vm_compute; reflexivity.
    - apply list_elem_of_singleton in Hm as ->.
      exists ")"%char. split; apply (bool_decide_unpack _); vm_compute; reflexivity. }
  assert (m <> []) as Hne by (intros ->; by apply elem_of_nil in Hcm).
  pose proof (occ_elem _ _ _ _ Hne Ho Hcm) as Hin.
  destruct (Hall c Hc) as (H1 & H2 & H3).
  apply file_ref_entry_chars in Hin as [?|[?|Hin]]; try done.
  clear Hcm H1 H2 H3. revert c Hc Hin.
  apply (proj1 (Forall_forall
    (fun c => c ∉ TAB :: NL :: DQUOTE
       :: lit " /* */ = {isa = PBXFileReference; lastKnownFileType = sourcecode.swift; path = ; sourceTree = <group>; };")
    (lit "()"))).
  apply (bool_decide_unpack _). vm_compute. reflexivity.
Qed.

Lemma array_delimiter_shape m :
  m ∈ ARRAY_DELIMITERS -> m <> [] /\ (TAB ∉ m) /\ (NL ∉ m).
Proof.
  intros Hm. unfold ARRAY_DELIMITERS in Hm.
  repeat (apply elem_of_cons in Hm as [->|Hm];
          [split_and!; [done|apply (bool_decide_unpack _); reflexivity..]|]).
  by apply elem_of_nil in Hm.
Qed.

Lemma insert_all_no_array content rnd k files m :
  Forall unparenthesised files -> m ∈ ARRAY_DELIMITERS ->
  Py.index_of m content = None ->
  insert_all content (collected rnd k files []) = None.
Proof.
  intros Hf Hm Hn. set (frs := collected rnd k files []).
  destruct (array_delimiter_shape m Hm) as (Hne & Htab & Hnl).
  unfold insert_all.
  rewrite insert_build_files_eq.
  destruct (Py.index_of BEGIN_BUILD content) as [b1|]; [|done].
  destruct (Py.index_of END_BUILD content) as [e1|]; [|done].
  cbn [mbind option_bind].
  set (c1 := take e1 content ++ concat (build_file_entries frs) ++ drop e1 content).
  assert (Py.index_of m c1 = None) as Hn1.
  { apply index_of_splice_free; try done; [apply build_file_entries_framed|].
    intros x j Hx. by apply (build_file_entries_unparenthesised rnd k files). }
  rewrite insert_file_refs_eq.
  destruct (Py.index_of BEGIN_REF c1) as [b2|]; [|done].
  destruct (Py.index_of END_REF c1) as [e2|]; [|done].
  cbn [mbind option_bind].
  set (c2 := take e2 c1 ++ concat (file_ref_entries frs) ++ drop e2 c1).
  assert (Py.index_of m c2 = None) as Hn2.
  { apply index_of_splice_free; try done; [apply file_ref_entries_framed|].
    intros x j Hx. by apply (file_ref_entries_unparenthesised rnd k files). }
  rewrite insert_sources_eq.
  destruct (Py.index_of BEGIN_SOURCES c2) as [p|]; [|done].
  destruct (Py.index_of END_SOURCES c2) as [e3|]; [|done].
  unfold ARRAY_DELIMITERS in Hm.
  apply elem_of_cons in Hm as [->|Hm].
  - by rewrite (index_of_drop_None _ _ p Hn2).
  - apply list_elem_of_singleton in Hm as ->.
    destruct (Py.index_of FILES_OPEN (drop p c2)) as [q|]; [|done].
    by rewrite (index_of_drop_None _ _ (p + q) Hn2).
Qed.

(** Besides the six section markers the inserter needs the files array of
    the build phase: when [files = (] or [);] occurs nowhere in the
    manifest, the run returns [False] and writes nothing, although the
    tokens have been drawn.  (The base names are taken to hold no
    parenthesis, so that no inserted line brings a delimiter along.) *)
Theorem a_missing_files_array_stops_the_run
    (path : string) (files : list str) (w : world) (content m : str) :
  fs w !! path = Some content ->
  m ∈ ARRAY_DELIMITERS ->
  Py.contains m content = false ->
  Forall unparenthesised files ->
  exists w',
    add_files_to_pbxproj path files w = (Returned false, w')
    /\ fs w' = fs w
    /\ writes w' = writes w
    /\ drawn w' = drawn w + 2 * length files.
Proof.
  intros Hfs Hm Hc Hfiles. apply contains_false in Hc.
  eexists. rewrite add_files_run, Hfs. cbn zeta.
  by rewrite (insert_all_no_array content _ _ _ m).
Qed.

Lemma a_missing_files_array_stops_the_run_witness :
  exists w',
    add_files_to_pbxproj pbxproj_path files_to_add
      (sample_world {[ pbxproj_path := arrayless_manifest ]} counting_source)
      = (Returned false, w')
    /\ fs w' = fs (sample_world {[ pbxproj_path := arrayless_manifest ]} counting_source)
    /\ writes w' = writes (sample_world {[ pbxproj_path := arrayless_manifest ]} counting_source)
    /\ drawn w'
       = drawn (sample_world {[ pbxproj_path := arrayless_manifest ]} counting_source)
         + 2 * length files_to_add.
Proof.
  apply (a_missing_files_array_stops_the_run pbxproj_path files_to_add _
           arrayless_manifest FILES_OPEN).
  - reflexivity.
  - unfold ARRAY_DELIMITERS. left.
  - reflexivity.
  - repeat constructor; apply (bool_decide_unpack _); vm_compute; reflexivity.
Defined.

(** ** The scan of the source directory *)

Lemma dir_induction (P : dir -> Prop) :
  (forall files subdirs, Forall (fun e => P e.2) subdirs -> P (Dir files subdirs)) ->
  forall d, P d.
Proof.
  intros Hstep. fix IH 1. intros [files subdirs]. apply Hstep.
  induction subdirs as [|[sub d] subdirs IHs]; constructor; [apply IH|exact IHs].
Qed.

Lemma joined_snoc root parts name :
  joined root (parts ++ [name]) = joined root parts ++ lit "/" ++ name.
Proof. unfold joined. by rewrite foldl_app. Qed.

Lemma joined_prefix root parts : exists rest, joined root parts = root ++ rest.
Proof.
  revert root. induction parts as [|x parts IH]; intros root.
  - exists []. by rewrite app_nil_r.
  - destruct (IH (Walk.path_join root x)) as [rest Hrest].
    exists (lit "/" ++ x ++ rest). cbn [joined foldl] in *. unfold joined in Hrest.
    rewrite Hrest. unfold Walk.path_join. by rewrite <- !app_assoc.
Qed.

Lemma find_swift_files_in_located root d through name :
  located d through name ->
  Forall (fun s => Walk.kept s = true) through ->
  Py.endswith (lit ".swift") name = true ->
  joined root (through ++ [name]) ∈ Walk.find_swift_files_in root d.
Proof.
  intros Hloc. revert root.
  induction Hloc as [files subdirs name Hin|files subdirs sub d through name Hin Hloc IH];
    intros root Hkept Hsw; cbn [Walk.find_swift_files_in]; apply elem_of_app.
  - left. apply list_elem_of_fmap. exists name. split; [done|].
    by apply list_elem_of_filter.
  - right. apply Forall_cons in Hkept as [Hk Hkept].
    apply list_elem_of_In, in_flat_map. exists (sub, d).
    split; [by apply list_elem_of_In|]. cbn [fst snd]. rewrite Hk.
    apply list_elem_of_In. by apply IH.
Qed.

Lemma located_find_swift_files_in d :
  forall root p,
    p ∈ Walk.find_swift_files_in root d ->
    exists through name,
      located d through name
      /\ Forall (fun s => Walk.kept s = true) through
      /\ Py.endswith (lit ".swift") name = true
      /\ p = joined root (through ++ [name]).
Proof.
  induction d as [files subdirs IH] using dir_induction. intros root p Hp.
  cbn [Walk.find_swift_files_in] in Hp. apply elem_of_app in Hp as [Hp|Hp].
  - apply list_elem_of_fmap in Hp as (name & -> & Hn).
    apply list_elem_of_filter in Hn as [Hsw Hn].
    exists [], name. split_and!; [by constructor|constructor|done|done].
  - apply list_elem_of_In, in_flat_map in Hp as ([sub d] & Hin & Hp).
    apply list_elem_of_In in Hin. cbn [fst snd] in Hp.
    destruct (Walk.kept sub) eqn:Hk; [|done]. apply list_elem_of_In in Hp.
    rewrite Forall_forall in IH.
    destruct (IH _ Hin _ _ Hp) as (through & name & Hloc & Hkept & Hsw & ->).
    exists (sub :: through), name. split_and!; [by econstructor|by constructor|done|done].
Qed.

(** The scan returns exactly the files whose name ends in [.swift] and
    that are reached from the scanned directory through directories that
    are neither hidden nor named [build] or [DerivedData]; each is
    returned as the join of the root and of the names on the way. *)
Theorem the_scan_finds_the_swift_files_outside_skipped_directories
    (root : str) (d : dir) (p : str) :
  p ∈ Walk.find_swift_files_in root d <->
  exists through name,
    located d through name
    /\ Forall (fun s => Walk.kept s = true) through
    /\ Py.endswith (lit ".swift") name = true
    /\ p = joined root (through ++ [name]).
Proof.
  split.
  - apply located_find_swift_files_in.
  - intros (through & name & Hloc & Hkept & Hsw & ->).
    by apply find_swift_files_in_located.
Qed.

Lemma startswith_app p s : Py.startswith p (p ++ s) = true.
Proof. apply startswith_take. by rewrite take_app_length. Qed.

Lemma startswith_app_r p s t : Py.startswith p s = true -> Py.startswith p (s ++ t) = true.
Proof.
  rewrite !startswith_take. intros Hp.
  assert (length p <= length s) as Hl by (rewrite <- Hp, length_take; lia).
  by rewrite take_app_le.
Qed.

Lemma endswith_app sfx a s : Py.endswith sfx s = true -> Py.endswith sfx (a ++ s) = true.
Proof. unfold Py.endswith. rewrite rev_app_distr. apply startswith_app_r. Qed.

(** Every path the scan returns lies under the root it was given and ends
    in [.swift]; its base name is the name of the file in its directory
    (file names hold no slash). *)
Theorem scanned_paths_lie_under_the_root (root : str) (d : dir) (p : str) :
  p ∈ Walk.find_swift_files_in root d ->
  Py.startswith (root ++ lit "/") p = true
  /\ Py.endswith (lit ".swift") p = true
  /\ exists through name,
       located d through name
       /\ p = joined root through ++ lit "/" ++ name
       /\ (noslash name -> Py.basename p = name).
Proof.
  intros Hp. apply located_find_swift_files_in in Hp
    as (through & name & Hloc & Hkept & Hsw & ->).
  rewrite joined_snoc. split_and!.
  - destruct through as [|x through].
    + cbn [joined foldl]. rewrite app_assoc. apply startswith_app.
    + cbn [joined foldl]. destruct (joined_prefix (Walk.path_join root x) through) as [rest Hr].
      unfold joined in Hr. rewrite Hr. unfold Walk.path_join.
      rewrite <- !app_assoc. rewrite (app_assoc root). apply startswith_app.
  - rewrite app_assoc. by apply endswith_app.
  - exists through, name. split_and!; [done|done|]. intros Hn. by apply basename_join.
Qed.

Lemma scanned_paths_lie_under_the_root_witness :
  Py.startswith (lit "documentAI" ++ lit "/") (lit "documentAI/Sub/B.swift") = true
  /\ Py.endswith (lit ".swift") (lit "documentAI/Sub/B.swift") = true
  /\ exists through name,
       located two_files_tree through name
       /\ lit "documentAI/Sub/B.swift" = joined (lit "documentAI") through ++ lit "/" ++ name
       /\ (noslash name -> Py.basename (lit "documentAI/Sub/B.swift") = name).
Proof.
  apply (scanned_paths_lie_under_the_root (lit "documentAI") two_files_tree
           (lit "documentAI/Sub/B.swift")).
  apply (bool_decide_unpack _). vm_compute. reflexivity.
Defined.

(** ** Failures of the library-backed synchroniser *)

Section Failure.
Context `{XcodeProject}.

(** A manifest the library cannot parse ends the run with exit code 1 and
    keeps its bytes; the backup is made all the same when there was none,
    because it is made before the manifest is parsed. *)
Theorem an_unparsable_manifest_stops_the_run_after_the_backup
    (w : world) (content : str) :
  fs w !! AutoAdd.project_path = Some content ->
  parse content = None ->
  AutoAdd.backup_path ∉ dirs w ->
  exists w',
    AutoAdd.main w = (Exited 1, w')
    /\ fs w' !! AutoAdd.project_path = Some content
    /\ fs w' !! AutoAdd.backup_path = Some (default content (fs w !! AutoAdd.backup_path))
    /\ (fs w !! AutoAdd.backup_path = None ->
          writes w' = writes w ++ [Wrote AutoAdd.backup_path content])
    /\ (is_Some (fs w !! AutoAdd.backup_path) -> w' = w).
Proof.
  intros Hc Hp Hdir. unfold AutoAdd.main. run. rewrite Hc.
  rewrite (bool_decide_eq_true_2 (is_Some (Some content))) by done. cbn [orb]. run.
  rewrite (bool_decide_eq_false_2 (AutoAdd.backup_path ∈ dirs w)) by done.
  rewrite orb_false_r.
  destruct (fs w !! AutoAdd.backup_path) as [b|] eqn:Eb.
  - rewrite bool_decide_eq_true_2 by done. run. rewrite Hc. run. rewrite Hp. run.
    exists w. by split_and!.
  - rewrite bool_decide_eq_false_2 by (by intros [? ?]). run. rewrite Hc. run.
    rewrite lookup_insert_ne by (apply not_eq_sym, paths_differ). rewrite Hc. run.
    rewrite Hp. run. eexists. split; [done|]. cbn [fs writes]. split_and!.
    + by rewrite lookup_insert_ne by (apply not_eq_sym, paths_differ).
    + by rewrite lookup_insert_eq.
    + done.
    + by intros [? ?].
Qed.

End Failure.

Lemma an_unparsable_manifest_stops_the_run_after_the_backup_witness :
  exists w',
    @AutoAdd.main headed_library (auto_world (lit "garbage") two_files_tree) = (Exited 1, w')
    /\ fs w' !! AutoAdd.project_path = Some (lit "garbage")
    /\ fs w' !! AutoAdd.backup_path
       = Some (default (lit "garbage")
                 (fs (auto_world (lit "garbage") two_files_tree) !! AutoAdd.backup_path))
    /\ (fs (auto_world (lit "garbage") two_files_tree) !! AutoAdd.backup_path = None ->
          writes w' = writes (auto_world (lit "garbage") two_files_tree)
                        ++ [Wrote AutoAdd.backup_path (lit "garbage")])
    /\ (is_Some (fs (auto_world (lit "garbage") two_files_tree) !! AutoAdd.backup_path) ->
          w' = auto_world (lit "garbage") two_files_tree).
Proof.
  apply (@an_unparsable_manifest_stops_the_run_after_the_backup headed_library
           (auto_world (lit "garbage") two_files_tree) (lit "garbage")).
  - reflexivity.
  - reflexivity.
  - apply (bool_decide_unpack _). vm_compute. reflexivity.
Defined.

(** ** A manifest the scanner cannot read *)

Lemma new_files_empty swift_files : Update.new_files swift_files ∅ = swift_files.
Proof.
  unfold Update.new_files. induction swift_files as [|p l IH]; [done|].
  rewrite filter_cons_True by apply not_elem_of_empty. by f_equal.
Qed.

(** When the project directory is there but its manifest cannot be read,
    the scanner carries on with an empty set of references and reports
    every Swift file it finds as new. *)
Theorem an_unreadable_manifest_reports_every_file_as_new
    (project_root : string) (w : world) :
  project_root +:+ "/documentAI.xcodeproj" ∈ dirs w ->
  fs w !! ((project_root +:+ "/documentAI.xcodeproj") +:+ "/project.pbxproj") = None ->
  Update.main project_root w
  = (Returned (Walk.find_swift_files_in (lit (project_root +:+ "/documentAI")) (tree w)), w).
Proof.
  intros Hd Hf. unfold Update.main, Update.get_project_files_from_pbxproj. run.
  rewrite (bool_decide_eq_true_2 _ Hd), orb_true_r. run. rewrite Hf. run.
  by rewrite new_files_empty.
Qed.

Lemma an_unreadable_manifest_reports_every_file_as_new_witness :
  Update.main "." (hollow_world "." two_files_tree)
  = (Returned (Walk.find_swift_files_in (lit ("." +:+ "/documentAI"))
                 (tree (hollow_world "." two_files_tree))),
     hollow_world "." two_files_tree).
Proof.
  apply (an_unreadable_manifest_reports_every_file_as_new "." (hollow_world "." two_files_tree)).
  - apply (bool_decide_unpack _). vm_compute. reflexivity.
  - reflexivity.
Defined.

(** ** What the scanner reads from a line *)

Lemma split_from_skip sep a s k cur :
  k = length a -> Py.split_from sep (a ++ s) k cur = Py.split_from sep s 0 cur.
Proof. intros ->. induction a as [|c a IH]; [by destruct s|]. exact IH. Qed.

Lemma split_from_none sep s cur :
  Py.index_of sep s = None -> Py.split_from sep s 0 cur = [cur ++ s].
Proof.
  revert cur. induction s as [|c s IH]; intros cur Hn.
  - by rewrite app_nil_r.
  - apply index_of_cons_None in Hn as [Hs Hn].
    cbn [Py.split_from]. rewrite Hs. rewrite IH by done. by rewrite <- app_assoc.
Qed.

Lemma split_from_first sep s i cur :
  sep <> [] -> Py.index_of sep s = Some i ->
  Py.split_from sep s 0 cur
  = (cur ++ take i s) :: Py.split_from sep (drop (i + length sep) s) 0 [].
Proof.
  intros Hne. revert i cur. induction s as [|c s IH]; intros i cur Hi.
  - apply index_of_Some in Hi as [Ho _]. apply occ_bound in Ho; [|done].
    destruct sep; [done|]. cbn [length] in Ho. lia.
  - cbn [Py.index_of] in Hi. cbn [Py.split_from].
    destruct (Py.startswith sep (c :: s)) eqn:Es.
    + injection Hi as <-. cbn [take]. rewrite app_nil_r. f_equal.
      apply startswith_take in Es.
      assert (length sep <= length (c :: s)) as Hl.
      { rewrite <- Es. rewrite length_take. lia. }
      destruct sep as [|o sep]; [done|]. cbn [length] in *.
      replace (S (length sep) - 1) with (length sep) by lia.
      cbn [Nat.add drop].
      rewrite <- (take_drop (length sep) s) at 1.
      apply split_from_skip. rewrite length_take. lia.
    + destruct (Py.index_of sep s) as [i'|] eqn:Ei; [|done].
      injection Hi as <-. cbn [take Nat.add drop].
      rewrite (IH i' (cur ++ [c])) by done. by rewrite <- app_assoc.
Qed.

(** The first piece of a split: the text up to the first separator, or the
    whole text when there is none. *)
Lemma split_head sep s :
  sep <> [] ->
  hd [] (Py.split s sep)
  = match Py.index_of sep s with Some i => take i s | None => s end.
Proof.
  intros Hne. unfold Py.split. destruct (Py.index_of sep s) as [i|] eqn:E.
  - by rewrite (split_from_first _ _ _ _ Hne E).
  - by rewrite split_from_none.
Qed.

Lemma split_second sep s i :
  sep <> [] -> Py.index_of sep s = Some i ->
  exists rest,
    Py.split s sep = take i s :: hd [] (Py.split (drop (i + length sep) s) sep) :: rest.
Proof.
  intros Hne Hi. unfold Py.split. rewrite (split_from_first _ _ _ _ Hne Hi). cbn [app].
  destruct (Py.index_of sep (drop (i + length sep) s)) as [j|] eqn:E.
  - rewrite (split_from_first _ _ _ _ Hne E). cbn [app hd]. by eexists.
  - rewrite split_from_none by done. cbn [app hd]. by eexists.
Qed.

Lemma index_of_char c value post :
  c ∉ value -> Py.index_of [c] (value ++ [c] ++ post) = Some (length value).
Proof.
  intros Hc. apply index_of_first.
  - apply occ_app.
  - rewrite length_app. lia.
  - intros j Hj Ho. apply Hc.
    pose proof (proj1 (occ_lookup _ _ _) Ho 0 ltac:(cbn [length]; lia)) as H0.
    rewrite Nat.add_0_r, lookup_app_l in H0 by done.
    by apply list_elem_of_lookup_2 in H0.
Qed.

(** What the scanner takes from a line: the text between the first
    [path = ] and the next semicolon, without the quotes around it. *)
Lemma scan_line_value (refs : gset str) (pre value post : str) :
  Py.index_of PATH_FIELD (pre ++ PATH_FIELD ++ value ++ lit ";" ++ post) = Some (length pre) ->
  ";"%char ∉ value ->
  Py.contains PATH_FIELD value = false ->
  Py.contains (lit ".swift") (pre ++ PATH_FIELD ++ value ++ lit ";" ++ post) = true ->
  Update.scan_line refs (pre ++ PATH_FIELD ++ value ++ lit ";" ++ post)
  = refs ∪ {[ Py.strip DQUOTE value ]}.
Proof.
  intros Hi Hsemi Hval Hsw. unfold Update.scan_line. rewrite Hsw.
  assert (Py.contains (lit "path =") (pre ++ PATH_FIELD ++ value ++ lit ";" ++ post) = true)
    as ->.
  { apply contains_true. exists (length pre). split.
    - change PATH_FIELD with (lit "path =" ++ lit " "). rewrite <- app_assoc. apply occ_app.
    - rewrite length_app. lia. }
  cbn [andb]. fold PATH_FIELD.
  assert (PATH_FIELD <> []) as Hne by done.
  destruct (split_second _ _ _ Hne Hi) as [rest ->].
  rewrite drop_app_ge by lia.
  replace (length pre + length PATH_FIELD - length pre) with (length PATH_FIELD) by lia.
  rewrite drop_app_length. rewrite (split_head PATH_FIELD) by done.
  set (tl := value ++ lit ";" ++ post).
  assert (exists x, match Py.index_of PATH_FIELD tl with
                    | Some i => take i tl
                    | None => tl
                    end = value ++ lit ";" ++ x) as [x ->].
  { destruct (Py.index_of PATH_FIELD tl) as [j|] eqn:Ej; [|by eexists].
    apply index_of_Some in Ej as [Ho _].
    assert (length value < j) as Hj.
    { destruct (decide (length value < j)) as [|Hge]; [done|]. exfalso.
      destruct (decide (j + length PATH_FIELD <= length value)) as [Hin|Hout].
      - apply (proj1 (occ_app_l _ value _ j Hin)) in Ho.
        assert (Py.contains PATH_FIELD value = true) as Ht; [|congruence].
        apply contains_true. exists j. split; [done|lia].
      - assert (";"%char ∈ PATH_FIELD) as Hbad.
        { apply (occ_covers _ _ _ (length value) ";"%char Ho); [lia|].
          unfold tl. rewrite lookup_app_r by lia. rewrite Nat.sub_diag. reflexivity. }
        revert Hbad. apply (bool_decide_unpack _). vm_compute. reflexivity. }
    unfold tl. rewrite take_app_ge by lia.
    destruct (j - length value) as [|n] eqn:En; [lia|].
    exists (take n post). reflexivity. }
  rewrite (split_head (lit ";")) by done.
  change (lit ";") with [";"%char]. rewrite index_of_char by done.
  by rewrite take_app_length.
Qed.

Lemma scan_line_mono refs line x : x ∈ refs -> x ∈ Update.scan_line refs line.
Proof.
  intros Hx. unfold Update.scan_line.
  destruct (Py.contains (lit ".swift") line && Py.contains (lit "path =") line); [|done].
  destruct (Py.split line (lit "path = ")) as [|? [|? ?]]; [done|done|].
  apply elem_of_union. by left.
Qed.

Lemma foldl_scan_line_mono lines refs x :
  x ∈ refs -> x ∈ foldl Update.scan_line refs lines.
Proof.
  revert refs. induction lines as [|l lines IH]; intros refs Hx; [done|].
  cbn [foldl]. by apply IH, scan_line_mono.
Qed.

Lemma foldl_scan_line_elem lines refs line x :
  line ∈ lines -> (forall refs, x ∈ Update.scan_line refs line) ->
  x ∈ foldl Update.scan_line refs lines.
Proof.
  intros Hl Hx. revert refs. induction lines as [|l lines IH]; intros refs.
  - by apply elem_of_nil in Hl.
  - cbn [foldl]. apply elem_of_cons in Hl as [<-|Hl].
    + apply foldl_scan_line_mono, Hx.
    + by apply IH.
Qed.

Lemma get_project_files_run path w content :
  fs w !! path = Some content ->
  Update.get_project_files_from_pbxproj path w
  = (Returned (foldl Update.scan_line ∅ (Py.split content [NL])), w).
Proof. intros Hc. unfold Update.get_project_files_from_pbxproj. run. by rewrite Hc. Qed.

(** From every line that mentions [.swift] the scanner takes the text
    between the first [path = ] and the next semicolon, without the quotes
    around it, whatever else the line holds; a file with that base name is
    then not reported as new. *)
Theorem the_scanner_reads_the_path_value_of_a_line
    (pbxproj_path : string) (w : world) (content pre value post : str) :
  fs w !! pbxproj_path = Some content ->
  pre ++ PATH_FIELD ++ value ++ lit ";" ++ post ∈ Py.split content [NL] ->
  Py.index_of PATH_FIELD (pre ++ PATH_FIELD ++ value ++ lit ";" ++ post) = Some (length pre) ->
  ";"%char ∉ value ->
  Py.contains PATH_FIELD value = false ->
  Py.contains (lit ".swift") (pre ++ PATH_FIELD ++ value ++ lit ";" ++ post) = true ->
  exists referenced,
    Update.get_project_files_from_pbxproj pbxproj_path w = (Returned referenced, w)
    /\ Py.strip DQUOTE value ∈ referenced
    /\ (forall refs,
          Update.scan_line refs (pre ++ PATH_FIELD ++ value ++ lit ";" ++ post)
          = refs ∪ {[ Py.strip DQUOTE value ]})
    /\ (forall swift_files f,
          Py.basename f = Py.strip DQUOTE value ->
          f ∉ Update.new_files swift_files referenced).
Proof.
  intros Hc Hl Hi Hsemi Hval Hsw. eexists. split; [by apply get_project_files_run|].
  assert (forall refs,
            Update.scan_line refs (pre ++ PATH_FIELD ++ value ++ lit ";" ++ post)
            = refs ∪ {[ Py.strip DQUOTE value ]}) as Hscan.
  { intros refs. by apply scan_line_value. }
  assert (Py.strip DQUOTE value ∈ foldl Update.scan_line ∅ (Py.split content [NL])) as Hin.
  { apply (foldl_scan_line_elem _ _ _ _ Hl). intros refs. rewrite Hscan.
    apply elem_of_union. right. by apply elem_of_singleton. }
  split_and!; [done|done|].
  intros swift_files f Hf Hnew. unfold Update.new_files in Hnew.
  apply list_elem_of_filter in Hnew as [Hnew _]. apply Hnew. by rewrite Hf.
Qed.

Lemma the_scanner_reads_the_path_value_of_a_line_witness :
  exists referenced,
    Update.get_project_files_from_pbxproj "./documentAI.xcodeproj/project.pbxproj"
      (rooted_world "." quoted_line) = (Returned referenced, rooted_world "." quoted_line)
    /\ Py.strip DQUOTE ([DQUOTE] ++ lit "A+B.swift" ++ [DQUOTE]) ∈ referenced
    /\ (forall refs,
          Update.scan_line refs
            (([TAB; TAB] ++ lit "B1 /* A+B.swift */ = {isa = PBXFileReference; ")
               ++ PATH_FIELD ++ ([DQUOTE] ++ lit "A+B.swift" ++ [DQUOTE])
               ++ lit ";" ++ lit " sourceTree = x; };")
          = refs ∪ {[ Py.strip DQUOTE ([DQUOTE] ++ lit "A+B.swift" ++ [DQUOTE]) ]})
    /\ (forall swift_files f,
          Py.basename f = Py.strip DQUOTE ([DQUOTE] ++ lit "A+B.swift" ++ [DQUOTE]) ->
          f ∉ Update.new_files swift_files referenced).
Proof.
  apply (the_scanner_reads_the_path_value_of_a_line
           "./documentAI.xcodeproj/project.pbxproj" (rooted_world "." quoted_line) quoted_line
           ([TAB; TAB] ++ lit "B1 /* A+B.swift */ = {isa = PBXFileReference; ")
           ([DQUOTE] ++ lit "A+B.swift" ++ [DQUOTE]) (lit " sourceTree = x; };")).
  - reflexivity.
  - apply (bool_decide_unpack _). vm_compute. reflexivity.
  - vm_compute. reflexivity.
  - apply (bool_decide_unpack _). vm_compute. reflexivity.
  - vm_compute. reflexivity.
  - vm_compute. reflexivity.
Defined.

Example the_quotes_are_stripped :
  Py.strip DQUOTE ([DQUOTE] ++ lit "A+B.swift" ++ [DQUOTE]) = lit "A+B.swift".
Proof. reflexivity. Qed.

(** ** The inserter's lines as the scanner reads them *)

Lemma split_from_prefix a s cur x :
  x ∈ Py.split_from [NL] s 0 [] -> x ∈ Py.split_from [NL] (a ++ [NL] ++ s) 0 cur.
Proof.
  intros Hx. revert cur. induction a as [|c a IH]; intros cur.
  - cbn [app Py.split_from Py.startswith]. rewrite eqb_NL. cbn [length Nat.sub]. by right.
  - cbn [app Py.split_from Py.startswith].
    destruct (Ascii.eqb NL c); [cbn [length Nat.sub]; right|]; apply IH.
Qed.

Lemma split_from_line body rest :
  NL ∉ body ->
  Py.split_from [NL] (body ++ [NL] ++ rest) 0 [] = body :: Py.split_from [NL] rest 0 [].
Proof.
  intros Hb. rewrite (split_from_first [NL] _ (length body)); [|done|by apply index_of_char].
  rewrite take_app_length. cbn [app]. f_equal.
  rewrite drop_app_ge by lia.
  replace (length body + length [NL] - length body) with 1 by (cbn [length]; lia).
  reflexivity.
Qed.

(** A line that follows a line feed, or starts the text, is one of the
    pieces of the split at line feeds. *)
Lemma line_in_split before body rest :
  NL ∉ body -> before = [] \/ (exists x, before = x ++ [NL]) ->
  body ∈ Py.split (before ++ body ++ [NL] ++ rest) [NL].
Proof.
  intros Hb [->|[x ->]]; unfold Py.split.
  - rewrite app_nil_l. rewrite split_from_line by done. by left.
  - rewrite <- app_assoc. apply split_from_prefix. rewrite split_from_line by done. by left.
Qed.

Lemma lines_of_concat before es rest body :
  before = [] \/ (exists x, before = x ++ [NL]) ->
  Forall (fun e => exists b, e = b ++ [NL] /\ (NL ∉ b)) es ->
  NL ∉ body -> body ++ [NL] ∈ es ->
  body ∈ Py.split (before ++ concat es ++ rest) [NL].
Proof.
  intros Hbef Hes Hb Hin. revert before Hbef.
  induction Hes as [|e es (b & -> & Hnl) Hes IH]; intros before Hbef.
  - by apply elem_of_nil in Hin.
  - cbn [concat]. apply elem_of_cons in Hin as [Heq|Hin].
    + apply app_inv_tail in Heq as <-. rewrite <- !app_assoc. by apply line_in_split.
    + rewrite <- (app_assoc (b ++ [NL])), (app_assoc before). apply IH; [done|].
      right. exists (before ++ b). by rewrite <- app_assoc.
Qed.

Lemma file_ref_line_shape u n :
  file_ref_line u n n
  = (([TAB; TAB] ++ u ++ lit " /* " ++ n ++ REF_HEAD) ++ PATH_FIELD ++ n ++ lit ";" ++ REF_TAIL)
    ++ [NL].
Proof.
  unfold file_ref_line.
  change (lit " */ = {isa = PBXFileReference; lastKnownFileType = sourcecode.swift; path = ")
    with (REF_HEAD ++ PATH_FIELD).
  change (lit "; sourceTree = ") with (lit ";" ++ lit " sourceTree = ").
  unfold REF_TAIL. rewrite <- !app_assoc. reflexivity.
Qed.

Lemma hex_not_lower u c :
  Forall (fun c => c ∈ HEX_UPPER) u -> c ∈ u -> c ∉ lit "path = ".
Proof.
  intros Hu Hc. rewrite Forall_forall in Hu. specialize (Hu _ Hc). clear Hc. revert c Hu.
  apply (proj1 (Forall_forall (fun c => c ∉ lit "path = ") HEX_UPPER)).
  apply (bool_decide_unpack _). vm_compute. reflexivity.
Qed.

(** In an inserted file reference with a bare name, the path field is the
    first place where [path = ] occurs. *)
Lemma path_field_first u n rest :
  Forall (fun c => c ∈ HEX_UPPER) u -> " "%char ∉ n ->
  Py.index_of PATH_FIELD
    (([TAB; TAB] ++ u ++ lit " /* " ++ n ++ REF_HEAD) ++ PATH_FIELD ++ rest)
  = Some (length ([TAB; TAB] ++ u ++ lit " /* " ++ n ++ REF_HEAD)).
Proof.
  intros Hu Hn. apply index_of_first.
  - apply occ_app.
  - rewrite !length_app. lia.
  - intros j Hj Ho.
    set (a0 := [TAB; TAB] ++ u ++ lit " /* ").
    assert (([TAB; TAB] ++ u ++ lit " /* " ++ n ++ REF_HEAD) ++ PATH_FIELD ++ rest
            = a0 ++ n ++ REF_HEAD ++ PATH_FIELD ++ rest) as Heq
      by (unfold a0; rewrite <- !app_assoc; reflexivity).
    assert (length ([TAB; TAB] ++ u ++ lit " /* " ++ n ++ REF_HEAD)
            = length a0 + length n + length REF_HEAD) as Hlen
      by (unfold a0; rewrite !length_app; lia).
    rewrite Heq in Ho. rewrite Hlen in Hj. clear Heq Hlen.
    pose proof (proj1 (occ_lookup _ _ _) Ho) as Hl.
    destruct (decide (j < length a0)) as [H0|H0].
    { (* the first character would stand before the name *)
      specialize (Hl 0 ltac:(cbn; lia)). rewrite Nat.add_0_r, lookup_app_l in Hl by done.
      change (PATH_FIELD !! 0) with (Some "p"%char) in Hl.
      apply list_elem_of_lookup_2 in Hl. unfold a0 in Hl.
      rewrite !elem_of_app in Hl. destruct Hl as [Hl|[Hl|Hl]].
      - revert Hl. apply (bool_decide_unpack _). vm_compute. reflexivity.
      - apply (hex_not_lower u _ Hu Hl). apply (bool_decide_unpack _). vm_compute. reflexivity.
      - revert Hl. apply (bool_decide_unpack _). vm_compute. reflexivity. }
    destruct (decide (j < length a0 + length n)) as [H1|H1].
    { (* it would start inside the name *)
      destruct (decide (j + 4 < length a0 + length n)) as [H4|H4].
      - specialize (Hl 4 ltac:(cbn; lia)).
        rewrite lookup_app_r, lookup_app_l in Hl by lia.
        apply list_elem_of_lookup_2 in Hl. by apply Hn.
      - assert (exists d, d < 4 /\ j + S d = length a0 + length n) as (d & Hd & Hjd)
          by (exists (length a0 + length n - j - 1); lia).
        pose proof (Hl (S d) ltac:(cbn; lia)) as Hs.
        rewrite Hjd in Hs. rewrite lookup_app_r, lookup_app_r in Hs by lia.
        replace (length a0 + length n - length a0 - length n) with 0 in Hs by lia.
        destruct d as [|[|[|[|d]]]]; [discriminate Hs..| |lia].
        specialize (Hl 5 ltac:(cbn; lia)).
        replace (j + 5) with (length a0 + length n + 1) in Hl by lia.
        rewrite lookup_app_r, lookup_app_r in Hl by lia.
        replace (length a0 + length n + 1 - length a0 - length n) with 1 in Hl by lia.
        discriminate Hl. }
    (* it would lie in the fixed text before the path field *)
    rewrite (app_assoc a0 n) in Ho.
    apply (proj1 (occ_app_r _ (a0 ++ n) _ j ltac:(rewrite length_app; lia))) in Ho.
    rewrite (app_assoc REF_HEAD PATH_FIELD) in Ho.
    rewrite length_app in Ho.
    assert (j - (length a0 + length n) + length PATH_FIELD <= length (REF_HEAD ++ PATH_FIELD))
      as Hin by (rewrite length_app; lia).
    apply (proj1 (occ_app_l _ _ rest _ Hin)) in Ho.
    assert (Py.index_of PATH_FIELD (REF_HEAD ++ PATH_FIELD) = Some (length REF_HEAD)) as Hfix
      by (vm_compute; reflexivity).
    apply index_of_Some in Hfix as [_ Hmin]. apply (Hmin (j - (length a0 + length n))); [lia|exact Ho].
Qed.

Lemma lstrip_free c s : c ∉ s -> Py.lstrip c s = s.
Proof.
  destruct s as [|a s]; [done|]. intros Hc. apply not_elem_of_cons in Hc as [Hne _].
  cbn [Py.lstrip]. destruct (Ascii.eqb a c) eqn:E; [|done].
  apply Ascii.eqb_eq in E. congruence.
Qed.

Lemma strip_free c s : c ∉ s -> Py.strip c s = s.
Proof.
  intros Hc. unfold Py.strip. rewrite (lstrip_free c s) by done.
  rewrite lstrip_free; [apply rev_involutive|].
  intros Hin. apply Hc. apply list_elem_of_In. apply in_rev. by apply list_elem_of_In.
Qed.

Lemma bare_not_reserved n : bare n -> n ∉ reserved.
Proof.
  intros (Hsp & _) Hn. apply Hsp. clear Hsp. revert n Hn.
  apply (proj1 (Forall_forall (fun n => " "%char ∈ n) reserved)).
  apply (bool_decide_unpack _). vm_compute. reflexivity.
Qed.

Lemma collected_file_refs rnd k files p :
  p ∈ files ->
  exists r,
    file_ref_line (Uuid.token r) (Py.basename p) (Py.basename p)
      ∈ file_ref_entries (collected rnd k files []).
Proof.
  intros Hp. destruct (collected_get rnd k files [] p Hp) as [i Hi].
  apply dict_get_elem in Hi.
  assert (Forall (fun kv : str * file_info =>
                    (exists r, ref_uuid kv.2 = Uuid.token r) /\ name kv.2 = Py.basename kv.1)
                 (collected rnd k files [])) as Hall.
  { apply collected_Forall; [constructor|]. intros p' j _. cbn [fst snd ref_uuid name].
    split; [by eexists|done]. }
  rewrite Forall_forall in Hall. destruct (Hall _ Hi) as [[r Hr] Hn]. cbn [fst snd] in Hr, Hn.
  exists r. apply list_elem_of_fmap. exists (p, i). split; [|done].
  cbn [fst snd]. unfold file_ref_entry. cbv zeta. by rewrite Hr, Hn.
Qed.

Lemma file_ref_entries_collected rnd k files e :
  e ∈ file_ref_entries (collected rnd k files []) ->
  exists r p, p ∈ files /\ e = file_ref_line (Uuid.token r) (Py.basename p) (Py.basename p).
Proof.
  intros He. apply list_elem_of_fmap in He as ([p i] & -> & Hkv).
  assert (Forall (fun kv : str * file_info =>
                    exists r p, p ∈ files /\ ref_uuid kv.2 = Uuid.token r
                                /\ name kv.2 = Py.basename p)
                 (collected rnd k files [])) as Hall.
  { apply collected_Forall; [constructor|]. intros p' j Hp'. cbn [snd ref_uuid name].
    by eexists _, p'. }
  rewrite Forall_forall in Hall. destruct (Hall _ Hkv) as (r & p' & Hp' & Hr & Hn).
  cbn [fst snd] in *. exists r, p'. split; [done|].
  unfold file_ref_entry. cbv zeta. by rewrite Hr, Hn.
Qed.

Lemma token_not_NL r : NL ∉ Uuid.token r.
Proof.
  intros Hin. pose proof (token_hex r) as Hh. rewrite Forall_forall in Hh.
  specialize (Hh _ Hin). revert Hh. apply (bool_decide_unpack _). vm_compute. reflexivity.
Qed.

Lemma file_ref_body_no_NL r n :
  NL ∉ n ->
  NL ∉ ([TAB; TAB] ++ Uuid.token r ++ lit " /* " ++ n ++ REF_HEAD)
         ++ PATH_FIELD ++ n ++ lit ";" ++ REF_TAIL.
Proof.
  intros Hn. rewrite !not_elem_of_app.
  pose proof (token_not_NL r).
  split_and!; try done; apply (bool_decide_unpack _); vm_compute; reflexivity.
Qed.

Lemma scan_file_ref_line refs r n :
  bare n ->
  Update.scan_line refs
    (([TAB; TAB] ++ Uuid.token r ++ lit " /* " ++ n ++ REF_HEAD)
       ++ PATH_FIELD ++ n ++ lit ";" ++ REF_TAIL)
  = refs ∪ {[ n ]}.
Proof.
  intros (Hsp & Hsemi & Hq & Hnl).
  rewrite scan_line_value; [by rewrite strip_free| |done| |].
  - apply path_field_first; [apply token_hex|done].
  - destruct (Py.contains PATH_FIELD n) eqn:E; [|done]. exfalso.
    apply contains_true in E as (i & Ho & _). apply Hsp.
    apply (occ_elem PATH_FIELD n i); [done|done|].
    apply (bool_decide_unpack _). vm_compute. reflexivity.
  - apply contains_true.
    exists (length ([TAB; TAB] ++ Uuid.token r ++ lit " /* " ++ n
                      ++ lit " */ = {isa = PBXFileReference; lastKnownFileType = sourcecode")).
    split.
    + replace (([TAB; TAB] ++ Uuid.token r ++ lit " /* " ++ n ++ REF_HEAD)
                 ++ PATH_FIELD ++ n ++ lit ";" ++ REF_TAIL)
        with (([TAB; TAB] ++ Uuid.token r ++ lit " /* " ++ n
                 ++ lit " */ = {isa = PBXFileReference; lastKnownFileType = sourcecode")
                ++ lit ".swift" ++ (lit "; " ++ PATH_FIELD ++ n ++ lit ";" ++ REF_TAIL)).
      * apply occ_app.
      * change REF_HEAD
          with (lit " */ = {isa = PBXFileReference; lastKnownFileType = sourcecode"
                  ++ lit ".swift" ++ lit "; ").
        rewrite <- !app_assoc. reflexivity.
    + change REF_HEAD
        with (lit " */ = {isa = PBXFileReference; lastKnownFileType = sourcecode"
                ++ lit ".swift" ++ lit "; ").
      rewrite !length_app. lia.
Qed.

(** What the inserter adds, the scanner recognises: after a successful
    run of the inserter on a manifest laid out as Xcode writes it, the
    report-only scanner finds the base name of every added file among the
    paths the manifest references, and reports none of the files as new.
    (The base names are bare words, and the last file reference already
    there ends its line.) *)
Theorem the_scanner_recognises_what_the_inserter_added
    (L : layout) (path : string) (files : list str) (w : world) :
  well_formed L ->
  (exists r, references L = r ++ [NL]) ->
  fs w !! path = Some (manifest L) ->
  Forall (fun p => bare (Py.basename p)) files ->
  exists w1 referenced,
    add_files_to_pbxproj path files w = (Returned true, w1)
    /\ Update.get_project_files_from_pbxproj path w1 = (Returned referenced, w1)
    /\ (forall p, p ∈ files -> Py.basename p ∈ referenced)
    /\ Update.new_files files referenced = [].
Proof.
  intros Hwf [r Hr] Hfs Hbare.
  set (frs := collected (entropy w) (drawn w) files []).
  assert (plain frs) as Hplain.
  { apply collected_plain. eapply Forall_impl; [exact Hbare|].
    intros p Hp. by apply bare_not_reserved. }
  rewrite add_files_run, Hfs. cbv zeta. fold frs.
  rewrite layout_insert_all by done.
  set (out := render L (concat (build_file_entries frs)) (concat (file_ref_entries frs))
                (concat (source_entries frs))).
  eexists _, _. split; [reflexivity|].
  split.
  { apply get_project_files_run. cbn [written fs]. by rewrite lookup_insert_eq. }
  assert (forall p, p ∈ files ->
            Py.basename p ∈ foldl Update.scan_line ∅ (Py.split out [NL])) as Hall.
  { intros p Hp. rewrite Forall_forall in Hbare. pose proof (Hbare _ Hp) as Hb.
    destruct (collected_file_refs (entropy w) (drawn w) files p Hp) as [t Ht]. fold frs in Ht.
    rewrite file_ref_line_shape in Ht.
    eapply foldl_scan_line_elem.
    - unfold out, render.
      set (before := preamble L ++ BEGIN_BUILD ++ build_files L
                       ++ concat (build_file_entries frs) ++ END_BUILD ++ gap1 L
                       ++ BEGIN_REF ++ references L).
      match goal with
      | |- _ ∈ Py.split ?text _ =>
          replace text with
            (before ++ concat (file_ref_entries frs)
               ++ (END_REF ++ gap2 L ++ BEGIN_SOURCES ++ phase_head L ++ FILES_OPEN
                     ++ members L ++ concat (source_entries frs) ++ FILES_CLOSE
                     ++ phase_tail L ++ END_SOURCES ++ epilogue L))
            by (unfold before; rewrite <- !app_assoc; reflexivity)
      end.
      apply lines_of_concat; [| | |exact Ht].
      + right. unfold before. rewrite Hr.
        exists (preamble L ++ BEGIN_BUILD ++ build_files L
                  ++ concat (build_file_entries frs) ++ END_BUILD ++ gap1 L
                  ++ BEGIN_REF ++ r).
        rewrite <- !app_assoc. reflexivity.
      + apply Forall_forall. intros e He.
        apply file_ref_entries_collected in He as (t' & p' & Hp' & ->).
        rewrite file_ref_line_shape. eexists. split; [reflexivity|].
        apply file_ref_body_no_NL. by destruct (Hbare _ Hp') as (_ & _ & _ & ?).
      + apply file_ref_body_no_NL. by destruct Hb as (_ & _ & _ & ?).
    - intros refs. rewrite scan_file_ref_line by done.
      apply elem_of_union. right. by apply elem_of_singleton. }
  split; [exact Hall|].
  apply filter_none. apply Forall_forall. intros p Hp Hnew. apply Hnew. by apply Hall.
Qed.

Lemma the_scanner_recognises_what_the_inserter_added_witness :
  exists w1 referenced,
    add_files_to_pbxproj pbxproj_path files_to_add
      (sample_world sample_files counting_source) = (Returned true, w1)
    /\ Update.get_project_files_from_pbxproj pbxproj_path w1 = (Returned referenced, w1)
    /\ (forall p, p ∈ files_to_add -> Py.basename p ∈ referenced)
    /\ Update.new_files files_to_add referenced = [].
Proof.
  apply (the_scanner_recognises_what_the_inserter_added sample_layout pbxproj_path
           files_to_add (sample_world sample_files counting_source)).
  - repeat split.
  - by exists [].
  - reflexivity.
  - repeat constructor; apply (bool_decide_unpack _); vm_compute; reflexivity.
Defined.

(** ** The rewritten lines as the scanner reads them *)

Lemma update_shape id name path :
  (Reorganize.update id name path).2
  = (lit id ++ lit " /* " ++ lit name ++ REF_HEAD) ++ PATH_FIELD ++ lit path ++ lit ";" ++ REF_TAIL.
Proof.
  unfold Reorganize.update. cbn [snd].
  change (lit " */ = {isa = PBXFileReference; lastKnownFileType = sourcecode.swift; path = ")
    with (REF_HEAD ++ PATH_FIELD).
  change (lit "; sourceTree = ") with (lit ";" ++ lit " sourceTree = ").
  unfold REF_TAIL. rewrite <- !app_assoc. reflexivity.
Qed.

Lemma updates_readable :
  Forall (fun kr => exists id name path,
            kr = Reorganize.update id name path /\ readable_update id name path)
         Reorganize.updates.
Proof.
  unfold Reorganize.updates.
  repeat (apply Forall_cons; split;
          [eexists _, _, _; split; [reflexivity|];
           unfold readable_update; split_and!;
           first [vm_compute; reflexivity
                 |apply (bool_decide_unpack _); vm_compute; reflexivity]|]).
  constructor.
Qed.

Lemma index_of_padded m s n i :
  (exists c m', m = c :: m' /\ c <> " "%char) ->
  Py.index_of m s = Some i ->
  Py.index_of m (repeat " "%char n ++ s) = Some (n + i).
Proof.
  intros (c & m' & -> & Hc) Hi. induction n as [|n IH]; [done|].
  cbn [repeat app Py.index_of Py.startswith].
  destruct (Ascii.eqb c " ") eqn:E; [apply Ascii.eqb_eq in E; done|].
  by rewrite IH.
Qed.

Lemma contains_padded_true m s n :
  (exists c m', m = c :: m' /\ c <> " "%char) ->
  Py.contains m s = true -> Py.contains m (repeat " "%char n ++ s) = true.
Proof.
  intros Hm. unfold Py.contains. destruct (Py.index_of m s) as [i|] eqn:E; [|done].
  intros _. by rewrite (index_of_padded m s n i Hm E).
Qed.

(** The two scripts do not agree on what a path is: a line the line
    rewriter has rewritten carries the path of the file below the source
    directory, and the scanner takes that whole path as the name of a
    referenced file; it compares it with base names, so the file the line
    refers to is reported as new as long as no other line names it. *)
Theorem a_reorganised_file_is_reported_as_new (line l' : str) :
  Reorganize.rewrite_line Reorganize.updates line = Some l' ->
  exists body path,
    l' = body ++ [NL]
    /\ (NL ∉ body)
    /\ (forall refs, Update.scan_line refs body = refs ∪ {[ path ]})
    /\ Py.basename path <> path
    /\ (forall f, Py.basename f = Py.basename path ->
          Update.new_files [f] (Update.scan_line ∅ body) = [f]).
Proof.
  intros Hl. apply rewrite_line_shape in Hl as (k & r & Hin & _ & _ & ->).
  set (n := length line - length (Reorganize.lstrip line)).
  pose proof updates_readable as Hall. rewrite Forall_forall in Hall.
  destruct (Hall _ Hin) as (id & name & path & Heq & Hi & Hsemi & Hval & Hsw & Hq & Hslash).
  assert (r = (Reorganize.update id name path).2) as -> by (by rewrite <- Heq).
  pose proof updates_stable as Hst. rewrite Forall_forall in Hst.
  destruct (Hst _ Hin) as (_ & Hnl & _). rewrite Heq in Hnl.
  exists (repeat " "%char n ++ (Reorganize.update id name path).2), (lit path).
  assert (Py.basename (lit path) <> lit path) as Hbase.
  { intros Hb. pose proof (basename_noslash (lit path)) as Hns. rewrite Hb in Hns.
    unfold noslash in Hns. rewrite Forall_forall in Hns. by apply (Hns _ Hslash). }
  assert (forall refs,
            Update.scan_line refs (repeat " "%char n ++ (Reorganize.update id name path).2)
            = refs ∪ {[ lit path ]}) as Hscan.
  { intros refs. rewrite <- (strip_free DQUOTE (lit path)) at 1 by done.
    assert (repeat " "%char n ++ (Reorganize.update id name path).2
            = (repeat " "%char n ++ lit id ++ lit " /* " ++ lit name ++ REF_HEAD)
                ++ PATH_FIELD ++ lit path ++ lit ";" ++ REF_TAIL) as Hshape
      by (rewrite update_shape, <- !app_assoc; reflexivity).
    rewrite Hshape. apply scan_line_value; [|done|done|].
    - rewrite <- Hshape. rewrite length_app, repeat_length.
      apply index_of_padded; [by eexists _, _|done].
    - rewrite <- Hshape. apply contains_padded_true; [by eexists _, _|done]. }
  split_and!.
  - by rewrite <- app_assoc.
  - rewrite elem_of_app. intros [Hsp|?]; [|done].
    apply list_elem_of_In, repeat_spec in Hsp. discriminate Hsp.
  - exact Hscan.
  - exact Hbase.
  - intros f Hf. unfold Update.new_files. rewrite Hscan.
    rewrite filter_cons_True; [done|]. rewrite Hf.
    rewrite elem_of_union, elem_of_singleton. intros [He|He]; [|done].
    by apply elem_of_empty in He.
Qed.

Lemma a_reorganised_file_is_reported_as_new_witness :
  exists body path,
    reorganized theme_line = body ++ [NL]
    /\ (NL ∉ body)
    /\ (forall refs, Update.scan_line refs body = refs ∪ {[ path ]})
    /\ Py.basename path <> path
    /\ (forall f, Py.basename f = Py.basename path ->
          Update.new_files [f] (Update.scan_line ∅ body) = [f]).
Proof.
  apply (a_reorganised_file_is_reported_as_new theme_line (reorganized theme_line)).
  vm_compute. reflexivity.
Defined.

Example the_reorganised_theme_is_reported_as_new :
  Update.new_files [lit "documentAI/UI/Theme/Theme.swift"]
    (foldl Update.scan_line ∅ (Py.split (reorganized theme_line) [NL]))
  = [lit "documentAI/UI/Theme/Theme.swift"].
Proof. apply (bool_decide_unpack _). vm_compute. reflexivity. Qed.

(** ** Every occurrence of a quoted path *)

Lemma join_with_cons sep p q ps :
  join_with sep (p :: q :: ps) = p ++ sep ++ join_with sep (q :: ps).
Proof. reflexivity. Qed.

Lemma clear_of_first old p rest :
  old <> [] -> clear_of old p -> Py.index_of old (p ++ old ++ rest) = Some (length p).
Proof.
  intros Hne Hp. apply index_of_Some in Hp as [_ Hmin]. apply index_of_first.
  - apply occ_app.
  - rewrite length_app. lia.
  - intros j Hj Ho. apply (Hmin j Hj).
    rewrite app_assoc in Ho. apply (proj1 (occ_app_l old (p ++ old) rest j
      ltac:(rewrite length_app; lia))) in Ho. done.
Qed.

Lemma replace_from_pieces old new pieces last :
  old <> [] ->
  Forall (clear_of old) pieces ->
  Py.contains old last = false ->
  Py.replace_from old new (join_with old (pieces ++ [last])) 0
  = join_with new (pieces ++ [last]).
Proof.
  intros Hne Hall Hlast. induction Hall as [|p pieces Hp Hall IH].
  - cbn [app join_with]. apply replace_from_none. by apply contains_false.
  - assert (exists q qs, pieces ++ [last] = q :: qs) as (q & qs & Heq)
      by (destruct pieces; by eexists _, _).
    cbn [app]. rewrite Heq in *. rewrite !join_with_cons.
    rewrite (replace_from_first old new _ (length p));
      [|done|by apply clear_of_first].
    rewrite take_app_length. do 2 f_equal.
    rewrite drop_app_ge by lia.
    replace (length p + length old - length p) with (length old) by lia.
    rewrite drop_app_length. exact IH.
Qed.

(** Every text is made of pieces that are clear of [old], with [old]
    between them. *)
Lemma pieces_exist old content :
  old <> [] ->
  exists pieces last,
    content = join_with old (pieces ++ [last])
    /\ Forall (clear_of old) pieces
    /\ Py.contains old last = false.
Proof.
  intros Hne.
  assert (forall n content, length content <= n ->
            exists pieces last,
              content = join_with old (pieces ++ [last])
              /\ Forall (clear_of old) pieces
              /\ Py.contains old last = false) as Hgen; [|by apply (Hgen (length content))].
  clear content. induction n as [|n IH]; intros content Hn.
  - destruct content; [|cbn [length] in Hn; lia].
    exists [], []. split_and!; [done|constructor|].
    apply contains_false. destruct old; [done|reflexivity].
  - destruct (Py.index_of old content) as [i|] eqn:Ei.
    + pose proof (index_of_le _ _ _ Ei) as Hle.
      pose proof (index_of_Some _ _ _ Ei) as [Ho Hmin].
      pose proof (occ_bound _ _ _ Ho Hne) as Hb.
      assert (0 < length old) by (destruct old; [done|cbn [length]; lia]).
      destruct (IH (drop (i + length old) content)) as (pieces & last & Heq & Hall & Hlast).
      { rewrite length_drop. lia. }
      exists (take i content :: pieces), last. split_and!.
      * assert (exists q qs, pieces ++ [last] = q :: qs) as (q & qs & Hq)
          by (destruct pieces; by eexists _, _).
        cbn [app]. rewrite Hq, join_with_cons, <- Hq, <- Heq. by apply occ_split.
      * constructor; [|done]. unfold clear_of. apply index_of_first.
        -- rewrite <- (app_nil_r old) at 2. apply occ_app.
        -- rewrite length_app. lia.
        -- intros j Hj Hoj. rewrite length_take in Hj. apply (Hmin j ltac:(lia)).
           rewrite (occ_split old content i Ho Hle), app_assoc.
           apply occ_app_l; [rewrite length_app, length_take; lia|done].
      * done.
    + exists [], content. split_and!; [done|constructor|by apply contains_false].
Qed.

(** C7, as the code has it: a mapping whose old path is matched rewrites
    the text [path = "old";] into [path = "new";] at every place where it
    stands, however many there are, and leaves every other byte alone
    (identifiers and the records that refer to them included): the manifest
    is a sequence of pieces with the old text between them, and the result
    is the same pieces with the new text between them.  A mapping whose old
    path is matched nowhere is passed over without any error, and when no
    mapping matches the script returns normally and writes nothing.  When
    something was rewritten, the text read is saved as the backup and the
    new text as the manifest. *)
Theorem path_rewrite_is_exact_and_silent
    (project_root : string) (w : world) (content : str) :
  fs w !! (project_root +:+ "/documentAI.xcodeproj/project.pbxproj") = Some content ->
  (Forall (fun m => Py.contains (Fix.path_field m.1) content = false) Fix.FILE_MAPPINGS ->
     Fix.fix_pbxproj project_root w = (Returned tt, w))
  /\ (forall n old new,
        Py.contains (Fix.path_field old) content = false ->
        Fix.rewrite_one (content, n) (old, new) = (content, n))
  /\ (forall old,
        exists pieces last,
          content = join_with (Fix.path_field old) (pieces ++ [last])
          /\ Forall (clear_of (Fix.path_field old)) pieces
          /\ Py.contains (Fix.path_field old) last = false)
  /\ (forall n old new pieces last,
        content = join_with (Fix.path_field old) (pieces ++ [last]) ->
        pieces <> [] ->
        Forall (clear_of (Fix.path_field old)) pieces ->
        Py.contains (Fix.path_field old) last = false ->
        Fix.rewrite_one (content, n) (old, new)
          = (join_with (Fix.path_field new) (pieces ++ [last]), S n))
  /\ (forall n old new pre post,
        content = pre ++ Fix.path_field old ++ post ->
        Py.index_of (Fix.path_field old) content = Some (length pre) ->
        Py.contains (Fix.path_field old) post = false ->
        Fix.rewrite_one (content, n) (old, new)
          = (pre ++ Fix.path_field new ++ post, S n))
  /\ (forall content' n w',
        Fix.rewrite_all Fix.FILE_MAPPINGS content = (content', S n) ->
        Fix.fix_pbxproj project_root w = (Returned tt, w') ->
        fs w' = <[project_root +:+ "/documentAI.xcodeproj/project.pbxproj" := content']>
                  (<[project_root +:+ "/documentAI.xcodeproj/project.pbxproj.backup" := content]>
                     (fs w))).
Proof.
  intros Hc. split_and!.
  - intros Hno. unfold Fix.fix_pbxproj. run. rewrite Hc.
    rewrite (bool_decide_eq_true_2 (is_Some (Some content))) by done. cbn [orb]. run.
    rewrite Hc. run. unfold Fix.rewrite_all. by rewrite rewrite_all_nomatch.
  - intros n old new Hno. unfold Fix.rewrite_one. cbn [fst snd]. by rewrite Hno.
  - intros old. apply pieces_exist, path_field_nonempty.
  - intros n old new pieces last -> Hne Hall Hlast. unfold Fix.rewrite_one. cbn [fst snd].
    assert (Py.contains (Fix.path_field old)
              (join_with (Fix.path_field old) (pieces ++ [last])) = true) as ->.
    { destruct Hall as [|p pieces Hp Hall]; [done|].
      assert (exists q qs, pieces ++ [last] = q :: qs) as (q & qs & Heq)
        by (destruct pieces; by eexists _, _).
      cbn [app]. rewrite Heq, join_with_cons. unfold Py.contains.
      by rewrite (clear_of_first _ _ _ (path_field_nonempty old) Hp). }
    f_equal. rewrite replace_path_field.
    by apply replace_from_pieces; [apply path_field_nonempty|..].
  - intros n old new pre post -> Hi Hpost. unfold Fix.rewrite_one. cbn [fst snd].
    unfold Py.contains at 1. rewrite Hi. f_equal.
    rewrite replace_path_field.
    rewrite (replace_from_first _ _ _ _ (path_field_nonempty old) Hi).
    rewrite take_app_length. do 2 f_equal.
    rewrite drop_app_ge by lia.
    replace (length pre + length (Fix.path_field old) - length pre)
      with (length (Fix.path_field old)) by lia.
    rewrite drop_app_length. apply replace_from_none.
    unfold Py.contains in Hpost. by destruct (Py.index_of _ post).
  - intros content' n w' Hall. unfold Fix.fix_pbxproj. run. rewrite Hc.
    rewrite (bool_decide_eq_true_2 (is_Some (Some content))) by done. cbn [orb]. run.
    rewrite Hc. run. rewrite Hall. cbn [Nat.eqb]. run. by intros [= <-].
Qed.

Lemma path_rewrite_is_exact_and_silent_witness :
  Fix.rewrite_one (twice_themed_manifest, 0)
      (lit "Models.swift", lit "Core/Models/Models.swift")
    = (twice_themed_manifest, 0)
  /\ Fix.rewrite_one (twice_themed_manifest, 0) (lit "Theme.swift", lit "UI/Theme/Theme.swift")
    = (lit "B1000012 /* Theme.swift */ = {isa = PBXFileReference; "
         ++ Fix.path_field (lit "UI/Theme/Theme.swift") ++ lit " };" ++ [NL]
         ++ lit "B1000099 /* Theme.swift */ = {isa = PBXFileReference; "
         ++ Fix.path_field (lit "UI/Theme/Theme.swift") ++ lit " };" ++ [NL], 1)
  /\ fs (Fix.fix_pbxproj "." (rooted_world "." twice_themed_manifest)).2
     = <["./documentAI.xcodeproj/project.pbxproj" :=
           lit "B1000012 /* Theme.swift */ = {isa = PBXFileReference; "
             ++ Fix.path_field (lit "UI/Theme/Theme.swift") ++ lit " };" ++ [NL]
             ++ lit "B1000099 /* Theme.swift */ = {isa = PBXFileReference; "
             ++ Fix.path_field (lit "UI/Theme/Theme.swift") ++ lit " };" ++ [NL]]>
         (<["./documentAI.xcodeproj/project.pbxproj.backup" := twice_themed_manifest]>
            (fs (rooted_world "." twice_themed_manifest))).
Proof.
  destruct (path_rewrite_is_exact_and_silent "." (rooted_world "." twice_themed_manifest)
              twice_themed_manifest eq_refl) as (_ & Hskip & _ & Hall & _ & Hrun).
  split_and!.
  - apply Hskip. reflexivity.
  - apply (Hall 0 (lit "Theme.swift") (lit "UI/Theme/Theme.swift")
             [ lit "B1000012 /* Theme.swift */ = {isa = PBXFileReference; ";
               lit " };" ++ [NL] ++ lit "B1000099 /* Theme.swift */ = {isa = PBXFileReference; " ]
             (lit " };" ++ [NL])).
    + reflexivity.
    + done.
    + repeat constructor.
    + reflexivity.
  - apply (Hrun _ 0); [reflexivity|]. vm_compute. reflexivity.
Defined.

(** ** The text of the inserted lines *)

Lemma occ_in_concat (e : str) es : e ∈ es -> exists i, occ e (concat es) i.
Proof.
  intros He. apply list_elem_of_split in He as (l1 & l2 & ->).
  exists (length (concat l1)). rewrite concat_app. cbn [concat]. apply occ_app.
Qed.

(** An occurrence that does not hold the character at the insertion point
    is still there after the insertion. *)
Lemma occ_survives e a blk c b i :
  e <> [] -> c ∉ e -> occ e (a ++ c :: b) i -> exists j, occ e (a ++ blk ++ c :: b) j.
Proof.
  intros Hne Hc Ho.
  destruct (decide (i + length e <= length a)) as [Hin|Hout].
  { exists i. apply occ_app_l; [done|]. by apply (proj1 (occ_app_l e a (c :: b) i Hin)). }
  destruct (decide (length a <= i)) as [Hr|Hl].
  { exists (i + length blk). by apply occ_shift. }
  exfalso. apply Hc. apply (occ_covers e _ i (length a) c Ho); [lia|].
  rewrite lookup_app_r by lia. by rewrite Nat.sub_diag.
Qed.

Lemma file_ref_line_paren r n :
  ")"%char ∉ n -> ")"%char ∉ file_ref_line (Uuid.token r) n n.
Proof.
  intros Hn Hin.
  apply (file_ref_entry_chars _ []
           {| ref_uuid := Uuid.token r; build_uuid := []; name := n |}) in Hin.
  cbn [ref_uuid name] in Hin. destruct Hin as [Hin|[Hin|Hin]]; [|done|].
  - revert Hin. apply token_paren. by right; left.
  - revert Hin. apply (bool_decide_unpack _). vm_compute. reflexivity.
Qed.

(** C9: whenever the inserter succeeds, the manifest it has written holds,
    for every file of the list, the line

      [<TAB><TAB>ID /* NAME */ = {isa = PBXFileReference;
       lastKnownFileType = sourcecode.swift; path = NAME; sourceTree = "<group>"; };]

    in which NAME, the display name and the value of the path field alike,
    is the base name of the file: the directory part of the path the caller
    passed is left out (the relative path the script computes is not used),
    so that a file in a sub-directory is recorded without it.  (The base
    name is taken to hold no closing parenthesis, so that the later search
    for [);] cannot end inside the line.) *)
Theorem file_reference_records_base_name
    (path : string) (files : list str) (w w' : world) (content : str) :
  fs w !! path = Some content ->
  add_files_to_pbxproj path files w = (Returned true, w') ->
  exists out,
    fs w' !! path = Some out
    /\ (forall p, p ∈ files -> ")"%char ∉ Py.basename p ->
          exists ref i,
            occ ([TAB; TAB] ++ ref ++ lit " /* " ++ Py.basename p
                   ++ lit " */ = {isa = PBXFileReference; lastKnownFileType = sourcecode.swift; path = "
                   ++ Py.basename p ++ lit "; sourceTree = " ++ [DQUOTE] ++ lit "<group>"
                   ++ [DQUOTE] ++ lit "; };" ++ [NL])
                out i)
    /\ (forall p, noslash (Py.basename p))
    /\ (forall d n, noslash n -> Py.basename (d ++ lit "/" ++ n) = n).
Proof.
  intros Hfs Hrun. rewrite add_files_run, Hfs in Hrun. cbv zeta in Hrun.
  destruct (insert_all content (collected (entropy w) (drawn w) files [])) as [out|] eqn:E;
    [|discriminate Hrun].
  injection Hrun as <-. exists out. split_and!.
  - cbn [written fs]. by rewrite lookup_insert_eq.
  - intros p Hp Hparen.
    destruct (collected_file_refs (entropy w) (drawn w) files p Hp) as [r Hr].
    exists (Uuid.token r).
    change ([TAB; TAB] ++ Uuid.token r ++ lit " /* " ++ Py.basename p
              ++ lit " */ = {isa = PBXFileReference; lastKnownFileType = sourcecode.swift; path = "
              ++ Py.basename p ++ lit "; sourceTree = " ++ [DQUOTE] ++ lit "<group>"
              ++ [DQUOTE] ++ lit "; };" ++ [NL])
      with (file_ref_line (Uuid.token r) (Py.basename p) (Py.basename p)).
    set (e := file_ref_line (Uuid.token r) (Py.basename p) (Py.basename p)) in *.
    apply insert_all_spliced in E
      as (c1 & c2 & e1 & e2 & sp & sq & sr & _ & _ & _ & Hib2 & _ & _ & _ & Hib3).
    destruct Hib2 as (a2 & b2 & _ & _ & Hc2).
    destruct Hib3 as (a3 & b3 & Hc2' & _ & ->).
    destruct (occ_in_concat e _ Hr) as [i Hi].
    assert (occ e c2 (length a2 + i)) as Ho.
    { rewrite Hc2. apply occ_app_r; [lia|].
      replace (length a2 + i - length a2) with i by lia.
      apply occ_app_l; [|done]. apply occ_bound in Hi; [done|]. by destruct (framed_length e
        (file_ref_entry_framed [] {| ref_uuid := Uuid.token r; build_uuid := [];
                                     name := Py.basename p |})). }
    rewrite Hc2' in Ho.
    change (FILES_CLOSE ++ b3) with (")"%char :: ";"%char :: b3) in *.
    apply (occ_survives e a3 _ ")"%char (";"%char :: b3) (length a2 + i));
      [|by apply file_ref_line_paren|done].
    intros He. by apply (f_equal length) in He.
  - intros p. apply basename_noslash.
  - intros d n. apply basename_join.
Qed.

Lemma file_reference_records_base_name_witness :
  exists out,
    fs (add_files_to_pbxproj pbxproj_path files_to_add
          (sample_world sample_files counting_source)).2 !! pbxproj_path = Some out
    /\ (forall p, p ∈ files_to_add -> ")"%char ∉ Py.basename p ->
          exists ref i,
            occ ([TAB; TAB] ++ ref ++ lit " /* " ++ Py.basename p
                   ++ lit " */ = {isa = PBXFileReference; lastKnownFileType = sourcecode.swift; path = "
                   ++ Py.basename p ++ lit "; sourceTree = " ++ [DQUOTE] ++ lit "<group>"
                   ++ [DQUOTE] ++ lit "; };" ++ [NL])
                out i)
    /\ (forall p, noslash (Py.basename p))
    /\ (forall d n, noslash n -> Py.basename (d ++ lit "/" ++ n) = n).
Proof.
  apply (file_reference_records_base_name pbxproj_path files_to_add
           (sample_world sample_files counting_source) _ sample_manifest).
  - reflexivity.
  - vm_compute. reflexivity.
Defined.

(** The line written for a file in a sub-directory, in the manifest. *)
Example the_directory_is_left_out :
  Py.contains
    ([TAB; TAB] ++ lit "000000000000400080000000 /* PDFDocument+AcroForm.swift */ = {isa = PBXFileReference; lastKnownFileType = sourcecode.swift; path = PDFDocument+AcroForm.swift; sourceTree = "
       ++ [DQUOTE] ++ lit "<group>" ++ [DQUOTE] ++ lit "; };" ++ [NL])
    (default []
       (fs (add_files_to_pbxproj pbxproj_path
              [lit "documentAI/Extensions/PDFDocument+AcroForm.swift"]
              (sample_world sample_files counting_source)).2 !! pbxproj_path))
  = true.
Proof. vm_compute. reflexivity. Qed.

(** C3: in a manifest laid out as Xcode writes it, the run of the inserter
    succeeds and writes the manifest with three blocks of lines added, one
    at the end of each of the three sections and each holding one line per
    entry of the dictionary, in the same order:

      [<TAB><TAB>BUILD /* NAME in Sources */ = {isa = PBXBuildFile; fileRef = REF /* NAME */; };]
      [<TAB><TAB>REF /* NAME */ = {isa = PBXFileReference; ...; path = NAME; sourceTree = "<group>"; };]
      [<TAB><TAB><TAB><TAB>BUILD /* NAME in Sources */,]

    The three lines of an entry are written from the same pair of
    identifiers, so the [fileRef] of the build-file line is the identifier
    of the file-reference line and the membership line carries the
    identifier of the build-file line; and every file handed to the
    inserter (none bearing one of the four reserved names) has its entry,
    under its base name. *)
Theorem every_added_file_is_cross_referenced
    (L : layout) (path : string) (files : list str) (w : world) :
  well_formed L ->
  fs w !! path = Some (manifest L) ->
  Forall (fun p => Py.basename p ∉ reserved) files ->
  exists frs w',
    add_files_to_pbxproj path files w = (Returned true, w')
    /\ fs w' !! path =
         Some (render L
           (concat (map (fun kv : str * file_info =>
              [TAB; TAB] ++ build_uuid kv.2 ++ lit " /* " ++ name kv.2
                ++ lit " in Sources */ = {isa = PBXBuildFile; fileRef = " ++ ref_uuid kv.2
                ++ lit " /* " ++ name kv.2 ++ lit " */; };" ++ [NL]) frs))
           (concat (map (fun kv : str * file_info =>
              [TAB; TAB] ++ ref_uuid kv.2 ++ lit " /* " ++ name kv.2
                ++ lit " */ = {isa = PBXFileReference; lastKnownFileType = sourcecode.swift; path = "
                ++ name kv.2 ++ lit "; sourceTree = " ++ [DQUOTE] ++ lit "<group>" ++ [DQUOTE]
                ++ lit "; };" ++ [NL]) frs))
           (concat (map (fun kv : str * file_info =>
              [TAB; TAB; TAB; TAB] ++ build_uuid kv.2 ++ lit " /* " ++ name kv.2
                ++ lit " in Sources */," ++ [NL]) frs)))
    /\ (forall p, p ∈ files ->
          exists i, (p, i) ∈ frs /\ name i = Py.basename p)
    /\ (forall p i, (p, i) ∈ frs -> p ∈ files).
Proof.
  intros Hwf Hfs Hfiles.
  exists (collected (entropy w) (drawn w) files []). eexists.
  rewrite add_files_run, Hfs. cbn zeta.
  rewrite layout_insert_all; [|done|by apply collected_plain].
  split_and!; [reflexivity| | |].
  - cbn [written fs]. rewrite lookup_insert_eq. reflexivity.
  - intros p Hp. destruct (collected_get (entropy w) (drawn w) files [] p Hp) as [i Hi].
    apply dict_get_elem in Hi. exists i. split; [done|].
    pose proof (collected_names (entropy w) (drawn w) files [] ltac:(constructor)) as Hn.
    rewrite Forall_forall in Hn. by apply (Hn _ Hi).
  - intros p i Hin.
    assert (Forall (fun kv : str * file_info => kv.1 ∈ files)
              (collected (entropy w) (drawn w) files [])) as Hall.
    { rewrite Forall_forall. intros [p' i'] Hkv. cbn [fst].
      assert (p' ∈ (collected (entropy w) (drawn w) files []).*1) as Hk
        by (apply list_elem_of_fmap; by exists (p', i')).
      clear Hkv. rename Hk into Hkv.
      rewrite collected_keys in Hkv. cbn [fmap list_fmap app] in Hkv.
      apply list_elem_of_filter in Hkv as [_ Hkv]. unfold first_occurrences in Hkv.
      apply list_elem_of_In in Hkv. apply (proj2 (in_rev _ _)) in Hkv.
      apply list_elem_of_In in Hkv. apply (proj1 (elem_of_remove_dups _ _)) in Hkv.
      apply list_elem_of_In in Hkv.
      apply (proj2 (in_rev _ _)) in Hkv. by apply list_elem_of_In. }
    rewrite Forall_forall in Hall. by apply (Hall _ Hin).
Qed.

Lemma every_added_file_is_cross_referenced_witness :
  exists frs w',
    add_files_to_pbxproj pbxproj_path files_to_add
      (sample_world sample_files counting_source) = (Returned true, w')
    /\ fs w' !! pbxproj_path =
         Some (render sample_layout
           (concat (map (fun kv : str * file_info =>
              [TAB; TAB] ++ build_uuid kv.2 ++ lit " /* " ++ name kv.2
                ++ lit " in Sources */ = {isa = PBXBuildFile; fileRef = " ++ ref_uuid kv.2
                ++ lit " /* " ++ name kv.2 ++ lit " */; };" ++ [NL]) frs))
           (concat (map (fun kv : str * file_info =>
              [TAB; TAB] ++ ref_uuid kv.2 ++ lit " /* " ++ name kv.2
                ++ lit " */ = {isa = PBXFileReference; lastKnownFileType = sourcecode.swift; path = "
                ++ name kv.2 ++ lit "; sourceTree = " ++ [DQUOTE] ++ lit "<group>" ++ [DQUOTE]
                ++ lit "; };" ++ [NL]) frs))
           (concat (map (fun kv : str * file_info =>
              [TAB; TAB; TAB; TAB] ++ build_uuid kv.2 ++ lit " /* " ++ name kv.2
                ++ lit " in Sources */," ++ [NL]) frs)))
    /\ (forall p, p ∈ files_to_add ->
          exists i, (p, i) ∈ frs /\ name i = Py.basename p)
    /\ (forall p i, (p, i) ∈ frs -> p ∈ files_to_add).
Proof.
  apply (every_added_file_is_cross_referenced sample_layout pbxproj_path files_to_add
           (sample_world sample_files counting_source)).
  - repeat split.
  - reflexivity.
  - repeat constructor; apply (bool_decide_unpack _); vm_compute; reflexivity.
Defined.

(** ** A project that cannot be loaded *)

Section LoadFailure.
Context `{XcodeProject}.

(** [add_files_to_project] lets no failure of the loading escape: when the
    project file cannot be read, when the library cannot parse it, or when
    the project has no target [documentAI], it returns [False] and has
    written nothing.  For an empty list it returns [True] before it loads
    anything. *)
Theorem a_failed_load_writes_nothing (path : string) (files : list str) (w : world) :
  (files = [] -> AutoAdd.add_files_to_project path files w = (Returned true, w))
  /\ (files <> [] ->
      fs w !! path = None
      \/ (exists content, fs w !! path = Some content /\ parse content = None)
      \/ (exists content p,
            fs w !! path = Some content /\ parse content = Some p
            /\ has_target p (lit "documentAI") = false) ->
      AutoAdd.add_files_to_project path files w = (Returned false, w)).
Proof.
  split.
  - by intros ->.
  - intros Hne Hfail. destruct files as [|f files]; [done|].
    unfold AutoAdd.add_files_to_project. run.
    destruct Hfail as [Hn|[(content & Hc & Hp)|(content & p & Hc & Hp & Ht)]].
    + rewrite Hn. by run.
    + rewrite Hc. run. rewrite Hp. by run.
    + rewrite Hc. run. rewrite Hp. run. rewrite Ht. by run.
Qed.

End LoadFailure.

Lemma a_failed_load_writes_nothing_witness :
  @AutoAdd.add_files_to_project headed_library AutoAdd.project_path
    [lit "documentAI/A.swift"] (auto_world (lit "garbage") two_files_tree)
  = (Returned false, auto_world (lit "garbage") two_files_tree).
Proof.
  apply (proj2 (@a_failed_load_writes_nothing headed_library AutoAdd.project_path
                  [lit "documentAI/A.swift"] (auto_world (lit "garbage") two_files_tree))).
  - discriminate.
  - right; left. exists (lit "garbage"). split; reflexivity.
Defined.
